(** * Cyclon: a local HTTP-API-to-Lambda gateway

    A shallow embedding of the core of the gateway:
    - [payload.py]      (token codec and event synthesizer),
    - [lambda_utils.py] (sandbox invoker),
    - [api_router.py]   (router and response translation),
    - [utils.py]        (the environment file),
    - [api_gateway.py]  (the endpoint table read from the configuration),
    followed by the properties established about them.

    Conventions of the embedding.
    - A Python [str] is a [string] whose characters are code points below 256;
      [bytes] are [string]s as well, one character per byte.
    - A Python exception is a value of [exn]; a function that may raise
      returns a [result].  The functions of [utils.py] and [api_gateway.py]
      also raise [Exception] with a message of their own and have result
      types of their own, [try] and [attempt].
    - JSON numbers are integers: the event template and the terminal values
      of the scenarios contain no fractional number.
    - What the program asks of its environment (file system, process
      execution, the web framework's URL matching, the JSON parser, the HMAC
      primitive) is an interface, a type class, with reference instances used
      for closed examples.
    - The one effect that is recorded is the spawning of a sandbox: a
      computation of type [M] returns its outcome together with the commands
      it ran.  What the program prints is left out.
    - The router is modelled up to what its view function returns or
      raises; the conversion of a returned tuple into a response is the
      framework's and is not modelled.
    - The base64 functions follow the library of Python 3.11: decoding is
      [binascii.a2b_base64] without strict mode. *)

From Stdlib Require Import String Ascii List ZArith NArith Lia Bool Arith.
From Stdlib Require Import Numbers.DecimalString.
Import ListNotations.
Open Scope string_scope.

(* ================================================================== *)
(** * Python strings *)
(* ================================================================== *)

Module PyStr.

Definition code (c : ascii) : N := N_of_ascii c.
Definition chr (n : N) : ascii := ascii_of_N n.

Definition dquote : ascii := "034"%char.
Definition squote : ascii := "039"%char.
Definition LF : ascii := "010"%char.
Definition CR : ascii := "013"%char.

Definition str1 (c : ascii) : string := String c "".

(** [q s] is [s] between double quotes, [sq s] between single quotes. *)
Definition q (s : string) : string := String dquote (s ++ str1 dquote).
Definition sq (s : string) : string := String squote (s ++ str1 squote).

(** [str.isspace] on one code point below 256. *)
Definition isspace (c : ascii) : bool :=
  let n := code c in
  ((9 <=? n) && (n <=? 13) || (28 <=? n) && (n <=? 32)
   || (n =? 133) || (n =? 160))%N.

Fixpoint lstrip (s : string) : string :=
  match s with
  | "" => ""
  | String c r => if isspace c then lstrip r else s
  end.

Fixpoint rstrip (s : string) : string :=
  match s with
  | "" => ""
  | String c r =>
      match rstrip r with
      | "" => if isspace c then "" else str1 c
      | r' => String c r'
      end
  end.

(** [s.strip()] *)
Definition strip (s : string) : string := rstrip (lstrip s).

Definition lower_char (c : ascii) : ascii :=
  let n := code c in
  if ((65 <=? n) && (n <=? 90)
      || (192 <=? n) && (n <=? 222) && negb (n =? 215))%N
  then chr (n + 32) else c.

(** [s.lower()] *)
Fixpoint lower (s : string) : string :=
  match s with
  | "" => ""
  | String c r => String (lower_char c) (lower r)
  end.

(** [s.split(sep)] for a one-character separator. *)
Fixpoint split (sep : ascii) (s : string) : list string :=
  match s with
  | "" => [""]
  | String c r =>
      if Ascii.eqb c sep then "" :: split sep r
      else match split sep r with
           | h :: t => String c h :: t
           | [] => [str1 c]
           end
  end.

Definition is_linebreak (c : ascii) : bool :=
  let n := code c in
  ((10 <=? n) && (n <=? 13) || (28 <=? n) && (n <=? 30) || (n =? 133))%N.

(** [s.splitlines()]: a carriage return followed by a line feed is one
    boundary, and no empty string follows a final boundary. *)
Fixpoint splitlines (s : string) : list string :=
  match s with
  | "" => []
  | String c r =>
      if is_linebreak c then
        match r with
        | String c' r' =>
            if Ascii.eqb c CR && Ascii.eqb c' LF
            then "" :: splitlines r' else "" :: splitlines r
        | "" => [""]
        end
      else match splitlines r with
           | h :: t => String c h :: t
           | [] => [str1 c]
           end
  end.

(** [l[-1]], which raises on the empty list. *)
Fixpoint last_item {A} (l : list A) : option A :=
  match l with
  | [] => None
  | [x] => Some x
  | _ :: r => last_item r
  end.

(** [s[:-1]] *)
Fixpoint drop_last (s : string) : string :=
  match s with
  | "" => ""
  | String c "" => ""
  | String c r => String c (drop_last r)
  end.

(** [s[-1]] as an option. *)
Fixpoint last_char (s : string) : option ascii :=
  match s with
  | "" => None
  | String c "" => Some c
  | String _ r => last_char r
  end.

(** [s.rfind(c)], [-1] when [c] does not occur. *)
Fixpoint rfind (c : ascii) (s : string) : Z :=
  match s with
  | "" => -1
  | String a r =>
      let i := rfind c r in
      if (0 <=? i)%Z then (i + 1)%Z
      else if Ascii.eqb a c then 0%Z else (-1)%Z
  end.

(** [s[:i]] and [s[i:]] for a non-negative [i]. *)
Definition upto (i : Z) (s : string) : string := substring 0 (Z.to_nat i) s.
Definition from (i : Z) (s : string) : string :=
  substring (Z.to_nat i) (String.length s - Z.to_nat i) s.

Fixpoint rstrip_char (x : ascii) (s : string) : string :=
  match s with
  | "" => ""
  | String c r =>
      match rstrip_char x r with
      | "" => if Ascii.eqb c x then "" else str1 c
      | r' => String c r'
      end
  end.

Fixpoint all_chars (p : ascii -> bool) (s : string) : bool :=
  match s with
  | "" => true
  | String c r => p c && all_chars p r
  end.

(** A character at which [split "."] does not split. *)
Definition no_dot (c : ascii) : bool := negb (Ascii.eqb c ".").

(** [sub in s] for strings. *)
Fixpoint contains (sub s : string) : bool :=
  prefix sub s ||
  match s with
  | "" => false
  | String _ r => contains sub r
  end.

(** [str(n)] for an integer. *)
Definition of_Z (n : Z) : string := NilZero.string_of_int (Z.to_int n).

Definition isascii (s : string) : bool :=
  all_chars (fun c => (code c <? 128)%N) s.

(** Length of [s.encode('utf-8')]: two bytes for each code point from 128
    to 255, one below. *)
Fixpoint utf8_len (s : string) : nat :=
  match s with
  | "" => 0
  | String c r => (if (code c <? 128)%N then 1 else 2) + utf8_len r
  end.

End PyStr.

(* ================================================================== *)
(** * posixpath *)
(* ================================================================== *)

Module PosixPath.
Import PyStr.

Definition basename (p : string) : string :=
  let i := (rfind "/" p + 1)%Z in from i p.

Definition dirname (p : string) : string :=
  let i := (rfind "/" p + 1)%Z in
  let head := upto i p in
  if negb (head =? "") && negb (all_chars (Ascii.eqb "/") head)
  then rstrip_char "/" head else head.

(** [os.path.splitext]: the extension starts at the last dot of the last
    path component, unless only dots precede it in that component. *)
Definition splitext (p : string) : string * string :=
  let sepIndex := rfind "/" p in
  let dotIndex := rfind "." p in
  if (sepIndex <? dotIndex)%Z then
    let stem := substring (Z.to_nat (sepIndex + 1))
                          (Z.to_nat (dotIndex - sepIndex - 1)) p in
    if all_chars (Ascii.eqb ".") stem then (p, "")
    else (upto dotIndex p, from dotIndex p)
  else (p, "").

End PosixPath.

(* ================================================================== *)
(** * Exceptions and results *)
(* ================================================================== *)

(** The Python exceptions the program raises or lets through. *)
Inductive exn : Type :=
| FileNotFoundError (msg : string)
| TypeError (msg : string)
| ValueError (msg : string)
| KeyError (key : string)
| IndexError (msg : string)
| AttributeError (name : string)
| BinasciiError (msg : string)      (* binascii.Error *)
| JSONDecodeError (doc : string)    (* json.JSONDecodeError *)
| UnicodeError (msg : string).      (* UnicodeDecodeError, UnicodeEncodeError *)

Inductive result (A : Type) : Type :=
| Ok (a : A)
| Raise (e : exn).
Arguments Ok {A} a.
Arguments Raise {A} e.

Definition rbind {A B} (r : result A) (f : A -> result B) : result B :=
  match r with
  | Ok a => f a
  | Raise e => Raise e
  end.

Declare Scope result_scope.
Delimit Scope result_scope with result.
Notation "x <- r ;; k" := (rbind r (fun x => k))
  (at level 61, r at next level, right associativity) : result_scope.

Definition of_option {A} (o : option A) (e : exn) : result A :=
  match o with
  | Some a => Ok a
  | None => Raise e
  end.

(* ================================================================== *)
(** * JSON values and Python dictionaries *)
(* ================================================================== *)

(** A Python [dict] with string keys: the pairs in insertion order. *)
Definition dict (V : Type) : Type := list (string * V).

Module Dict.
Section Ops.
Context {V : Type}.

(** [d.get(k)] *)
Fixpoint get (d : dict V) (k : string) : option V :=
  match d with
  | [] => None
  | (k', v) :: r => if k' =? k then Some v else get r k
  end.

(** [k in d] *)
Definition mem (d : dict V) (k : string) : bool :=
  match get d k with
  | Some _ => true
  | None => false
  end.

(** [d[k] = v]: an existing key keeps its place, a new one goes last. *)
Fixpoint set (d : dict V) (k : string) (v : V) : dict V :=
  match d with
  | [] => [(k, v)]
  | (k', v') :: r =>
      if k' =? k then (k, v) :: r else (k', v') :: set r k v
  end.

Definition keys (d : dict V) : list string := map fst d.

(** Keys are pairwise distinct, as in every Python dictionary. *)
Definition wf (d : dict V) : Prop := NoDup (keys d).
End Ops.
End Dict.

#[warnings="-register-all"]
Inductive json : Type :=
| JNull
| JBool (b : bool)
| JNum (n : Z)
| JStr (s : string)
| JArr (l : list json)
| JObj (d : dict json).

Module Json.
Import PyStr.

(** Python truth value of a parsed JSON value. *)
Definition truthy (v : json) : bool :=
  match v with
  | JNull => false
  | JBool b => b
  | JNum n => negb (n =? 0)%Z
  | JStr s => negb (s =? "")
  | JArr l => match l with [] => false | _ => true end
  | JObj d => match d with [] => false | _ => true end
  end.

Definition type_name (v : json) : string :=
  match v with
  | JNull => "NoneType"
  | JBool _ => "bool"
  | JNum _ => "int"
  | JStr _ => "str"
  | JArr _ => "list"
  | JObj _ => "dict"
  end.

(** [v[k]] for a string [k]. *)
Definition getitem (v : json) (k : string) : result json :=
  match v with
  | JObj d => of_option (Dict.get d k) (KeyError k)
  | JArr _ => Raise (TypeError "list indices must be integers or slices, not str")
  | JStr _ => Raise (TypeError "string indices must be integers, not 'str'")
  | _ => Raise (TypeError (sq (type_name v) ++ " object is not subscriptable"))
  end.

(** [v[k] = x] for a string [k]. *)
Definition setitem (v : json) (k : string) (x : json) : result json :=
  match v with
  | JObj d => Ok (JObj (Dict.set d k x))
  | JArr _ => Raise (TypeError "list indices must be integers or slices, not str")
  | _ => Raise (TypeError (sq (type_name v)
                           ++ " object does not support item assignment"))
  end.

(** [v[k1][k2] = x] *)
Definition setitem2 (v : json) (k1 k2 : string) (x : json) : result json :=
  (inner <- getitem v k1 ;;
   inner' <- setitem inner k2 x ;;
   setitem v k1 inner')%result.

(** [k in v] for a string [k]. *)
Definition contains (v : json) (k : string) : result bool :=
  match v with
  | JObj d => Ok (Dict.mem d k)
  | JStr s => Ok (PyStr.contains k s)
  | JArr l => Ok (existsb (fun x => match x with
                                    | JStr s => s =? k
                                    | _ => false
                                    end) l)
  | _ => Raise (TypeError ("argument of type " ++ sq (type_name v)
                           ++ " is not iterable"))
  end.

(** Vocabulary for statements: [v] is an object that carries the field [k],
    and the value of that field or a default. *)
Definition has_field (v : json) (k : string) : bool :=
  match v with
  | JObj d => Dict.mem d k
  | _ => false
  end.

Definition field_or (v : json) (k : string) (default : json) : json :=
  match v with
  | JObj d => match Dict.get d k with
              | Some x => x
              | None => default
              end
  | _ => default
  end.

Definition hex_digit (n : N) : ascii :=
  if (n <? 10)%N then chr (48 + n) else chr (87 + n).

(** One character of a string under [ensure_ascii]. *)
Definition escape_char (c : ascii) : string :=
  let n := code c in
  if Ascii.eqb c dquote then String "\" (str1 dquote)
  else if Ascii.eqb c "\" then "\\"
  else if (n =? 10)%N then "\n"
  else if (n =? 13)%N then "\r"
  else if (n =? 9)%N then "\t"
  else if (n =? 8)%N then "\b"
  else if (n =? 12)%N then "\f"
  else if ((32 <=? n) && (n <=? 126))%N then str1 c
  else "\u00" ++ str1 (hex_digit (n / 16)) ++ str1 (hex_digit (n mod 16)).

Fixpoint escape (s : string) : string :=
  match s with
  | "" => ""
  | String c r => escape_char c ++ escape r
  end.

Definition encode_string (s : string) : string := q (escape s).

(** [json.dumps(v, separators=(isep, ksep))] *)
Fixpoint dumps_with (isep ksep : string) (v : json) : string :=
  match v with
  | JNull => "null"
  | JBool true => "true"
  | JBool false => "false"
  | JNum n => of_Z n
  | JStr s => encode_string s
  | JArr l =>
      "[" ++ (fix items (l : list json) : string :=
                match l with
                | [] => ""
                | [x] => dumps_with isep ksep x
                | x :: r => dumps_with isep ksep x ++ isep ++ items r
                end) l ++ "]"
  | JObj d =>
      "{" ++ (fix members (d : dict json) : string :=
                match d with
                | [] => ""
                | [(k, x)] => encode_string k ++ ksep ++ dumps_with isep ksep x
                | (k, x) :: r =>
                    encode_string k ++ ksep ++ dumps_with isep ksep x
                    ++ isep ++ members r
                end) d ++ "}"
  end.

(** [json.dumps(v)] *)
Definition dumps (v : json) : string := dumps_with ", " ": " v.

(** [json.dumps(v, separators=(',', ':'))] *)
Definition dumps_compact (v : json) : string := dumps_with "," ":" v.

End Json.

(** The text decoders and the JSON parser of the Python library. *)
Class TextLib : Type := {
  (** [b.decode('utf-8')]; [None] when it raises *)
  decode_utf8 : string -> option string;
  (** the decoding [json.loads] applies to a [bytes] argument *)
  decode_json_bytes : string -> option string;
  (** [json.loads] of a [str]; [None] when it raises *)
  loads_str : string -> option json
}.

Module JsonLoads.
Section Loads.
Context `{TextLib}.

(** [json.loads(s)] for a [str] *)
Definition loads (s : string) : result json :=
  of_option (loads_str s) (JSONDecodeError s).

(** [json.loads(b)] for [bytes] *)
Definition loads_bytes (b : string) : result json :=
  match decode_json_bytes b with
  | Some s => loads s
  | None => Raise (UnicodeError "invalid start byte")
  end.

(** [b.decode('utf-8')] and [str(b, encoding='utf-8')] *)
Definition decode (b : string) : result string :=
  of_option (decode_utf8 b) (UnicodeError "invalid start byte").
End Loads.
End JsonLoads.

(* ================================================================== *)
(** * base64 *)
(* ================================================================== *)

Module Base64.
Import PyStr.

Definition PAD : ascii := "=".

(** The character of a six-bit value, in the standard or in the URL-safe
    alphabet. *)
Definition b64_char (urlsafe : bool) (n : N) : ascii :=
  if (n <? 26)%N then chr (65 + n)
  else if (n <? 52)%N then chr (97 + (n - 26))
  else if (n <? 62)%N then chr (48 + (n - 52))
  else if (n =? 62)%N then (if urlsafe then "-" else "+")
  else (if urlsafe then "_" else "/").

(** [table_a2b_base64]: the six-bit value of a character of the standard
    alphabet. *)
Definition b64_value (c : ascii) : option N :=
  let n := code c in
  if ((65 <=? n) && (n <=? 90))%N then Some (n - 65)%N
  else if ((97 <=? n) && (n <=? 122))%N then Some (n - 97 + 26)%N
  else if ((48 <=? n) && (n <=? 57))%N then Some (n - 48 + 52)%N
  else if (n =? 43)%N then Some 62%N
  else if (n =? 47)%N then Some 63%N
  else None.

Fixpoint encode (urlsafe : bool) (s : string) : string :=
  let ch := b64_char urlsafe in
  match s with
  | "" => ""
  | String a "" =>
      let x := code a in
      String (ch (N.shiftr x 2))
        (String (ch (N.shiftl (N.land x 3) 4)) "==")
  | String a (String b "") =>
      let x := code a in
      let y := code b in
      String (ch (N.shiftr x 2))
        (String (ch (N.lor (N.shiftl (N.land x 3) 4) (N.shiftr y 4)))
           (String (ch (N.shiftl (N.land y 15) 2)) "="))
  | String a (String b (String c r)) =>
      let x := code a in
      let y := code b in
      let z := code c in
      String (ch (N.shiftr x 2))
        (String (ch (N.lor (N.shiftl (N.land x 3) 4) (N.shiftr y 4)))
           (String (ch (N.lor (N.shiftl (N.land y 15) 2) (N.shiftr z 6)))
              (String (ch (N.land z 63)) (encode urlsafe r))))
  end.

(** [base64.urlsafe_b64encode] *)
Definition urlsafe_b64encode (s : string) : string := encode true s.

(** [binascii.a2b_base64] without strict mode. [quad_pos] counts the data
    characters of the current group, [leftchar] holds its pending bits,
    [pads] the padding characters seen since the last data character, [out]
    the bytes produced so far, last first, and [n] how many were produced. *)
Fixpoint a2b_base64 (s : string) (quad_pos leftchar pads : N)
         (out : list ascii) (n : N) : result string :=
  let finish := Ok (string_of_list_ascii (rev out)) in
  match s with
  | "" =>
      if (quad_pos =? 0)%N then finish
      else if (quad_pos =? 1)%N then
        Raise (BinasciiError
          ("Invalid base64-encoded string: number of data characters ("
           ++ of_Z (Z.of_N (n / 3 * 4 + 1))
           ++ ") cannot be 1 more than a multiple of 4"))
      else Raise (BinasciiError "Incorrect padding")
  | String c r =>
      if Ascii.eqb c PAD then
        if (2 <=? quad_pos)%N then
          if (4 <=? quad_pos + (pads + 1))%N then finish
          else a2b_base64 r quad_pos leftchar (pads + 1) out n
        else a2b_base64 r quad_pos leftchar pads out n
      else
        match b64_value c with
        | None => a2b_base64 r quad_pos leftchar pads out n
        | Some v =>
            if (quad_pos =? 0)%N then a2b_base64 r 1 v 0 out n
            else if (quad_pos =? 1)%N then
              a2b_base64 r 2 (N.land v 15) 0
                (chr (N.lor (N.shiftl leftchar 2) (N.shiftr v 4)) :: out)
                (n + 1)
            else if (quad_pos =? 2)%N then
              a2b_base64 r 3 (N.land v 3) 0
                (chr (N.lor (N.shiftl leftchar 4) (N.shiftr v 2)) :: out)
                (n + 1)
            else
              a2b_base64 r 0 0 0
                (chr (N.lor (N.shiftl leftchar 6) v) :: out) (n + 1)
        end
  end.

(** [base64.b64decode(s)] for a [str] argument, standard alphabet,
    [validate=False]. *)
Definition b64decode (s : string) : result string :=
  if isascii s then a2b_base64 s 0 0 0 [] 0
  else Raise (ValueError "string argument should contain only ASCII characters").

End Base64.
(* ================================================================== *)
(** * payload.py: token codec and event synthesizer *)
(* ================================================================== *)

(** [hmac.new(key, msg, sha256).digest()] *)
Class Hmac : Type := {
  hmac_sha256 : string -> string -> string
}.

Module Payload.
Import PyStr.

Definition AUTH_HEADER : string := "authorization".
Definition CONTENT_TYPE : string := "content-type".
Definition CONTENT_LENGTH : string := "content-length".

(** Truth value of an optional string argument: neither [None] nor empty. *)
Definition given (o : option string) : bool :=
  match o with
  | Some s => negb (s =? "")
  | None => false
  end.

Definition or_else (o : option string) (default : string) : string :=
  match o with
  | Some s => if s =? "" then default else s
  | None => default
  end.

(** [s.encode('ascii')] *)
Definition encode_ascii (s : string) : result string :=
  if isascii s then Ok s
  else Raise (UnicodeError "'ascii' codec can't encode character").

(** [while b[-1] == 61: b = b[:-1]].  Every round removes one byte, so
    [String.length b] rounds are enough; the subscript raises once [b] is
    empty. *)
Fixpoint remove_padding_loop (rounds : nat) (b : string) : result string :=
  match last_char b with
  | None => Raise (IndexError "index out of range")
  | Some c =>
      if Ascii.eqb c "=" then
        match rounds with
        | O => Raise (IndexError "index out of range")
        | S n => remove_padding_loop n (drop_last b)
        end
      else Ok b
  end.

Definition remove_padding (b : string) : result string :=
  remove_padding_loop (String.length b) b.

Section Jwt.
Context `{Hmac}.

Definition JWT_HEADER : json :=
  JObj [("alg", JStr "HS256"); ("typ", JStr "JWT")].

(** The claims object [build_jwt] encodes. *)
Definition jwt_payload (user_id : string) (name email : option string)
  : json :=
  let p := [("sub", JStr user_id)] in
  let p := if given name
           then Dict.set p "name" (JStr (or_else name "")) else p in
  let p := if given email
           then Dict.set p "email" (JStr (or_else email "")) else p in
  JObj p.

Definition build_jwt (user_id : string) (name email : option string)
           (secret : string) : result string :=
  (jwt_header_str <- encode_ascii (Json.dumps_compact JWT_HEADER) ;;
   jwt_header_b64 <- remove_padding (Base64.urlsafe_b64encode jwt_header_str) ;;
   jwt_payload_str <-
     encode_ascii (Json.dumps_compact (jwt_payload user_id name email)) ;;
   jwt_payload_b64 <- remove_padding (Base64.urlsafe_b64encode jwt_payload_str) ;;
   key <- encode_ascii secret ;;
   let digest := hmac_sha256 key (jwt_header_b64 ++ "." ++ jwt_payload_b64) in
   signature <- remove_padding (Base64.urlsafe_b64encode digest) ;;
   Ok (jwt_header_b64 ++ "." ++ jwt_payload_b64 ++ "." ++ signature))%result.
End Jwt.

Fixpoint repeat_string (s : string) (n : nat) : string :=
  match n with
  | O => ""
  | S m => s ++ repeat_string s m
  end.

Section Event.
Context `{TextLib}.

Definition parse_jwt_payload (jwt : string) : result json :=
  let tokens := split "." jwt in
  if negb (List.length tokens =? 3)%nat then
    Raise (ValueError ("Invalid JWT: " ++ jwt))
  else
    let payload := nth 1 tokens "" in
    let payload :=
      payload ++ repeat_string "=" (String.length payload mod 4) in
    (decoded <- Base64.b64decode payload ;;
     JsonLoads.loads_bytes decoded)%result.

Definition line (s : string) : string := s ++ str1 LF.

(** [payload_template.format(ROUTE=..., METHOD=..., ...)] *)
Definition payload_template
           (ROUTE METHOD USER_AGENT SOURCE_IP SERVER_HOST : string) : string :=
  String.concat ""
    [ line "{";
      line ("  " ++ q "version" ++ ": " ++ q "2.0" ++ ",");
      line ("  " ++ q "routeKey" ++ ": " ++ q (METHOD ++ " " ++ ROUTE) ++ ",");
      line ("  " ++ q "rawPath" ++ ": " ++ q ROUTE ++ ",");
      line ("  " ++ q "rawQueryString" ++ ": " ++ q "" ++ ",");
      line ("  " ++ q "headers" ++ ": {");
      line "  },";
      line ("  " ++ q "requestContext" ++ ": {");
      line ("    " ++ q "accountId" ++ ": " ++ q "" ++ ",");
      line ("    " ++ q "apiId" ++ ": " ++ q "" ++ ",");
      line ("    " ++ q "domainName" ++ ": " ++ q SERVER_HOST ++ ",");
      line ("    " ++ q "domainPrefix" ++ ": " ++ q "" ++ ",");
      line ("    " ++ q "http" ++ ": {");
      line ("      " ++ q "method" ++ ": " ++ q METHOD ++ ",");
      line ("      " ++ q "path" ++ ": " ++ q ROUTE ++ ",");
      line ("      " ++ q "protocol" ++ ": " ++ q "HTTP/1.1" ++ ",");
      line ("      " ++ q "sourceIp" ++ ": " ++ q SOURCE_IP ++ ",");
      line ("      " ++ q "userAgent" ++ ": " ++ q USER_AGENT);
      line "    },";
      line ("    " ++ q "requestId" ++ ": " ++ q "" ++ ",");
      line ("    " ++ q "routeKey" ++ ": " ++ q (METHOD ++ " " ++ ROUTE) ++ ",");
      line ("    " ++ q "stage" ++ ": " ++ q "$default" ++ ",");
      line ("    " ++ q "time" ++ ": " ++ q "" ++ ",");
      line ("    " ++ q "timeEpoch" ++ ": 0");
      line "  },";
      line ("  " ++ q "isBase64Encoded" ++ ": false");
      line "}" ].

(** [for header in headers: _headers[header.lower()] = headers[header]] *)
Definition lower_headers (headers : dict string) : dict json :=
  fold_left
    (fun acc header =>
       match Dict.get headers header with
       | Some v => Dict.set acc (lower header) (JStr v)
       | None => acc
       end)
    (Dict.keys headers) [].

(** [_headers] after the loop over the headers of the caller, if any. *)
Definition supplied (headers : option (dict string)) : dict json :=
  match headers with
  | Some h => lower_headers h
  | None => []
  end.

(** [len(body) if body else 0] *)
Definition body_length (body : option string) : Z :=
  match body with
  | Some b => if given body then Z.of_nat (String.length b) else 0
  | None => 0
  end.

(** The header map after the two defaults were added. *)
Definition default_headers (headers : option (dict string))
           (body : option string) : dict json :=
  let _headers := supplied headers in
  let _headers :=
    if Dict.mem _headers CONTENT_LENGTH then _headers
    else Dict.set _headers CONTENT_LENGTH (JNum (body_length body)) in
  if Dict.mem _headers CONTENT_TYPE then _headers
  else Dict.set _headers CONTENT_TYPE (JStr "application/json").

(** Vocabulary for statements about the headers: the value of the header
    [k] in the event [payload], if the event has one. *)
Definition header_of (payload : json) (k : string) : option json :=
  match payload with
  | JObj d => match Dict.get d "headers" with
              | Some (JObj h) => Dict.get h k
              | _ => None
              end
  | _ => None
  end.

(** Vocabulary for statements about the query string: a pair as the loop
    renders it, a pair as the structured block holds it, and the string
    the loop has accumulated after the pairs [l]. *)
Definition render (kv : string * string) : string :=
  strip (fst kv) ++ "=" ++ strip (snd kv).

Definition as_json (kv : string * string) : string * json :=
  (fst kv, JStr (snd kv)).

Definition raw_of (l : dict string) : string :=
  String.concat "" (map (fun kv => render kv ++ "&") l).

(** [for header in _headers: payload['headers'][header] = _headers[header]] *)
Definition populate_headers (_headers : dict json) (payload : json)
  : result json :=
  fold_left
    (fun acc header =>
       (payload <- acc ;;
        v <- of_option (Dict.get _headers header) (KeyError header) ;;
        Json.setitem2 payload "headers" header v)%result)
    (Dict.keys _headers) (Ok payload).

(** The loop over [params]: the structured block is filled and the raw
    query string grows by [key=value&] for each parameter. *)
Definition add_param (params : dict string)
           (acc : result (json * string)) (param : string)
  : result (json * string) :=
  (st <- acc ;;
   v <- of_option (Dict.get params param) (KeyError param) ;;
   payload <- Json.setitem2 (fst st) "queryStringParameters" param (JStr v) ;;
   Ok (payload, snd st ++ strip param ++ "=" ++ strip v ++ "&"))%result.

Definition add_params (params : dict string) (payload : json)
  : result (json * string) :=
  fold_left (add_param params) (Dict.keys params) (Ok (payload, "")).

Definition build_payload (route method : string)
           (user_agent source_ip server_hostname : option string)
           (headers : option (dict string))
           (params : option (dict string))
           (body : option string) : result json :=
  (payload <- JsonLoads.loads
                (payload_template (strip route) (strip method)
                   (or_else user_agent "")
                   (or_else source_ip "0.0.0.0")
                   (or_else server_hostname "localhost")) ;;
   let _headers := default_headers headers body in
   payload <- populate_headers _headers payload ;;
   payload <- match body with
              | Some b => if given body
                          then Json.setitem payload "body" (JStr b)
                          else Ok payload
              | None => Ok payload
              end ;;
   payload <-
     match Dict.get _headers AUTH_HEADER with
     | None => Ok payload
     | Some jwt =>
         payload <- Json.setitem2 payload "headers" AUTH_HEADER jwt ;;
         claims <- match jwt with
                   | JStr s => parse_jwt_payload s
                   | _ => Raise (AttributeError "split")
                   end ;;
         Json.setitem2 payload "requestContext" "authorizer"
           (JObj [("jwt", JObj [("claims", claims)]); ("scopes", JNull)])
     end ;;
   match params with
   | Some ((_ :: _) as ps) =>
       payload <- Json.setitem payload "queryStringParameters" (JObj []) ;;
       st <- add_params ps payload ;;
       let rawQueryString := snd st in
       let rawQueryString :=
         if negb (rawQueryString =? "") then drop_last rawQueryString
         else rawQueryString in
       Json.setitem (fst st) "rawQueryString" (JStr rawQueryString)
   | _ => Ok payload
   end)%result.

(** [build_payload] as [build_authenticated_payload] calls it: the token
    of [user_id] is stored under [authentication_header] first.  Here
    [headers = None] is a call without the keyword [headers]. *)
Definition build_authenticated_payload `{Hmac} (user_id : string)
           (authentication_header : string)
           (route method : string)
           (user_agent source_ip server_hostname : option string)
           (headers : option (dict string))
           (params : option (dict string))
           (body : option string) : result json :=
  (jwt <- build_jwt user_id None None "default" ;;
   let headers := match headers with Some h => h | None => [] end in
   build_payload route method user_agent source_ip server_hostname
     (Some (Dict.set headers authentication_header jwt)) params body)%result.
End Event.

End Payload.
(* ================================================================== *)
(** * The host: file system and sandbox execution *)
(* ================================================================== *)

(** What [utils.run_cmd] gives back: [subprocess.run] with [check=True]
    returns on exit status zero and raises [CalledProcessError] otherwise;
    both carry the exit status and the captured standard output. *)
Inductive completion : Type :=
| CompletedProcess (returncode : Z) (stdout : string)
| CalledProcessError (returncode : Z) (stdout : string).

Definition returncode_of (c : completion) : Z :=
  match c with
  | CompletedProcess rc _ => rc
  | CalledProcessError rc _ => rc
  end.

Definition stdout_of (c : completion) : string :=
  match c with
  | CompletedProcess _ out => out
  | CalledProcessError _ out => out
  end.

Class Host : Type := {
  path_exists : string -> bool;        (* os.path.exists *)
  path_isfile : string -> bool;        (* os.path.isfile *)
  path_isdir : string -> bool;         (* os.path.isdir *)
  path_abspath : string -> string;     (* os.path.abspath *)
  run_cmd : string -> completion       (* utils.run_cmd *)
}.

(** A computation that may raise and that records, in order, the sandbox
    commands it ran. *)
Definition M (A : Type) : Type := (result A * list string)%type.

Definition ret {A} (a : A) : M A := (Ok a, []).
Definition raise {A} (e : exn) : M A := (Raise e, []).
Definition lift {A} (r : result A) : M A := (r, []).

Definition bind {A B} (m : M A) (f : A -> M B) : M B :=
  match m with
  | (Ok a, t) => let (r, t') := f a in (r, (t ++ t')%list)
  | (Raise e, t) => (Raise e, t)
  end.

Declare Scope M_scope.
Delimit Scope M_scope with M.
Notation "x <- m ;; k" := (bind m (fun x => k))
  (at level 61, m at next level, right associativity) : M_scope.

(** The outcome and the sandboxes spawned. *)
Definition outcome {A} (m : M A) : result A := fst m.
Definition spawned {A} (m : M A) : list string := snd m.

(* ================================================================== *)
(** * lambda_utils.py: the sandbox invoker *)
(* ================================================================== *)

Module LambdaUtils.
Import PyStr.

Definition NODE_IMAGE_NAME : string := "lambci/lambda:nodejs12.x".
Definition PYTHON_IMAGE_NAME : string := "lambci/lambda:python3.7".
Definition IMAGE_TASK_DIR : string := "/var/task".
Definition IMAGE_LAYER_DIR : string := "/opt".

Inductive runtime : Type := node | python.

Definition IMAGES (r : runtime) : string :=
  match r with
  | node => NODE_IMAGE_NAME
  | python => PYTHON_IMAGE_NAME
  end.

(** The dictionary [run_function] returns.  The three error entries exist
    only when the return value is truthy; each is [None] when the return
    value lacks the field. *)
Record response : Type := {
  raw_output : option string;
  return_value : json;
  exit_status : Z;
  stdout : string;
  error_info : option (option json * option json * option json)
}.

(** The runtime family of a function file extension. *)
Definition runtime_of_extension (function_extension : string)
  : result runtime :=
  if function_extension =? ".js" then Ok node
  else if function_extension =? ".py" then Ok python
  else Raise (TypeError
    ("Cannot find matching Lambda runtime for function extension "
     ++ q function_extension)).

(** [for key in environment: cmd += " -e {}='{}'".format(key, environment[key])] *)
Definition add_environment (environment : dict string) (cmd : string)
  : string :=
  fold_left
    (fun cmd key =>
       match Dict.get environment key with
       | Some v => cmd ++ " -e " ++ key ++ "=" ++ sq v
       | None => cmd
       end)
    (Dict.keys environment) cmd.

(** [ret_value[k] if k in ret_value else None] *)
Definition field_or_none (ret_value : json) (k : string)
  : result (option json) :=
  (present <- Json.contains ret_value k ;;
   if (present : bool) then (v <- Json.getitem ret_value k ;; Ok (Some v))
   else Ok None)%result.

Section Invoker.
Context `{Host} `{TextLib}.

(** The command line of the sandbox, once every check has passed. *)
Definition docker_cmd (rt : runtime) (function_file_path : string)
           (payload : option json) (layer_dir : option string)
           (docker_network_name : option string)
           (environment : option (dict string))
           (handler_name : string) : string :=
  let function_name :=
    fst (PosixPath.splitext (PosixPath.basename function_file_path)) in
  let function_dir := PosixPath.dirname function_file_path in
  let cmd := "docker run --rm -it -v " ++ function_dir ++ ":"
             ++ IMAGE_TASK_DIR ++ ":ro,delegated" in
  let cmd := match layer_dir with
             | Some l =>
                 if Payload.given layer_dir
                 then cmd ++ " -v " ++ path_abspath l ++ ":"
                      ++ IMAGE_LAYER_DIR ++ ":ro,delegated"
                 else cmd
             | None => cmd
             end in
  let cmd := match environment with
             | Some env => add_environment env cmd
             | None => cmd
             end in
  let cmd := match docker_network_name with
             | Some n => if Payload.given docker_network_name
                         then cmd ++ " --network " ++ n else cmd
             | None => cmd
             end in
  let cmd := cmd ++ " " ++ IMAGES rt ++ " " ++ function_name ++ "."
             ++ handler_name in
  match payload with
  | Some p => if Json.truthy p then cmd ++ " " ++ sq (Json.dumps p) else cmd
  | None => cmd
  end.

(** The layer directory check, made only when a layer is configured. *)
Definition check_layer (layer_dir : option string) : result unit :=
  match layer_dir with
  | Some l =>
      if Payload.given layer_dir then
        let l := path_abspath l in
        if negb (path_exists l) && negb (path_isdir l) then
          Raise (FileNotFoundError
            ("Layer directory " ++ sq l ++ " not found or is not a directory"))
        else Ok tt
      else Ok tt
  | None => Ok tt
  end.

(** The guard of the first check, as written. *)
Definition function_missing (function_file_path : string) : bool :=
  negb (path_exists function_file_path)
  && negb (path_isfile function_file_path).

(** The entries [error_type], [error_message] and [stack_trace], set
    under [if ret_value:]. *)
Definition error_fields (ret_value : json)
  : result (option (option json * option json * option json)) :=
  if Json.truthy ret_value then
    (error_type <- field_or_none ret_value "errorType" ;;
     error_message <- field_or_none ret_value "errorMessage" ;;
     stack_trace <- field_or_none ret_value "stackTrace" ;;
     Ok (Some (error_type, error_message, stack_trace)))%result
  else Ok None.

(** The end of [run_function], from the exit status and the captured
    bytes of the sandbox to the result. *)
Definition parse_output (retcode : Z) (raw : string) : result response :=
  (stdout <- JsonLoads.decode raw ;;
   (* last line is a string returned by the function runtime, if any *)
   function_output <- of_option (last_item (splitlines stdout))
                        (IndexError "list index out of range") ;;
   ret_value <- JsonLoads.loads function_output ;;
   errors <- error_fields ret_value ;;
   Ok {| raw_output := if function_output =? "null" then None
                       else Some function_output;
         return_value := ret_value;
         exit_status := retcode;
         stdout := stdout;
         error_info := errors |})%result.

(** Running the command: the only place where a sandbox is spawned. *)
Definition spawn (cmd : string) : M completion := (Ok (run_cmd cmd), [cmd]).

Definition run_function (function_file_path : string)
           (payload : option json) (layer_dir : option string)
           (docker_network_name : option string)
           (environment : option (dict string))
           (handler_name : string) : M response :=
  (* validate function directory exists *)
  if function_missing function_file_path
  then raise (FileNotFoundError
    ("Function " ++ sq function_file_path ++ " not found or is not a file"))
  else
    (let function_extension := snd (PosixPath.splitext function_file_path) in
     rt <- lift (runtime_of_extension function_extension) ;;
     _ <- lift (check_layer layer_dir) ;;
     let cmd := docker_cmd rt function_file_path payload layer_dir
                  docker_network_name environment handler_name in
     output <- spawn cmd ;;
     let '(retcode, raw) :=
       match output with
       | CompletedProcess rc out => (rc, out)
       | CalledProcessError rc out => (rc, out)
       end in
     lift (parse_output retcode raw))%M.
End Invoker.

End LambdaUtils.

(* ================================================================== *)
(** * api_router.py: the router *)
(* ================================================================== *)

(** How the web framework answers the URL matching of a request against the
    registered rules. *)
Inductive url_match : Type :=
| NotFound                     (* no rule for the path: error 404 *)
| MethodNotAllowed             (* rules for the path, none for the method: 405 *)
| FrameworkReply (status : Z)  (* the framework answers by itself *)
| ToView.                      (* the view function is called *)

(** A request as the view function reads it from the framework. *)
Record request : Type := {
  req_method : string;                   (* request.method *)
  req_path : string;                     (* request.path *)
  req_args : list (string * string);     (* request.args, pairs in order *)
  req_headers : list (string * string);  (* request.headers, pairs in order *)
  req_remote_addr : option string;       (* request.remote_addr *)
  req_data : string                      (* request.data, the body bytes *)
}.

(** URL matching of the framework: the rules are (path, method) pairs. *)
Class WebFramework : Type := {
  match_request : list (string * string) -> request -> url_match
}.

Module ApiRouter.
Import PyStr.

Definition USER_AGENT : string := "User-Agent".

(** An entry of the endpoint configuration. *)
Record endpoint : Type := {
  ep_function : string;
  ep_method : string;
  ep_path : string;
  ep_runtime : string;
  ep_handler : string;
  ep_filepath : string
}.

(** The attributes [__init__] sets. *)
Record router : Type := {
  endpoint_config : dict endpoint;
  environment : option (dict string);
  layer_dir : option string;
  docker_network_name : option string
}.

(** What a view or an error handler returns, and the framework's own
    answers. *)
Inductive http_response : Type :=
| Pair (body : json) (status : Z)
| Triple (body status headers : json)
| ServerError (e : exn)          (* uncaught exception: 500 *)
| Automatic (status : Z).

Definition status_of (r : http_response) : json :=
  match r with
  | Pair _ s => JNum s
  | Triple _ s _ => s
  | ServerError _ => JNum 500
  | Automatic s => JNum s
  end.

Definition page_not_found : http_response := Pair (JStr "Page not found") 404.
Definition method_not_allowed : http_response :=
  Pair (JStr "Method not allowed") 405.

(** [request.args.get(p)]: the first value of the key. *)
Definition args_get (a : list (string * string)) (p : string) : option string :=
  Dict.get a p.

(** [for p in request.args: params[p] = request.args.get(p)] *)
Definition collect_params (a : list (string * string)) : dict string :=
  fold_left
    (fun params p =>
       match args_get a p with
       | Some v => Dict.set params p v
       | None => params
       end)
    (map fst a) [].

(** [for header in request.headers: headers[header[0].lower()] = header[1]] *)
Definition collect_headers (hs : list (string * string)) : dict string :=
  fold_left (fun headers header => Dict.set headers (lower (fst header)) (snd header))
            hs [].

(** [request.headers[name]] when [name in request.headers]: header names
    compare without case. *)
Fixpoint header_get (hs : list (string * string)) (name : string)
  : option string :=
  match hs with
  | [] => None
  | (k, v) :: r => if lower k =? lower name then Some v else header_get r name
  end.

Section Router.
Context `{Host} `{TextLib} `{WebFramework}.

(** [ApiRouter.__init__] *)
Definition init (endpoint_config : dict endpoint)
           (environment : option (dict string))
           (layer_dir : option string)
           (docker_network_name : option string) : router :=
  {| endpoint_config := endpoint_config;
     environment := environment;
     layer_dir := match layer_dir with
                  | Some l => if Payload.given layer_dir
                              then Some (path_abspath l) else layer_dir
                  | None => None
                  end;
     docker_network_name := docker_network_name |}.

(** The rules [__init__] registers, one per configured endpoint. *)
Definition rules (self : router) : list (string * string) :=
  map (fun api =>
         match Dict.get (endpoint_config self) api with
         | Some api_config => (ep_path api_config, ep_method api_config)
         | None => ("", "")
         end)
      (Dict.keys (endpoint_config self)).

(** [payload['routeKey'] not in self.endpoint_config], then
    [self.endpoint_config[payload['routeKey']]] *)
Definition lookup (self : router) (key : json) : result (option endpoint) :=
  match key with
  | JStr k => Ok (Dict.get (endpoint_config self) k)
  | JArr _ => Raise (TypeError "unhashable type: 'list'")
  | JObj _ => Raise (TypeError "unhashable type: 'dict'")
  | _ => Ok None
  end.

(** The first half of [__route_request]: the event built from the
    request. *)
Definition event_of (req : request) : result json :=
  (let params := collect_params (req_args req) in
   (* pass headers, converting header names to lowercase *)
   let headers := collect_headers (req_headers req) in
   let user_agent := header_get (req_headers req) USER_AGENT in
   body <- JsonLoads.decode (req_data req) ;;
   Payload.build_payload (req_path req) (req_method req)
     user_agent (req_remote_addr req) None
     (Some headers)
     (match params with [] => None | _ => Some params end)
     (Some body))%result.

(** The last part of [__route_request]: what is returned for the result
    of the invocation. *)
Definition translate (response : LambdaUtils.response)
  : result http_response :=
  if negb (LambdaUtils.exit_status response =? 0)%Z then
    Ok (Pair (LambdaUtils.return_value response) 500)
  else
    (let return_value := LambdaUtils.return_value response in
     status_code <- Json.getitem return_value "statusCode" ;;
     has_headers <- Json.contains return_value "headers" ;;
     headers <- (if (has_headers : bool)
                 then Json.getitem return_value "headers"
                 else Ok (JObj [])) ;;
     has_body <- Json.contains return_value "body" ;;
     body <- (if (has_body : bool)
              then Json.getitem return_value "body"
              else Ok (JStr "")) ;;
     Ok (Triple body status_code headers))%result.

(** [ApiRouter.__route_request] *)
Definition route_request (self : router) (req : request) : M http_response :=
  (payload <- lift (event_of req) ;;
   routeKey <- lift (Json.getitem payload "routeKey") ;;
   found <- lift (lookup self routeKey) ;;
   match found with
   | None => ret (Pair (JStr "Endpoint configuration not found") 500)
   | Some config =>
       response <- LambdaUtils.run_function (ep_filepath config)
                     (Some payload) (layer_dir self)
                     (docker_network_name self) (environment self)
                     (ep_handler config) ;;
       lift (translate response)
   end)%M.

(** Vocabulary for statements: the view hands [req] to the sandbox
    invoker, every check of the invoker passes, the sandbox run by [cmd]
    exits with status [rc] and the last line of its output parses as the
    terminal value [rv]. *)
Definition invocation (self : router) (req : request) (cmd : string)
           (rc : Z) (rv : json) : Prop :=
  exists payload key config rt text last,
    event_of req = Ok payload
    /\ Json.getitem payload "routeKey" = Ok key
    /\ lookup self key = Ok (Some config)
    /\ LambdaUtils.function_missing (ep_filepath config) = false
    /\ LambdaUtils.runtime_of_extension
         (snd (PosixPath.splitext (ep_filepath config))) = Ok rt
    /\ LambdaUtils.check_layer (layer_dir self) = Ok tt
    /\ cmd = LambdaUtils.docker_cmd rt (ep_filepath config) (Some payload)
               (layer_dir self) (docker_network_name self)
               (environment self) (ep_handler config)
    /\ returncode_of (run_cmd cmd) = rc
    /\ decode_utf8 (stdout_of (run_cmd cmd)) = Some text
    /\ last_item (splitlines text) = Some last
    /\ loads_str last = Some rv.

(** One request through the application: URL matching, the registered
    error handlers for 404 and 405, the view, and the framework's answer
    500 to an exception the view lets through.  A value the view returns
    stands here as the view returns it: the conversion the framework
    applies to it afterwards (it accepts a body that is a string or a
    mapping, and answers 500 itself to a triple whose body is a number or
    [None]) is not part of this definition, and nothing below is stated
    of [serve] on such a triple. *)
Definition serve (self : router) (req : request)
  : http_response * list string :=
  match match_request (rules self) req with
  | NotFound => (page_not_found, [])
  | MethodNotAllowed => (method_not_allowed, [])
  | FrameworkReply status => (Automatic status, [])
  | ToView =>
      match route_request self req with
      | (Ok rv, log) => (rv, log)
      | (Raise e, log) => (ServerError e, log)
      end
  end.
End Router.

End ApiRouter.
(* ================================================================== *)
(** * Reference instances of the interfaces *)
(* ================================================================== *)

(** A JSON parser for the fragment the program exchanges: objects, arrays,
    strings with escapes below code point 256, integers and the three
    literals.  Text with a fractional or exponent part is rejected. *)
Module RefJson.
Import PyStr.

Definition is_ws (c : ascii) : bool :=
  let n := code c in ((n =? 32) || (n =? 9) || (n =? 10) || (n =? 13))%N.

Fixpoint skip_ws (s : string) : string :=
  match s with
  | "" => ""
  | String c r => if is_ws c then skip_ws r else s
  end.

Definition hex_value (c : ascii) : option N :=
  let n := code c in
  if ((48 <=? n) && (n <=? 57))%N then Some (n - 48)%N
  else if ((97 <=? n) && (n <=? 102))%N then Some (n - 87)%N
  else if ((65 <=? n) && (n <=? 70))%N then Some (n - 55)%N
  else None.

Definition unescape (c : ascii) : option ascii :=
  if Ascii.eqb c dquote then Some dquote
  else if Ascii.eqb c "\" then Some "\"%char
  else if Ascii.eqb c "/" then Some "/"%char
  else if Ascii.eqb c "b" then Some (chr 8)
  else if Ascii.eqb c "f" then Some (chr 12)
  else if Ascii.eqb c "n" then Some (chr 10)
  else if Ascii.eqb c "r" then Some (chr 13)
  else if Ascii.eqb c "t" then Some (chr 9)
  else None.

Definition cons_fst (c : ascii) (o : option (string * string))
  : option (string * string) :=
  match o with
  | Some (t, rest) => Some (String c t, rest)
  | None => None
  end.

(** The characters of a string literal after its opening quote, and what
    follows the closing quote. *)
Fixpoint parse_string (s : string) : option (string * string) :=
  match s with
  | "" => None
  | String c r =>
      if Ascii.eqb c dquote then Some ("", r)
      else if Ascii.eqb c "\" then
        match r with
        | String e r' =>
            if Ascii.eqb e "u" then
              match r' with
              | String h1 (String h2 (String h3 (String h4 r''))) =>
                  match hex_value h1, hex_value h2, hex_value h3, hex_value h4 with
                  | Some a, Some b, Some c', Some d =>
                      let cp := (((a * 16 + b) * 16 + c') * 16 + d)%N in
                      if (cp <? 256)%N then cons_fst (chr cp) (parse_string r'')
                      else None
                  | _, _, _, _ => None
                  end
              | _ => None
              end
            else
              match unescape e with
              | Some x => cons_fst x (parse_string r')
              | None => None
              end
        | "" => None
        end
      else if (code c <? 32)%N then None
      else cons_fst c (parse_string r)
  end.

Definition is_digit (c : ascii) : bool :=
  let n := code c in ((48 <=? n) && (n <=? 57))%N.

Fixpoint parse_digits (s : string) (acc : Z) : Z * string :=
  match s with
  | "" => (acc, "")
  | String c r =>
      if is_digit c then parse_digits r (acc * 10 + Z.of_N (code c - 48))
      else (acc, s)
  end.

(** An integer without sign; a leading zero stands alone. *)
Definition parse_nat (s : string) : option (Z * string) :=
  match s with
  | "" => None
  | String c r =>
      if Ascii.eqb c "0" then Some (0%Z, r)
      else if is_digit c then Some (parse_digits s 0)
      else None
  end.

Definition no_fraction (rest : string) : bool :=
  match rest with
  | "" => true
  | String c _ =>
      negb (Ascii.eqb c "." || Ascii.eqb c "e" || Ascii.eqb c "E")
  end.

Definition parse_number (s : string) : option (json * string) :=
  let signed :=
    match s with
    | String c r =>
        if Ascii.eqb c "-" then
          match parse_nat r with
          | Some (n, rest) => Some ((- n)%Z, rest)
          | None => None
          end
        else parse_nat s
    | "" => None
    end in
  match signed with
  | Some (n, rest) => if no_fraction rest then Some (JNum n, rest) else None
  | None => None
  end.

Definition parse_literal (s : string) : option (json * string) :=
  if prefix "null" s then Some (JNull, substring 4 (String.length s - 4) s)
  else if prefix "true" s
  then Some (JBool true, substring 4 (String.length s - 4) s)
  else if prefix "false" s
  then Some (JBool false, substring 5 (String.length s - 5) s)
  else None.

(** A value at the head of [s]; [fuel] bounds the nesting depth and the
    number of items of an array or object. *)
Fixpoint parse_value (fuel : nat) (s : string) : option (json * string) :=
  match fuel with
  | O => None
  | S fuel' =>
      let elements :=
        fix elements (n : nat) (s : string) (acc : list json) {struct n}
          : option (json * string) :=
          match n with
          | O => None
          | S n' =>
              match parse_value fuel' s with
              | Some (v, r) =>
                  match skip_ws r with
                  | String c r' =>
                      if Ascii.eqb c "," then elements n' (skip_ws r') (v :: acc)
                      else if Ascii.eqb c "]"
                      then Some (JArr (rev (v :: acc)), r')
                      else None
                  | "" => None
                  end
              | None => None
              end
          end in
      let members :=
        fix members (n : nat) (s : string) (acc : dict json) {struct n}
          : option (json * string) :=
          match n with
          | O => None
          | S n' =>
              match s with
              | String c0 r0 =>
                  if Ascii.eqb c0 dquote then
                    match parse_string r0 with
                    | Some (k, r1) =>
                        match skip_ws r1 with
                        | String c1 r2 =>
                            if Ascii.eqb c1 ":" then
                              match parse_value fuel' (skip_ws r2) with
                              | Some (v, r3) =>
                                  let acc := Dict.set acc k v in
                                  match skip_ws r3 with
                                  | String c r4 =>
                                      if Ascii.eqb c ","
                                      then members n' (skip_ws r4) acc
                                      else if Ascii.eqb c "}"
                                      then Some (JObj acc, r4)
                                      else None
                                  | "" => None
                                  end
                              | None => None
                              end
                            else None
                        | "" => None
                        end
                    | None => None
                    end
                  else None
              | "" => None
              end
          end in
      match s with
      | "" => None
      | String c r =>
          if Ascii.eqb c dquote then
            match parse_string r with
            | Some (t, rest) => Some (JStr t, rest)
            | None => None
            end
          else if Ascii.eqb c "{" then
            match skip_ws r with
            | String c' r' =>
                if Ascii.eqb c' "}" then Some (JObj [], r')
                else members fuel' (skip_ws r) []
            | "" => None
            end
          else if Ascii.eqb c "[" then
            match skip_ws r with
            | String c' r' =>
                if Ascii.eqb c' "]" then Some (JArr [], r')
                else elements fuel' (skip_ws r) []
            | "" => None
            end
          else if Ascii.eqb c "-" || is_digit c then parse_number s
          else parse_literal s
      end
  end.

(** [json.loads] on the fragment. *)
Definition loads (s : string) : option json :=
  match parse_value (S (String.length s)) (skip_ws s) with
  | Some (v, rest) => if skip_ws rest =? "" then Some v else None
  | None => None
  end.

(** UTF-8 decoding into code points below 256. *)
Fixpoint decode (b : string) : option string :=
  match b with
  | "" => Some ""
  | String c r =>
      let n := code c in
      if (n <? 128)%N then option_map (String c) (decode r)
      else if ((n =? 194) || (n =? 195))%N then
        match r with
        | String d r' =>
            let m := code d in
            if ((128 <=? m) && (m <? 192))%N
            then option_map (String (chr ((n - 192) * 64 + (m - 128))))
                            (decode r')
            else None
        | "" => None
        end
      else None
  end.

Definition text_lib : TextLib :=
  {| decode_utf8 := decode;
     decode_json_bytes := decode;
     loads_str := loads |}.

End RefJson.

(** URL matching for rules whose paths are literal strings: a rule serves
    its own method, and [HEAD] as well when that method is [GET]; the
    framework answers [OPTIONS] by itself when no rule asks for it. *)
Module RefFramework.
Import PyStr.

Definition upper_char (c : ascii) : ascii :=
  let n := code c in
  if ((97 <=? n) && (n <=? 122))%N then chr (n - 32) else c.

Fixpoint upper (s : string) : string :=
  match s with
  | "" => ""
  | String c r => String (upper_char c) (upper r)
  end.

Definition rule_allows (rule_method request_method : string) : bool :=
  let m := upper rule_method in
  (request_method =? m) || ((m =? "GET") && (request_method =? "HEAD")).

Definition literal_match (rules : list (string * string)) (req : request)
  : url_match :=
  match filter (fun r => fst r =? req_path req) rules with
  | [] => NotFound
  | same_path =>
      if existsb (fun r => rule_allows (snd r) (req_method req)) same_path
      then ToView
      else if req_method req =? "OPTIONS" then FrameworkReply 200
      else MethodNotAllowed
  end.

Definition framework : WebFramework := {| match_request := literal_match |}.

End RefFramework.

(** A host with the regular files [files] and the directories [dirs], all
    given by absolute path, where every sandbox run ends as [run]. *)
Module RefHost.

Definition member (p : string) (l : list string) : bool :=
  existsb (String.eqb p) l.

Definition host (files dirs : list string) (run : completion) : Host :=
  {| path_exists := fun p => member p files || member p dirs;
     path_isfile := fun p => member p files;
     path_isdir := fun p => member p dirs;
     path_abspath := fun p => p;
     run_cmd := fun _ => run |}.

(** A keyed digest of the right size, 32 bytes, that ignores its input. *)
Definition hmac : Hmac :=
  {| hmac_sha256 := fun _ _ => "0123456789abcdef0123456789abcdef" |}.

End RefHost.

(* ================================================================== *)
(** * The scenarios of the specification as data *)
(* ================================================================== *)

Module Scenario.
Import PyStr ApiRouter.

Definition hello : endpoint :=
  {| ep_function := "hello"; ep_method := "GET"; ep_path := "/hello";
     ep_runtime := "python3.7"; ep_handler := "main";
     ep_filepath := "/srv/functions/hello/handler.py" |}.

Definition table : dict endpoint := [("GET /hello", hello)].

Definition get_hello : request :=
  {| req_method := "GET"; req_path := "/hello"; req_args := [];
     req_headers := []; req_remote_addr := Some "127.0.0.1"; req_data := "" |}.

Definition post_hello : request :=
  {| req_method := "POST"; req_path := "/hello"; req_args := [];
     req_headers := []; req_remote_addr := Some "127.0.0.1"; req_data := "" |}.


Definition get_missing : request :=
  {| req_method := "GET"; req_path := "/missing"; req_args := [];
     req_headers := []; req_remote_addr := Some "127.0.0.1"; req_data := "" |}.

(** The host where the handler of [hello] is a regular file. *)
Definition host_with (run : completion) : Host :=
  RefHost.host ["/srv/functions/hello/handler.py"] ["/srv/functions/hello"] run.

(** [{"statusCode":201,"headers":{"x-id":"7"},"body":"ok"}] *)
Definition created : json :=
  JObj [("statusCode", JNum 201);
        ("headers", JObj [("x-id", JStr "7")]);
        ("body", JStr "ok")].

(** [{"body":"ok"}] *)
Definition no_status : json := JObj [("body", JStr "ok")].

(** Log lines followed by the terminal value on the last line. *)
Definition output_of (v : json) : string :=
  "START RequestId" ++ str1 LF ++ Json.dumps_compact v ++ str1 LF.

(** The router of the table, without environment, layer or network. *)
Definition app (host : Host) : router := @init host table None None None.

(** The event of [GET /hello] and the command of its sandbox. *)
Definition hello_event : json :=
  Eval vm_compute in
    match @event_of RefJson.text_lib get_hello with
    | Ok payload => payload
    | Raise _ => JNull
    end.

Definition hello_cmd : string :=
  Eval vm_compute in
    @LambdaUtils.docker_cmd (host_with (CompletedProcess 0 ""))
      LambdaUtils.python "/srv/functions/hello/handler.py"
      (Some hello_event) None None None "main".

(** Scenario E with blanks around one value: [{a: "1", b: " 2 "}]. *)
Definition query : dict string := [("a", "1"); ("b", " 2 ")].

Definition query_event : json :=
  Eval vm_compute in
    match @Payload.build_payload RefJson.text_lib "/hello" "GET"
            None None None None (Some query) None with
    | Ok payload => payload
    | Raise _ => JNull
    end.

(** A body of one character and two bytes, [U+00E9]. *)
Definition e_acute : string := str1 (chr 233).

End Scenario.

(* ================================================================== *)
(** * More vocabulary for statements *)
(* ================================================================== *)

Module Words.
Import PyStr.

(** A character inside a line. *)
Definition in_line (c : ascii) : bool := negb (is_linebreak c).

(** A string that is one line: no line boundary in it. *)
Definition one_line (s : string) : bool := all_chars in_line s.

(** The error entries [run_function] reads off an object. *)
Definition error_entries (d : dict json)
  : option (option json * option json * option json) :=
  match d with
  | [] => None
  | _ => Some (Dict.get d "errorType", Dict.get d "errorMessage",
               Dict.get d "stackTrace")
  end.

(** A header name that [str.lower] leaves as it is. *)
Definition is_lower (s : string) : bool := lower s =? s.

(** The pairs of a dictionary of strings as JSON strings. *)
Definition json_values (d : dict string) : dict json :=
  map (fun kv => (fst kv, JStr (snd kv))) d.

(** The value at [payload[k1][k2]], if both objects and keys are there. *)
Definition field2 (payload : json) (k1 k2 : string) : option json :=
  match payload with
  | JObj d => match Dict.get d k1 with
              | Some (JObj inner) => Dict.get inner k2
              | _ => None
              end
  | _ => None
  end.

(** The authorizer block [build_payload] stores for the claims [c]. *)
Definition authorizer (claims : json) : json :=
  JObj [("jwt", JObj [("claims", claims)]); ("scopes", JNull)].

(** A character of the URL-safe alphabet that the standard alphabet lacks. *)
Definition urlsafe_only (c : ascii) : bool :=
  Ascii.eqb c "-" || Ascii.eqb c "_".

(** No character of [s] is special to the URL-safe alphabet. *)
Definition standard_only (s : string) : bool :=
  all_chars (fun c => negb (urlsafe_only c)) s.

(** A property of bytes, checked on all 256 of them. *)
Definition every_byte (P : ascii -> bool) : bool :=
  forallb (fun n => P (chr (N.of_nat n))) (seq 0 256).

(** The three segments of a token. *)
Definition token_of (header claims signature : string) : string :=
  header ++ "." ++ claims ++ "." ++ signature.

End Words.

(** A request that carries a token. *)
Module AuthScenario.
Import PyStr Payload ApiRouter.

(** The middle segment encodes [{"sub":"ann"}]. *)
Definition token : string := "e30.eyJzdWIiOiJhbm4ifQ.c2ln".

Definition headers : dict string := [("Authorization", token)].

Definition event : json :=
  Eval vm_compute in
    match @build_payload RefJson.text_lib "/hello" "GET" None None None
            (Some headers) None None with
    | Ok payload => payload
    | Raise _ => JNull
    end.

(** [GET /hello] with a token of one segment. *)
Definition bad_request : request :=
  {| req_method := "GET"; req_path := "/hello"; req_args := [];
     req_headers := [("Authorization", "abc")];
     req_remote_addr := Some "127.0.0.1"; req_data := "" |}.

End AuthScenario.

(* ================================================================== *)
(** * utils.py: the environment file *)
(* ================================================================== *)

(** What a function of [utils.py] raises: an exception of the Python
    library, or [raise Exception(msg)]. *)
Inductive raised : Type :=
| Builtin (e : exn)
| Exception (msg : string).

Inductive try (A : Type) : Type :=
| Returns (a : A)
| Raises (r : raised).

Arguments Returns {A} a.
Arguments Raises {A} r.

(** [open(path).read()] before the translation of line ends: the decoded
    text of the file, or what [open] and the decoder raise. *)
Class TextFiles : Type := {
  open_text : string -> result string
}.

Module Utils.
Import PyStr.

(** Reading in text mode with [newline=None]: [\r\n] and a lone [\r]
    arrive as [\n]. *)
Fixpoint universal_newlines (s : string) : string :=
  match s with
  | "" => ""
  | String c r =>
      if Ascii.eqb c CR then
        String LF
          match r with
          | String c2 r2 =>
              if Ascii.eqb c2 LF then universal_newlines r2
              else universal_newlines r
          | "" => ""
          end
      else String c (universal_newlines r)
  end.

(** [f.readlines()]: the lines with their [\n], the last one without when
    the text does not end in [\n]. *)
Fixpoint readlines (s : string) : list string :=
  match s with
  | "" => []
  | String c r =>
      if Ascii.eqb c LF then str1 LF :: readlines r
      else match readlines r with
           | [] => [str1 c]
           | h :: t => String c h :: t
           end
  end.

(** [s.split(sep, 1)] for a separator of one character. *)
Fixpoint split_once (sep : ascii) (s : string) : list string :=
  match s with
  | "" => [""]
  | String c r =>
      if Ascii.eqb c sep then [""; r]
      else match split_once sep r with
           | h :: t => String c h :: t
           | [] => [str1 c]
           end
  end.

Definition format_error (line : string) : raised :=
  Exception ("incorrect environment variable format: " ++ q line).

(** One round of the loop of [read_env_file]. *)
Definition read_line (env : dict string) (line : string)
  : try (dict string) :=
  let line := strip line in
  if prefix "#" line || (line =? "") then Returns env
  else
    let var := split_once "=" line in
    match var with
    | [name; value] => Returns (Dict.set env (strip name) (strip value))
    | _ => Raises (format_error line)
    end.

(** The next round, unless an earlier one has raised. *)
Definition read_next (acc : try (dict string)) (line : string)
  : try (dict string) :=
  match acc with
  | Returns env => read_line env line
  | Raises r => Raises r
  end.

Definition read_lines (lines : list string) : try (dict string) :=
  fold_left read_next lines (Returns []).

(** [read_env_file] *)
Definition read_env_file `{TextFiles} (env_file_path : string)
  : try (dict string) :=
  match open_text env_file_path with
  | Raise e => Raises (Builtin e)
  | Ok text => read_lines (readlines (universal_newlines text))
  end.

(** Vocabulary for statements: a line the loop skips, a comment or a blank
    line; a line without [=] that is not skipped; and the variable a line
    assigns. *)
Definition skipped (line : string) : bool :=
  prefix "#" (strip line) || (strip line =? "").

Definition has_char (c : ascii) (s : string) : bool :=
  negb (all_chars (fun x => negb (Ascii.eqb x c)) s).

Definition malformed (line : string) : bool :=
  negb (skipped line) && negb (has_char "=" (strip line)).

Definition assigned (line : string) : option string :=
  if skipped line then None
  else match split_once "=" (strip line) with
       | [name; _] => Some (strip name)
       | _ => None
       end.

(** The option [run_function] adds to the command for a variable. *)
Definition env_option (kv : string * string) : string :=
  " -e " ++ fst kv ++ "=" ++ sq (snd kv).

End Utils.

(** A file system of one file. *)
Module EnvScenario.
Import PyStr.

Definition env_text : string :=
  "# database" ++ str1 CR ++ str1 LF
  ++ "DB_URL = postgres://db?sslmode=off" ++ str1 CR ++ str1 LF
  ++ str1 LF
  ++ "STAGE=dev" ++ str1 LF
  ++ "STAGE=test".

Definition files : TextFiles :=
  {| open_text := fun p =>
       if p =? "/srv/.env" then Ok env_text
       else Raise (FileNotFoundError p) |}.

End EnvScenario.

(* ================================================================== *)
(** * api_gateway.py: the endpoint table *)
(* ================================================================== *)

Module ApiGateway.
Import PyStr ApiRouter.

(** The exceptions [extract_http_api_endpoints] raises by itself, each
    with the value its message is formatted with. *)
Inductive problem : Type :=
| RuntimeNotSpecified (FUNCTION_NAME : json)
| HandlerNotFound (FUNCTION_NAME : json)
| InvalidHandler (FUNCTION_NAME : json)
| HandlerFileNotFound (FUNCTION_FILE_PATH : string)
| DuplicatedMethod (RESOURCE_ID : string).

(** What stops the extraction. *)
Inductive stopped : Type :=
| Library (e : exn)                         (* raised by the Python library *)
| Failed (returncode : Z) (output : string) (* [CalledProcessError] of [run_cmd] *)
| Refused (p : problem).                    (* [raise Exception(...)] *)

Inductive attempt (A : Type) : Type :=
| Done (a : A)
| Stop (s : stopped).
Arguments Done {A} a.
Arguments Stop {A} s.

Definition abind {A B} (m : attempt A) (f : A -> attempt B) : attempt B :=
  match m with
  | Done a => f a
  | Stop s => Stop s
  end.

Definition lib {A} (r : result A) : attempt A :=
  match r with
  | Ok a => Done a
  | Raise e => Stop (Library e)
  end.

Declare Scope attempt_scope.
Delimit Scope attempt_scope with attempt.
Notation "x <- m ;; k" := (abind m (fun x => k))
  (at level 61, m at next level, right associativity) : attempt_scope.

Definition PROVIDER_TAG : string := "provider".
Definition FUNCTIONS_TAG : string := "functions".
Definition RUNTIME_TAG : string := "runtime".
Definition HANDLER_TAG : string := "handler".
Definition EVENTS_TAG : string := "events".
Definition HTTP_API_TAG : string := "httpApi".
Definition HTTP_API_METHOD_TAG : string := "method".
Definition HTTP_API_PATH_TAG : string := "path".

Definition DUMP_CONFIG_CMD (sls_config_file_path : string) : string :=
  "cd " ++ q (PosixPath.dirname sls_config_file_path)
  ++ "; sls print --format json --config "
  ++ q (PosixPath.basename sls_config_file_path).

(** [os.path.join(a, b)] *)
Definition path_join (a b : string) : string :=
  if prefix "/" b then b
  else if (a =? "") || match last_char a with
                       | Some c => Ascii.eqb c "/"
                       | None => false
                       end
       then a ++ b
       else a ++ "/" ++ b.

(** The items a [for] loop over a parsed JSON value visits: the items of a
    list, the keys of an object, the characters of a string. *)
Definition iterate (v : json) : result (list json) :=
  match v with
  | JArr l => Ok l
  | JObj d => Ok (map JStr (Dict.keys d))
  | JStr s => Ok (map (fun c => JStr (str1 c)) (list_ascii_of_string s))
  | _ => Raise (TypeError (sq (Json.type_name v) ++ " object is not iterable"))
  end.

(** [l[n]] for a list and an integer: negative indices count from the
    end. *)
Definition list_index (l : list json) (n : Z) : result json :=
  let len := Z.of_nat (List.length l) in
  let i := if (n <? 0)%Z then (n + len)%Z else n in
  if ((0 <=? i) && (i <? len))%Z
  then of_option (nth_error l (Z.to_nat i))
                 (IndexError "list index out of range")
  else Raise (IndexError "list index out of range").

(** [FUNCTION_NAME = list(FUNCTION)[0]] and
    [FUNCTION_CONFIG = FUNCTION[FUNCTION_NAME]]: the first key of an object
    and its value; for a list its first item, used as an index into the
    list; a string cannot be indexed by its first character. *)
Definition name_and_config (FUNCTION : json) : result (json * json) :=
  match FUNCTION with
  | JObj [] => Raise (IndexError "list index out of range")
  | JObj ((name, config) :: _) => Ok (JStr name, config)
  | JArr [] => Raise (IndexError "list index out of range")
  | JArr (first :: rest) =>
      match first with
      | JNum n =>
          (config <- list_index (first :: rest) n ;; Ok (first, config))%result
      | JBool b =>
          (config <- list_index (first :: rest) (if b then 1 else 0) ;;
           Ok (first, config))%result
      | _ => Raise (TypeError ("list indices must be integers or slices, not "
                               ++ Json.type_name first))
      end
  | JStr "" => Raise (IndexError "list index out of range")
  | JStr (String _ _) =>
      Raise (TypeError "string indices must be integers, not 'str'")
  | _ => Raise (TypeError (sq (Json.type_name FUNCTION)
                           ++ " object is not iterable"))
  end.

(** The receiver of a method of [str]. *)
Definition str_method (name : string) (v : json) : result string :=
  match v with
  | JStr s => Ok s
  | _ => Raise (AttributeError name)
  end.

(** The left operand of [v + '/']. *)
Definition plus_str (v : json) : result string :=
  match v with
  | JStr s => Ok s
  | JArr _ => Raise (TypeError ("can only concatenate list (not "
                                ++ q "str" ++ ") to list"))
  | _ => Raise (TypeError ("unsupported operand type(s) for +: "
                           ++ sq (Json.type_name v) ++ " and 'str'"))
  end.

(** The right operand of [s + v] for a string [s]. *)
Definition str_plus (v : json) : result string :=
  match v with
  | JStr s => Ok s
  | _ => Raise (TypeError ("can only concatenate str (not "
                           ++ q (Json.type_name v) ++ ") to str"))
  end.

(** [not runtime] *)
Definition no_runtime (runtime : option json) : bool :=
  match runtime with
  | Some v => negb (Json.truthy v)
  | None => true
  end.

(** The extension of the runtime family, [None] for an unsupported
    runtime. *)
Definition EXT_of (runtime : string) : option string :=
  if prefix "python" runtime then Some ".py"
  else if prefix "nodejs" runtime then Some ".js"
  else None.

(** The runtime of a function: its own if it names one, else the one of
    the service. *)
Definition function_runtime (default_service_runtime : option json)
           (FUNCTION_CONFIG : json) : result (option json) :=
  (has_runtime <- Json.contains FUNCTION_CONFIG RUNTIME_TAG ;;
   if (has_runtime : bool)
   then (runtime <- Json.getitem FUNCTION_CONFIG RUNTIME_TAG ;;
         Ok (Some runtime))
   else Ok default_service_runtime)%result.

(** [[e[HTTP_API_TAG] for e in FUNCTION_CONFIG[EVENTS_TAG] if HTTP_API_TAG in e]] *)
Definition next_event (acc : result (list json)) (e : json)
  : result (list json) :=
  (events <- acc ;;
   present <- Json.contains e HTTP_API_TAG ;;
   if (present : bool)
   then (http_event <- Json.getitem e HTTP_API_TAG ;;
         Ok (events ++ [http_event])%list)
   else Ok events)%result.

Definition HTTP_API_EVENTS (FUNCTION_CONFIG : json) : result (list json) :=
  (events <- Json.getitem FUNCTION_CONFIG EVENTS_TAG ;;
   items <- iterate events ;;
   fold_left next_event items (Ok []))%result.

(** One round of the loop over the events of a function. *)
Definition add_event (FUNCTION_NAME runtime HANDLER_NAME
                      FUNCTION_FILE_PATH : string)
           (acc : attempt (dict endpoint)) (http_event : json)
  : attempt (dict endpoint) :=
  (apis <- acc ;;
   method <- lib (Json.getitem http_event HTTP_API_METHOD_TAG) ;;
   method <- lib (plus_str method) ;;
   path <- lib (Json.getitem http_event HTTP_API_PATH_TAG) ;;
   path <- lib (str_plus path) ;;
   let RESOURCE_ID := method ++ " " ++ path in
   if Dict.mem apis RESOURCE_ID
   then Stop (Refused (DuplicatedMethod RESOURCE_ID))
   else Done (Dict.set apis RESOURCE_ID
                {| ep_function := FUNCTION_NAME;
                   ep_method := method;
                   ep_path := path;
                   ep_runtime := runtime;
                   ep_handler := HANDLER_NAME;
                   ep_filepath := FUNCTION_FILE_PATH |}))%attempt.

Section Gateway.
Context `{Host} `{TextLib}.

(** One round of the loop over the functions. *)
Definition add_function (default_service_runtime : option json)
           (functions_base_dir : string)
           (acc : attempt (dict endpoint)) (FUNCTION : json)
  : attempt (dict endpoint) :=
  (apis <- acc ;;
   entry <- lib (name_and_config FUNCTION) ;;
   let FUNCTION_NAME := fst entry in
   let FUNCTION_CONFIG := snd entry in
   runtime <- lib (function_runtime default_service_runtime
                     FUNCTION_CONFIG) ;;
   if no_runtime runtime
   then Stop (Refused (RuntimeNotSpecified FUNCTION_NAME))
   else
     runtime <- lib (match runtime with
                     | Some v => str_method "startswith" v
                     | None => Raise (AttributeError "startswith")
                     end) ;;
     match EXT_of runtime with
     | None =>
         (* skip functions with unsupported runtimes *)
         Done apis
     | Some EXT =>
         has_handler <- lib (Json.contains FUNCTION_CONFIG HANDLER_TAG) ;;
         if negb has_handler
         then Stop (Refused (HandlerNotFound FUNCTION_NAME))
         else
           handler <- lib (Json.getitem FUNCTION_CONFIG HANDLER_TAG) ;;
           handler <- lib (str_method "split" handler) ;;
           match split "." handler with
           | [HANDLER_FILE_NAME; HANDLER_NAME] =>
               name <- lib (plus_str FUNCTION_NAME) ;;
               let FUNCTION_FILE_PATH :=
                 path_join (path_abspath functions_base_dir)
                   (name ++ "/" ++ HANDLER_FILE_NAME ++ EXT) in
               if negb (path_exists FUNCTION_FILE_PATH)
               then Stop (Refused (HandlerFileNotFound FUNCTION_FILE_PATH))
               else
                 has_events <-
                   lib (Json.contains FUNCTION_CONFIG EVENTS_TAG) ;;
                 if (has_events : bool) then
                   events <- lib (HTTP_API_EVENTS FUNCTION_CONFIG) ;;
                   fold_left
                     (add_event name runtime HANDLER_NAME FUNCTION_FILE_PATH)
                     events (Done apis)
                 else Done apis
           | _ => Stop (Refused (InvalidHandler FUNCTION_NAME))
           end
     end)%attempt.

(** The runtime of the service, if the provider block names one. *)
Definition default_runtime (CONFIG : json) : result (option json) :=
  (provider <- Json.getitem CONFIG PROVIDER_TAG ;;
   has_runtime <- Json.contains provider RUNTIME_TAG ;;
   if (has_runtime : bool)
   then (provider <- Json.getitem CONFIG PROVIDER_TAG ;;
         runtime <- Json.getitem provider RUNTIME_TAG ;;
         Ok (Some runtime))
   else Ok None)%result.

(** The body of [extract_http_api_endpoints] once the configuration is
    parsed. *)
Definition endpoints_of (CONFIG : json) (functions_base_dir : string)
  : attempt (dict endpoint) :=
  (default_service_runtime <- lib (default_runtime CONFIG) ;;
   functions <- lib (Json.getitem CONFIG FUNCTIONS_TAG) ;;
   functions <- lib (iterate functions) ;;
   fold_left (add_function default_service_runtime functions_base_dir)
     functions (Done []))%attempt.

Definition extract_http_api_endpoints
           (sls_config_file_path functions_base_dir : string)
  : attempt (dict endpoint) :=
  match run_cmd (DUMP_CONFIG_CMD sls_config_file_path) with
  | CalledProcessError returncode output => Stop (Failed returncode output)
  | CompletedProcess _ output =>
      (CONFIG <- lib (JsonLoads.loads_bytes output) ;;
       endpoints_of CONFIG functions_base_dir)%attempt
  end.

(** Vocabulary for statements: what holds of every entry of the table.
    [handler_file api file] says that the file of the entry is the one
    named [file] in the directory of its function, with the extension
    of its runtime. *)
Definition handler_file (functions_base_dir : string) (api : endpoint)
           (HANDLER_FILE_NAME : string) : Prop :=
  exists EXT,
    EXT_of (ep_runtime api) = Some EXT
    /\ all_chars no_dot HANDLER_FILE_NAME = true
    /\ ep_filepath api
       = path_join (path_abspath functions_base_dir)
           (ep_function api ++ "/" ++ HANDLER_FILE_NAME ++ EXT).

Definition entry_ok (functions_base_dir : string)
           (entry : string * endpoint) : Prop :=
  let api := snd entry in
  fst entry = ep_method api ++ " " ++ ep_path api
  /\ path_exists (ep_filepath api) = true
  /\ all_chars no_dot (ep_handler api) = true
  /\ exists HANDLER_FILE_NAME,
      handler_file functions_base_dir api HANDLER_FILE_NAME.

(** A file name whose last component is not empty. *)
Definition named (file : string) : bool :=
  match last_char file with
  | Some c => negb (Ascii.eqb c "/")
  | None => false
  end.

(** The runtime family [run_function] has to find for a runtime. *)
Definition family (runtime : string) : LambdaUtils.runtime :=
  if prefix "python" runtime then LambdaUtils.python else LambdaUtils.node.

(** The two checks [run_function] makes on the file of an entry pass. *)
Definition runnable (functions_base_dir : string)
           (entry : string * endpoint) : Prop :=
  let api := snd entry in
  LambdaUtils.function_missing (ep_filepath api) = false
  /\ exists HANDLER_FILE_NAME,
      handler_file functions_base_dir api HANDLER_FILE_NAME
      /\ (named HANDLER_FILE_NAME = true ->
          LambdaUtils.runtime_of_extension
            (snd (PosixPath.splitext (ep_filepath api)))
          = Ok (family (ep_runtime api))).

Definition table_ok (functions_base_dir : string) (apis : dict endpoint)
  : Prop :=
  Dict.wf apis
  /\ Forall (entry_ok functions_base_dir) apis
  /\ Forall (runnable functions_base_dir) apis.
End Gateway.

End ApiGateway.

(** A service of two functions, in the two forms of the [functions]
    block. *)
Module GatewayScenario.
Import PyStr ApiRouter ApiGateway.

Definition hello_config : json :=
  JObj [("handler", JStr "handler.main");
        ("events", JArr [JObj [("httpApi",
                                JObj [("method", JStr "GET");
                                      ("path", JStr "/hello")])]])].

(** A function of a runtime the gateway does not run, without handler. *)
Definition legacy_config : json := JObj [("runtime", JStr "ruby2.7")].

Definition provider : json := JObj [("runtime", JStr "python3.7")].

Definition list_form : json :=
  JObj [("provider", provider);
        ("functions", JArr [JObj [("legacy", legacy_config)];
                            JObj [("hello", hello_config)]])].

Definition object_form : json :=
  JObj [("provider", provider);
        ("functions", JObj [("hello", hello_config)])].

Definition host : Host :=
  RefHost.host ["/srv/functions/hello/handler.py"] ["/srv/functions/hello"]
    (CompletedProcess 0 (Json.dumps list_form)).

End GatewayScenario.
(* ================================================================== *)
(** * Sanity checks *)
(* ================================================================== *)

Module PyStrChecks.
Import PyStr PosixPath.

Example strip_ex : strip "  a b  " = "a b". Proof. reflexivity. Qed.
Example split_ex1 : split "." "a.b.c" = ["a"; "b"; "c"]. Proof. reflexivity. Qed.
Example split_ex2 : split "." "" = [""]. Proof. reflexivity. Qed.
Example split_ex3 : split "." "a..b" = ["a"; ""; "b"]. Proof. reflexivity. Qed.
Example splitlines_ex1 : splitlines "" = []. Proof. reflexivity. Qed.
Example splitlines_ex2 : splitlines (str1 LF) = [""]. Proof. reflexivity. Qed.
Example splitlines_ex3 :
  splitlines ("a" ++ str1 CR ++ str1 LF ++ "b" ++ str1 LF) = ["a"; "b"].
Proof. reflexivity. Qed.
Example splitlines_ex4 :
  splitlines ("a" ++ str1 CR ++ str1 CR ++ str1 LF ++ "b" ++ str1 CR)
  = ["a"; ""; "b"].
Proof. reflexivity. Qed.
Example splitext_ex :
  map splitext ["/a/b.py"; ".py"; "a.tar.gz"; "/a.b/c"; "/a/.hidden.py";
                "..py"; "a."; "/x/...a"; "a/b/"; "/a/b.py/"]
  = [("/a/b", ".py"); (".py", ""); ("a.tar", ".gz"); ("/a.b/c", "");
     ("/a/.hidden", ".py"); ("..py", ""); ("a", "."); ("/x/...a", "");
     ("a/b/", ""); ("/a/b.py/", "")].
Proof. reflexivity. Qed.
Example basename_ex :
  map basename ["/a/b.py"; "a"; "/a/"; ""] = ["b.py"; "a"; ""; ""].
Proof. reflexivity. Qed.
Example dirname_ex :
  map dirname ["/a/b.py"; "a"; "/a/"; ""; "/a"; "//a"; "///a//b"; "/a//b"]
  = ["/a"; ""; "/a"; ""; "/"; "//"; "///a"; "/a"].
Proof. reflexivity. Qed.
Example of_Z_ex : map of_Z [0; 12; -7]%Z = ["0"; "12"; "-7"].
Proof. reflexivity. Qed.
Example lower_ex : lower "Content-Type" = "content-type".
Proof. reflexivity. Qed.

End PyStrChecks.

Module CodecChecks.
Import PyStr Json Base64.

Example dumps_ex :
  dumps_compact (JObj [("a", JArr [JNum 1; JNum 2]); ("b", JObj [("c", JNull)])])
  = "{" ++ q "a" ++ ":[1,2]," ++ q "b" ++ ":{" ++ q "c" ++ ":null}}".
Proof. reflexivity. Qed.

Example dumps_default_ex :
  dumps (JObj [("b", JArr [JNum 1; JNum (-2); JBool true; JNull; JObj []])])
  = "{" ++ q "b" ++ ": [1, -2, true, null, {}]}".
Proof. reflexivity. Qed.

Example escape_ex :
  escape (String (chr 127) (String (chr 233) (String LF "/ ~")))
  = "\u007f\u00e9\n/ ~".
Proof. reflexivity. Qed.

Example b64encode_ex :
  urlsafe_b64encode ("{" ++ q "sub" ++ ":" ++ q "u1" ++ ","
                     ++ q "name" ++ ":" ++ q "Ann" ++ "}")
  = "eyJzdWIiOiJ1MSIsIm5hbWUiOiJBbm4ifQ==".
Proof. reflexivity. Qed.

Example b64decode_ex :
  map b64decode ["YWI"; "YWI="; "YWI==="; "YQ"; "YQ=="; "YQ="; "YW=I";
                 "=YWI="; "YWJj=ZGVm"; "YQ=a"; "YQ==YQ=="; "YQ=-="]
  = [Raise (BinasciiError "Incorrect padding"); Ok "ab"; Ok "ab";
     Raise (BinasciiError "Incorrect padding"); Ok "a";
     Raise (BinasciiError "Incorrect padding");
     Raise (BinasciiError "Incorrect padding");
     Ok "ab"; Ok "abcdef"; Raise (BinasciiError "Incorrect padding");
     Ok "a"; Ok "a"].
Proof. reflexivity. Qed.

Example b64decode_one :
  b64decode "Y==="
  = Raise (BinasciiError
      "Invalid base64-encoded string: number of data characters (1) cannot be 1 more than a multiple of 4").
Proof. reflexivity. Qed.

End CodecChecks.

Module ModelChecks.
Import PyStr ApiRouter Scenario.

Example loads_ex :
  RefJson.loads (Json.dumps_compact created) = Some created.
Proof. reflexivity. Qed.

Example loads_bad :
  map RefJson.loads ["[1,]"; "01"; "{"; "1.5"; ""; "nul"; " [1 , 2] x"]
  = [None; None; None; None; None; None; None].
Proof. reflexivity. Qed.

Example loads_ws :
  RefJson.loads " [1 , -2, true,null ] " = Some (JArr [JNum 1; JNum (-2); JBool true; JNull]).
Proof. reflexivity. Qed.

End ModelChecks.

(* ================================================================== *)
(** * Facts about strings and dictionaries *)
(* ================================================================== *)

Module StrFacts.
Import PyStr.

Lemma app_nil_r (s : string) : s ++ "" = s.
Proof. induction s as [|c s IH]; simpl; [reflexivity | now rewrite IH]. Qed.

Lemma app_assoc (a b c : string) : (a ++ b) ++ c = a ++ (b ++ c).
Proof. induction a as [|x a IH]; simpl; [reflexivity | now rewrite IH]. Qed.

Lemma length_app (a b : string) :
  String.length (a ++ b) = String.length a + String.length b.
Proof. induction a as [|x a IH]; simpl; [reflexivity | now rewrite IH]. Qed.

Lemma drop_last_app (a b : string) :
  b <> "" -> drop_last (a ++ b) = a ++ drop_last b.
Proof.
  intros Hb. induction a as [|x a IH]; simpl; [reflexivity|].
  rewrite IH. destruct (a ++ b) eqn:E; [|reflexivity].
  destruct a; simpl in E; [contradiction | discriminate].
Qed.

Lemma drop_last_snoc (a : string) (c : ascii) : drop_last (a ++ str1 c) = a.
Proof.
  rewrite drop_last_app by discriminate. simpl. apply app_nil_r.
Qed.

Lemma all_chars_app (p : ascii -> bool) (a b : string) :
  all_chars p (a ++ b) = all_chars p a && all_chars p b.
Proof.
  induction a as [|x a IH]; simpl; [reflexivity|].
  now rewrite IH, andb_assoc.
Qed.

Lemma split_length_pos (sep : ascii) (s : string) : split sep s <> [].
Proof.
  induction s as [|c s IH]; simpl; [discriminate|].
  destruct (Ascii.eqb c sep); [discriminate|].
  destruct (split sep s); [contradiction | discriminate].
Qed.

(** A string without the separator is one field. *)
Lemma split_none (sep : ascii) (s : string) :
  all_chars (fun c => negb (Ascii.eqb c sep)) s = true -> split sep s = [s].
Proof.
  induction s as [|c s IH]; simpl; [reflexivity|].
  intros H. apply andb_prop in H as [Hc Hs].
  apply negb_true_iff in Hc. rewrite Hc, (IH Hs). reflexivity.
Qed.

(** A separator after a field without separator starts the next field. *)
Lemma split_app (sep : ascii) (a b : string) :
  all_chars (fun c => negb (Ascii.eqb c sep)) a = true ->
  split sep (a ++ String sep b) = a :: split sep b.
Proof.
  induction a as [|c a IH]; simpl; intros H.
  - now rewrite Ascii.eqb_refl.
  - apply andb_prop in H as [Hc Ha].
    apply negb_true_iff in Hc. rewrite Hc, (IH Ha). reflexivity.
Qed.

Lemma splitlines_nil (s : string) : splitlines s = [] <-> s = "".
Proof.
  split; [|now intros ->].
  destruct s as [|c r]; [reflexivity|]. simpl.
  destruct (is_linebreak c).
  - destruct r as [|c' r']; [discriminate|].
    destruct (Ascii.eqb c CR && Ascii.eqb c' LF); discriminate.
  - destruct (splitlines r); discriminate.
Qed.

End StrFacts.

Module DictFacts.
Section Facts.
Context {V : Type}.
Implicit Types (d : dict V) (k : string) (v : V).

Lemma get_set_eq d k v : Dict.get (Dict.set d k v) k = Some v.
Proof.
  induction d as [|[k' v'] d IH]; simpl.
  - now rewrite String.eqb_refl.
  - destruct (k' =? k) eqn:E; simpl.
    + now rewrite String.eqb_refl.
    + now rewrite E.
Qed.

Lemma get_set_neq d k k' v :
  k <> k' -> Dict.get (Dict.set d k v) k' = Dict.get d k'.
Proof.
  intros Hne. induction d as [|[k0 v0] d IH]; simpl.
  - apply String.eqb_neq in Hne. now rewrite Hne.
  - destruct (k0 =? k) eqn:E; simpl.
    + apply String.eqb_eq in E. subst k0.
      apply String.eqb_neq in Hne. now rewrite Hne.
    + destruct (k0 =? k'); [reflexivity | exact IH].
Qed.

Lemma mem_set_eq d k v : Dict.mem (Dict.set d k v) k = true.
Proof. unfold Dict.mem. now rewrite get_set_eq. Qed.

Lemma mem_set_neq d k k' v :
  k <> k' -> Dict.mem (Dict.set d k v) k' = Dict.mem d k'.
Proof. intros. unfold Dict.mem. now rewrite get_set_neq. Qed.

Lemma set_set d k v v' : Dict.set (Dict.set d k v) k v' = Dict.set d k v'.
Proof.
  induction d as [|[k0 v0] d IH]; simpl.
  - now rewrite String.eqb_refl.
  - destruct (k0 =? k) eqn:E; simpl.
    + now rewrite String.eqb_refl.
    + now rewrite E, IH.
Qed.

Lemma set_same d k v : Dict.get d k = Some v -> Dict.set d k v = d.
Proof.
  induction d as [|[k0 v0] d IH]; simpl; [discriminate|].
  destruct (k0 =? k) eqn:E.
  - intros Heq. injection Heq as ->. apply String.eqb_eq in E. now subst.
  - intros Hd. now rewrite IH.
Qed.

Lemma get_none_notin d k : Dict.get d k = None <-> ~ In k (Dict.keys d).
Proof.
  induction d as [|[k0 v0] d IH]; simpl.
  - tauto.
  - destruct (k0 =? k) eqn:E.
    + apply String.eqb_eq in E. split; [discriminate | tauto].
    + apply String.eqb_neq in E. rewrite IH. tauto.
Qed.

Lemma set_fresh d k v :
  Dict.get d k = None -> Dict.set d k v = (d ++ [(k, v)])%list.
Proof.
  induction d as [|[k0 v0] d IH]; simpl; [reflexivity|].
  destruct (k0 =? k); [discriminate|].
  intros Hn. now rewrite IH.
Qed.

Lemma get_in_wf d k v :
  Dict.wf d -> In (k, v) d -> Dict.get d k = Some v.
Proof.
  unfold Dict.wf, Dict.keys.
  induction d as [|[k0 v0] d IH]; simpl; [tauto|].
  intros Hnd [Heq | Hin].
  - inversion Heq; subst. now rewrite String.eqb_refl.
  - inversion Hnd as [|? ? Hnotin Hnd']; subst.
    destruct (k0 =? k) eqn:E.
    + apply String.eqb_eq in E. subst k0.
      exfalso. apply Hnotin. change k with (fst (k, v)). now apply in_map.
    + now apply IH.
Qed.
End Facts.
End DictFacts.

(* ================================================================== *)
(** * lambda_utils.py: the checks before a sandbox is spawned *)
(* ================================================================== *)

Module InvokerFacts.
Import PyStr LambdaUtils.

Section Facts.
Context `{Host} `{TextLib}.
Variables (function_file_path : string) (payload : option json)
          (layer_dir docker_network_name : option string)
          (environment : option (dict string)) (handler_name : string).

Local Abbreviation run :=
  (run_function function_file_path payload layer_dir
     docker_network_name environment handler_name).

Lemma missing_file_raises :
  function_missing function_file_path = true ->
  run = (Raise (FileNotFoundError
                  ("Function " ++ sq function_file_path
                   ++ " not found or is not a file")), []).
Proof.
  intros Hc. unfold run, run_function. rewrite Hc. reflexivity.
Qed.

Lemma unsupported_extension_raises :
  function_missing function_file_path = false ->
  let ext := snd (PosixPath.splitext function_file_path) in
  ext <> ".js" -> ext <> ".py" ->
  run = (Raise (TypeError
                  ("Cannot find matching Lambda runtime for function extension "
                   ++ q ext)), []).
Proof.
  intros Hc ext Hjs Hpy. unfold run, run_function. rewrite Hc.
  fold ext. unfold runtime_of_extension.
  apply String.eqb_neq in Hjs, Hpy. rewrite Hjs, Hpy. reflexivity.
Qed.

Lemma missing_layer_raises (rt : runtime) (e : exn) :
  function_missing function_file_path = false ->
  runtime_of_extension (snd (PosixPath.splitext function_file_path)) = Ok rt ->
  check_layer layer_dir = Raise e ->
  run = (Raise e, []).
Proof.
  intros Hc Hrt Hl. unfold run, run_function. rewrite Hc, Hrt, Hl. reflexivity.
Qed.

(** Once the three checks have passed the sandbox is spawned, once, and
    the result is read off its exit status and its captured output. *)
Lemma checked_run (rt : runtime) :
  function_missing function_file_path = false ->
  runtime_of_extension (snd (PosixPath.splitext function_file_path)) = Ok rt ->
  check_layer layer_dir = Ok tt ->
  run = (parse_output
           (returncode_of
              (run_cmd (docker_cmd rt function_file_path payload layer_dir
                          docker_network_name environment handler_name)))
           (stdout_of
              (run_cmd (docker_cmd rt function_file_path payload layer_dir
                          docker_network_name environment handler_name))),
         [docker_cmd rt function_file_path payload layer_dir
            docker_network_name environment handler_name]).
Proof.
  intros Hc Hrt Hl. unfold run, run_function. rewrite Hc, Hrt, Hl.
  unfold bind, lift, spawn. cbn [Datatypes.app].
  destruct (run_cmd _) as [rc out | rc out]; cbn [returncode_of stdout_of];
    destruct (parse_output rc out); reflexivity.
Qed.

Lemma checked_run_spawns (rt : runtime) :
  function_missing function_file_path = false ->
  runtime_of_extension (snd (PosixPath.splitext function_file_path)) = Ok rt ->
  check_layer layer_dir = Ok tt ->
  spawned run = [docker_cmd rt function_file_path payload layer_dir
                   docker_network_name environment handler_name].
Proof.
  intros Hc Hrt Hl. now rewrite (checked_run rt Hc Hrt Hl).
Qed.

(** A run whose sandbox was never spawned ended in one of the checks. *)
Lemma spawns_at_most_once : (List.length (spawned run) <= 1)%nat.
Proof.
  destruct (function_missing function_file_path) eqn:E1.
  - rewrite (missing_file_raises E1). simpl. lia.
  - destruct (runtime_of_extension (snd (PosixPath.splitext function_file_path)))
      as [rt|e] eqn:E2.
    + destruct (check_layer layer_dir) as [[]|e] eqn:E3.
      * rewrite (checked_run_spawns rt E1 E2 E3). simpl. lia.
      * rewrite (missing_layer_raises rt e E1 E2 E3). simpl. lia.
    + unfold run, run_function. rewrite E1, E2. simpl. lia.
Qed.

(** The result of a run whose checks passed, in terms of the captured
    output. *)
Lemma checked_run_empty_output (rt : runtime) :
  function_missing function_file_path = false ->
  runtime_of_extension (snd (PosixPath.splitext function_file_path)) = Ok rt ->
  check_layer layer_dir = Ok tt ->
  stdout_of (run_cmd (docker_cmd rt function_file_path payload layer_dir
                        docker_network_name environment handler_name)) = "" ->
  decode_utf8 "" = Some "" ->
  run = (Raise (IndexError "list index out of range"),
         [docker_cmd rt function_file_path payload layer_dir
            docker_network_name environment handler_name]).
Proof.
  intros Hc Hrt Hl Hout Hdec. rewrite (checked_run rt Hc Hrt Hl), Hout.
  unfold parse_output, JsonLoads.decode. rewrite Hdec. reflexivity.
Qed.
End Facts.

(** ** Reading the output *)

Section Output.
Context `{TextLib}.

(** The output whose last line parses as [ret_value]. *)
Lemma parse_output_value (retcode : Z) (raw text last : string)
      (ret_value : json) :
  decode_utf8 raw = Some text ->
  last_item (splitlines text) = Some last ->
  loads_str last = Some ret_value ->
  parse_output retcode raw
  = (errors <- error_fields ret_value ;;
     Ok {| raw_output := if last =? "null" then None else Some last;
           return_value := ret_value;
           exit_status := retcode;
           stdout := text;
           error_info := errors |})%result.
Proof.
  intros Hd Hl Hp. unfold parse_output, JsonLoads.decode, JsonLoads.loads.
  rewrite Hd. cbn [of_option rbind]. rewrite Hl. cbn [of_option rbind].
  rewrite Hp. reflexivity.
Qed.

(** The error entries of an object are always found. *)
Lemma field_or_none_object (d : dict json) (k : string) :
  field_or_none (JObj d) k = Ok (Dict.get d k).
Proof.
  unfold field_or_none. cbn [Json.contains Json.getitem rbind].
  unfold Dict.mem. destruct (Dict.get d k); reflexivity.
Qed.

Lemma error_fields_object (d : dict json) :
  exists errors, error_fields (JObj d) = Ok errors.
Proof.
  unfold error_fields. destruct (Json.truthy (JObj d)); [|now eexists].
  rewrite !field_or_none_object. cbn [rbind]. now eexists.
Qed.

(** On another value they raise nothing but [TypeError]. *)
Lemma field_or_none_raises (v : json) (k : string) (e : exn) :
  field_or_none v k = Raise e -> exists msg, e = TypeError msg.
Proof.
  destruct v as [| b | n | s | l | d];
    try (rewrite field_or_none_object; discriminate);
    unfold field_or_none; cbn [Json.contains rbind];
    try (intros Heq; injection Heq as <-; now eexists).
  - destruct (PyStr.contains k s); cbn [Json.getitem rbind];
      [intros Heq; injection Heq as <-; now eexists | discriminate].
  - destruct (existsb _ l); cbn [Json.getitem rbind];
      [intros Heq; injection Heq as <-; now eexists | discriminate].
Qed.

Lemma error_fields_raises (v : json) (e : exn) :
  error_fields v = Raise e -> exists msg, e = TypeError msg.
Proof.
  unfold error_fields. destruct (Json.truthy v); [|discriminate].
  destruct (field_or_none v "errorType") eqn:E1; cbn [rbind];
    [|intros Heq; injection Heq as <-; exact (field_or_none_raises _ _ _ E1)].
  destruct (field_or_none v "errorMessage") eqn:E2; cbn [rbind];
    [|intros Heq; injection Heq as <-; exact (field_or_none_raises _ _ _ E2)].
  destruct (field_or_none v "stackTrace") eqn:E3; cbn [rbind];
    [discriminate|].
  intros Heq; injection Heq as <-; exact (field_or_none_raises _ _ _ E3).
Qed.
End Output.
End InvokerFacts.

(* ================================================================== *)
(** * The sandbox invoker: handler file, runtime, output *)
(* ================================================================== *)

Module InvokerClaims.
Import PyStr LambdaUtils.

(** A path that exists passes the first check, regular file or not. *)
Lemma existing_path_passes (host : Host) (p : string) :
  path_exists p = true -> function_missing p = false.
Proof. unfold function_missing. intros ->. reflexivity. Qed.

(** The check raises exactly when the path neither exists nor is a regular
    file. *)
Lemma function_missing_iff (host : Host) (p : string) :
  function_missing p = true <-> path_exists p = false /\ path_isfile p = false.
Proof.
  unfold function_missing. rewrite andb_true_iff, !negb_true_iff. tauto.
Qed.

(** C5, at the failing input: the handler path
    [/srv/functions/hello/handler.py] exists and is a directory, not a
    regular file.  [run_function] does not raise [FileNotFoundError]: the
    check passes and the sandbox is spawned on the directory's parent. *)
Theorem directory_handler_is_spawned :
  let host := RefHost.host [] ["/srv/functions/hello/handler.py"]
                (CalledProcessError 1 "") in
  let p := "/srv/functions/hello/handler.py" in
  let run := @run_function host RefJson.text_lib p None None None None "main" in
  @path_exists host p = true
  /\ @path_isfile host p = false
  /\ spawned run
     = ["docker run --rm -it -v /srv/functions/hello:/var/task:ro,delegated lambci/lambda:python3.7 handler.main"]
  /\ outcome run = Raise (IndexError "list index out of range").
Proof. repeat split. Qed.

(** C7 as stated fails: for the path [/srv/functions/hello/handler.rb],
    whose extension is [.rb], on a host where no such path exists, the
    invoker raises [FileNotFoundError], not the runtime error. *)
Lemma unsupported_extension_of_missing_file :
  let host := RefHost.host [] [] (CalledProcessError 1 "") in
  let p := "/srv/functions/hello/handler.rb" in
  snd (PosixPath.splitext p) = ".rb"
  /\ @run_function host RefJson.text_lib p None None None None "main"
     = (Raise (FileNotFoundError
          "Function '/srv/functions/hello/handler.rb' not found or is not a file"),
        []).
Proof. split; reflexivity. Qed.

(** C7, amended: for a handler path that passes the existence check, an
    extension other than [.py] and [.js] makes the invoker raise the runtime
    [TypeError] with no sandbox spawned; [.py] selects the python family and
    [.js] the node family, the extension alone deciding, and that family's
    image is the one of the sandbox spawned once the layer check passed. *)
Theorem runtime_from_extension (host : Host) (lib : TextLib)
        (p : string) (payload : option json)
        (layer net : option string) (env : option (dict string))
        (handler : string) :
  function_missing p = false ->
  let ext := snd (PosixPath.splitext p) in
  let run := run_function p payload layer net env handler in
  (ext <> ".py" -> ext <> ".js" ->
   run = (Raise (TypeError
            ("Cannot find matching Lambda runtime for function extension "
             ++ q ext)), []))
  /\ (ext = ".py" ->
      runtime_of_extension ext = Ok python
      /\ (check_layer layer = Ok tt ->
          spawned run = [docker_cmd python p payload layer net env handler]))
  /\ (ext = ".js" ->
      runtime_of_extension ext = Ok node
      /\ (check_layer layer = Ok tt ->
          spawned run = [docker_cmd node p payload layer net env handler])).
Proof.
  intros Hc ext run. repeat split.
  - intros Hpy Hjs.
    exact (InvokerFacts.unsupported_extension_raises
             p payload layer net env handler Hc Hjs Hpy).
  - rewrite H. reflexivity.
  - intros Hl. apply InvokerFacts.checked_run_spawns; auto.
    fold ext. rewrite H. reflexivity.
  - rewrite H. reflexivity.
  - intros Hl. apply InvokerFacts.checked_run_spawns; auto.
    fold ext. rewrite H. reflexivity.
Qed.

Lemma runtime_from_extension_witness :
  let host := RefHost.host ["/srv/functions/hello/handler.rb"] []
                (CalledProcessError 1 "") in
  let p := "/srv/functions/hello/handler.rb" in
  @function_missing host p = false
  /\ snd (PosixPath.splitext p) = ".rb"
  /\ @run_function host RefJson.text_lib p None None None None "main"
     = (Raise (TypeError
          ("Cannot find matching Lambda runtime for function extension "
           ++ q (snd (PosixPath.splitext p)))), []).
Proof.
  intros host p. split; [reflexivity|]. split; [reflexivity|].
  refine (proj1 (runtime_from_extension host RefJson.text_lib p
                   None None None None "main" eq_refl) _ _);
    intros E; vm_compute in E; discriminate E.
Defined.

(** C10: when the checks have passed and the sandbox leaves its standard
    output empty, taking the last line of the output raises [IndexError]:
    [run_function] returns no result dictionary, after the sandbox ran. *)
Theorem empty_output_raises_index_error (host : Host) (lib : TextLib)
        (p : string) (payload : option json)
        (layer net : option string) (env : option (dict string))
        (handler : string) (rt : runtime) :
  function_missing p = false ->
  runtime_of_extension (snd (PosixPath.splitext p)) = Ok rt ->
  check_layer layer = Ok tt ->
  stdout_of (run_cmd (docker_cmd rt p payload layer net env handler)) = "" ->
  decode_utf8 "" = Some "" ->
  splitlines "" = []
  /\ run_function p payload layer net env handler
     = (Raise (IndexError "list index out of range"),
        [docker_cmd rt p payload layer net env handler]).
Proof.
  intros Hc Hrt Hl Hout Hdec. split; [reflexivity|].
  now apply InvokerFacts.checked_run_empty_output.
Qed.

Lemma empty_output_raises_index_error_witness :
  let host := Scenario.host_with (CalledProcessError 1 "") in
  let p := "/srv/functions/hello/handler.py" in
  @function_missing host p = false
  /\ runtime_of_extension (snd (PosixPath.splitext p)) = Ok python
  /\ @check_layer host None = Ok tt
  /\ stdout_of (@run_cmd host
                  (@docker_cmd host python p None None None None "main")) = ""
  /\ @decode_utf8 RefJson.text_lib "" = Some ""
  /\ @run_function host RefJson.text_lib p None None None None "main"
     = (Raise (IndexError "list index out of range"),
        [@docker_cmd host python p None None None None "main"]).
Proof.
  intros host p. repeat (split; [reflexivity|]).
  apply (empty_output_raises_index_error host RefJson.text_lib p
           None None None None "main" python); reflexivity.
Defined.

(** Only the empty output has no last line: any other output reaches the
    JSON parser. *)
Lemma last_line_exists (s : string) :
  s <> "" -> exists l, last_item (splitlines s) = Some l.
Proof.
  intros Hs. destruct (splitlines s) as [|x r] eqn:E.
  - apply StrFacts.splitlines_nil in E. contradiction.
  - clear E. revert x. induction r as [|y r IH]; intros x.
    + now exists x.
    + destruct (IH y) as [l Hl]. exists l. simpl in *. exact Hl.
Qed.

End InvokerClaims.

(* ================================================================== *)
(** * The token codec *)
(* ================================================================== *)

Module TokenFacts.
Import PyStr Base64 Payload.

(** ** Strings seen from their end *)

Lemma snoc_cases (b : string) : b = "" \/ exists b' c, b = b' ++ str1 c.
Proof.
  induction b as [|x b IH]; [now left | right].
  destruct IH as [-> | (b' & c & ->)].
  - now exists "", x.
  - now exists (String x b'), c.
Qed.

Lemma last_char_snoc (b : string) (c : ascii) : last_char (b ++ str1 c) = Some c.
Proof.
  induction b as [|x b IH]; simpl; [reflexivity|].
  rewrite IH. destruct (b ++ str1 c) eqn:E; [|reflexivity].
  destruct b; discriminate.
Qed.

Lemma rstrip_char_snoc (x : ascii) (b : string) (c : ascii) :
  rstrip_char x (b ++ str1 c)
  = if Ascii.eqb c x then rstrip_char x b else b ++ str1 c.
Proof.
  induction b as [|y b IH]; simpl.
  - destruct (Ascii.eqb c x); reflexivity.
  - rewrite IH. destruct (Ascii.eqb c x); [reflexivity|].
    destruct (b ++ str1 c) eqn:E; [|reflexivity].
    destruct b; discriminate.
Qed.

(** ** The padding loop *)

(** The loop computes [b.rstrip(b'=')] and raises when nothing is left. *)
Lemma remove_padding_loop_spec (n : nat) (b : string) :
  String.length b <= n ->
  remove_padding_loop n b
  = match rstrip_char "=" b with
    | "" => Raise (IndexError "index out of range")
    | r => Ok r
    end.
Proof.
  revert b. induction n as [|n IH]; intros b Hlen.
  - destruct b; [reflexivity | simpl in Hlen; lia].
  - destruct (snoc_cases b) as [-> | (b' & c & ->)]; [reflexivity|].
    simpl remove_padding_loop. rewrite last_char_snoc, rstrip_char_snoc.
    destruct (Ascii.eqb c "=") eqn:E.
    + rewrite StrFacts.drop_last_snoc. apply IH.
      rewrite StrFacts.length_app in Hlen. simpl in Hlen. lia.
    + destruct (b' ++ str1 c) eqn:E'; [|reflexivity].
      destruct b'; discriminate.
Qed.

Lemma remove_padding_spec (b : string) :
  remove_padding b
  = match rstrip_char "=" b with
    | "" => Raise (IndexError "index out of range")
    | r => Ok r
    end.
Proof. apply remove_padding_loop_spec. lia. Qed.

Lemma rstrip_char_all (p : ascii -> bool) (x : ascii) (b : string) :
  all_chars p b = true -> all_chars p (rstrip_char x b) = true.
Proof.
  induction b as [|c b IH]; simpl; [reflexivity|].
  intros H. apply andb_prop in H as [Hc Hb].
  destruct (rstrip_char x b) eqn:E.
  - destruct (Ascii.eqb c x); simpl; [reflexivity | now rewrite Hc].
  - simpl. rewrite Hc. exact (IH Hb).
Qed.

Lemma rstrip_char_head (x c : ascii) (b : string) :
  Ascii.eqb c x = false -> rstrip_char x (String c b) <> "".
Proof.
  intros H. simpl. rewrite H. destruct (rstrip_char x b); discriminate.
Qed.

(** ** The alphabet *)

Lemma below_64 (P : N -> bool) :
  forallb (fun n => P (N.of_nat n)) (seq 0 64) = true ->
  forall n, (n < 64)%N -> P n = true.
Proof.
  intros H n Hn. rewrite forallb_forall in H.
  rewrite <- (N2Nat.id n). apply H. apply in_seq. lia.
Qed.

Lemma b64_char_high (u : bool) (n : N) :
  (64 <= n)%N -> b64_char u n = if u then "_"%char else "/"%char.
Proof.
  intros Hn. unfold b64_char.
  destruct (N.ltb_spec n 26); [lia|].
  destruct (N.ltb_spec n 52); [lia|].
  destruct (N.ltb_spec n 62); [lia|].
  destruct (N.eqb_spec n 62); [lia|]. reflexivity.
Qed.

Lemma b64_char_not_pad (u : bool) (n : N) :
  Ascii.eqb (b64_char u n) "=" = false.
Proof.
  destruct (N.lt_ge_cases n 64) as [Hn | Hn].
  - apply negb_true_iff.
    apply (below_64 (fun n => negb (Ascii.eqb (b64_char u n) "="))); [|exact Hn].
    destruct u; vm_compute; reflexivity.
  - rewrite (b64_char_high u n Hn). destruct u; reflexivity.
Qed.

Lemma b64_char_no_dot (u : bool) (n : N) : no_dot (b64_char u n) = true.
Proof.
  destruct (N.lt_ge_cases n 64) as [Hn | Hn].
  - apply (below_64 (fun n => no_dot (b64_char u n))); [|exact Hn].
    destruct u; vm_compute; reflexivity.
  - rewrite (b64_char_high u n Hn). destruct u; reflexivity.
Qed.

(** No character of an encoding is a dot. *)
Lemma encode_no_dot (u : bool) (s : string) :
  all_chars no_dot (encode u s) = true.
Proof.
  assert (H : forall n s, String.length s <= n ->
                          all_chars no_dot (encode u s) = true).
  { clear s. induction n as [|n IH]; intros s Hlen.
    - destruct s; [reflexivity | simpl in Hlen; lia].
    - destruct s as [|a [|b [|c r]]]; [reflexivity | | |].
      + simpl. now rewrite !b64_char_no_dot.
      + simpl. now rewrite !b64_char_no_dot.
      + cbn [encode all_chars]. rewrite !b64_char_no_dot. simpl.
        apply IH. simpl in Hlen. lia. }
  apply (H (String.length s)). lia.
Qed.

(** The encoding of a non-empty byte string starts with a data character,
    so that some of it remains once the padding is removed. *)
Lemma remove_padding_encode (u : bool) (s : string) :
  s <> "" ->
  exists sig, remove_padding (encode u s) = Ok sig
              /\ all_chars no_dot sig = true.
Proof.
  intros Hs. rewrite remove_padding_spec.
  assert (Hne : rstrip_char "=" (encode u s) <> "").
  { destruct s as [|a [|b [|c r]]]; [contradiction | | |];
      cbn [encode]; apply rstrip_char_head; apply b64_char_not_pad. }
  assert (Hall := rstrip_char_all no_dot "=" _ (encode_no_dot u s)).
  destruct (rstrip_char "=" (encode u s)) as [|c r] eqn:E; [contradiction|].
  now exists (String c r).
Qed.

End TokenFacts.

Module TokenClaims.
Import PyStr Base64 Payload TokenFacts.

(** ** Decoding *)

Lemma a2b_base64_not_value_error (s : string) (quad_pos leftchar pads : N)
      (out : list ascii) (n : N) (msg : string) :
  a2b_base64 s quad_pos leftchar pads out n <> Raise (ValueError msg).
Proof.
  revert quad_pos leftchar pads out n.
  induction s as [|c s IH]; intros quad_pos leftchar pads out n; simpl.
  - destruct (quad_pos =? 0)%N; [discriminate|].
    destruct (quad_pos =? 1)%N; discriminate.
  - destruct (Ascii.eqb c PAD).
    + destruct (2 <=? quad_pos)%N; [|apply IH].
      destruct (4 <=? quad_pos + (pads + 1))%N; [discriminate | apply IH].
    + destruct (b64_value c); [|apply IH].
      destruct (quad_pos =? 0)%N; [apply IH|].
      destruct (quad_pos =? 1)%N; [apply IH|].
      destruct (quad_pos =? 2)%N; apply IH.
Qed.

(** What decoding the middle segment may raise is never the format error
    of the splitting step. *)
Lemma decode_segment_not_format_error (lib : TextLib) (segment jwt : string) :
  (decoded <- b64decode segment ;; JsonLoads.loads_bytes decoded)%result
  <> Raise (ValueError ("Invalid JWT: " ++ jwt)).
Proof.
  unfold b64decode. destruct (isascii segment); [|discriminate].
  destruct (a2b_base64 segment 0 0 0 [] 0) as [decoded | e] eqn:E; simpl.
  - unfold JsonLoads.loads_bytes, JsonLoads.loads.
    destruct (decode_json_bytes decoded) as [text|]; [|discriminate].
    destruct (loads_str text); discriminate.
  - intros Heq. injection Heq as ->.
    exact (a2b_base64_not_value_error _ _ _ _ _ _ _ E).
Qed.

(** C9: [parse_jwt_payload] raises the format error, the [ValueError] with
    message [Invalid JWT: <token>], if and only if splitting the token on
    [.] does not give three segments; with three segments nothing is raised
    at the splitting step, and whatever the decoding of the middle segment
    raises is another error. *)
Theorem token_format_error_iff (lib : TextLib) (jwt : string) :
  parse_jwt_payload jwt = Raise (ValueError ("Invalid JWT: " ++ jwt))
  <-> List.length (split "." jwt) <> 3.
Proof.
  unfold parse_jwt_payload.
  destruct (Nat.eqb_spec (List.length (split "." jwt)) 3) as [E | E]; simpl.
  - split; [|contradiction].
    intros H. exfalso. exact (decode_segment_not_format_error _ _ _ H).
  - split; [intros _; exact E | reflexivity].
Qed.

(** With three segments without dot the middle one is decoded. *)
Lemma parse_three_segments (lib : TextLib) (a b c : string) :
  all_chars no_dot a = true ->
  all_chars no_dot b = true ->
  all_chars no_dot c = true ->
  parse_jwt_payload (a ++ "." ++ b ++ "." ++ c)
  = (decoded <- b64decode (b ++ repeat_string "=" (String.length b mod 4)) ;;
     JsonLoads.loads_bytes decoded)%result.
Proof.
  intros Ha Hb Hc. unfold parse_jwt_payload.
  change (a ++ "." ++ b ++ "." ++ c)
    with (a ++ String "." (b ++ String "." c)).
  rewrite (StrFacts.split_app "." a _ Ha), (StrFacts.split_app "." b _ Hb),
    (StrFacts.split_none "." c Hc).
  reflexivity.
Qed.

(** ** Encoding *)

(** The token of a claims object whose serialization is ASCII, for a digest
    that is not empty: the two encoded segments and some signature without
    dot. *)
Lemma build_jwt_segments (mac : Hmac) (user_id : string)
      (name email : option string) (secret header claims : string) :
  (forall k m, String.length (hmac_sha256 k m) = 32) ->
  isascii secret = true ->
  remove_padding (urlsafe_b64encode (Json.dumps_compact JWT_HEADER))
  = Ok header ->
  isascii (Json.dumps_compact (jwt_payload user_id name email)) = true ->
  remove_padding
    (urlsafe_b64encode (Json.dumps_compact (jwt_payload user_id name email)))
  = Ok claims ->
  exists signature,
    build_jwt user_id name email secret
    = Ok (header ++ "." ++ claims ++ "." ++ signature)
    /\ all_chars no_dot signature = true.
Proof.
  intros Hlen Hsecret Hheader Hascii Hclaims.
  destruct (remove_padding_encode true
              (hmac_sha256 secret (header ++ "." ++ claims)))
    as (signature & Hsig & Hdots).
  { intros E. specialize (Hlen secret (header ++ "." ++ claims)).
    rewrite E in Hlen. discriminate. }
  exists signature. split; [|exact Hdots].
  unfold build_jwt, encode_ascii.
  change (isascii (Json.dumps_compact JWT_HEADER)) with true.
  cbn [rbind]. rewrite Hheader. cbn [rbind]. rewrite Hascii. cbn [rbind].
  rewrite Hclaims. cbn [rbind]. rewrite Hsecret. cbn [rbind].
  unfold urlsafe_b64encode in *. rewrite Hsig. reflexivity.
Qed.

(** C4, at the failing input: the token built for the user id [?] and the
    name [Ann] is not decoded.  The claims
    [{"sub":"?","name":"Ann"}] are encoded with the URL-safe alphabet, where
    the byte [?] gives the character [_]; [parse_jwt_payload] decodes with
    the standard alphabet, drops that character and fails on the 31 that
    remain.  This holds for every keyed digest of 32 bytes. *)
Theorem urlsafe_token_is_not_decoded (mac : Hmac) (lib : TextLib) :
  (forall k m, String.length (hmac_sha256 k m) = 32) ->
  exists token,
    build_jwt "?" (Some "Ann") None "s" = Ok token
    /\ prefix "eyJhbGciOiJIUzI1NiIsInR5cCI6IkpXVCJ9.eyJzdWIiOiI_IiwibmFtZSI6IkFubiJ9."
              token = true
    /\ parse_jwt_payload token = Raise (BinasciiError "Incorrect padding").
Proof.
  intros Hlen.
  destruct (build_jwt_segments mac "?" (Some "Ann") None "s"
              "eyJhbGciOiJIUzI1NiIsInR5cCI6IkpXVCJ9"
              "eyJzdWIiOiI_IiwibmFtZSI6IkFubiJ9" Hlen)
    as (signature & Hbuild & Hdots); try reflexivity.
  exists ("eyJhbGciOiJIUzI1NiIsInR5cCI6IkpXVCJ9" ++ "."
          ++ "eyJzdWIiOiI_IiwibmFtZSI6IkFubiJ9" ++ "." ++ signature).
  split; [exact Hbuild|]. split.
  - simpl. destruct signature; reflexivity.
  - rewrite parse_three_segments; auto.
Qed.

Lemma urlsafe_token_is_not_decoded_witness :
  (forall k m, String.length (@hmac_sha256 RefHost.hmac k m) = 32)
  /\ exists token,
      @build_jwt RefHost.hmac "?" (Some "Ann") None "s" = Ok token
      /\ prefix "eyJhbGciOiJIUzI1NiIsInR5cCI6IkpXVCJ9.eyJzdWIiOiI_IiwibmFtZSI6IkFubiJ9."
                token = true
      /\ @parse_jwt_payload RefJson.text_lib token
         = Raise (BinasciiError "Incorrect padding").
Proof.
  split; [reflexivity|].
  apply (urlsafe_token_is_not_decoded RefHost.hmac RefJson.text_lib).
  reflexivity.
Defined.

(** The example of the specification: the claims of [u1], [Ann] come back
    from their token. *)
Example token_round_trip_example (mac : Hmac) :
  (forall k m, String.length (hmac_sha256 k m) = 32) ->
  exists token,
    build_jwt "u1" (Some "Ann") None "s" = Ok token
    /\ @parse_jwt_payload RefJson.text_lib token
       = Ok (JObj [("sub", JStr "u1"); ("name", JStr "Ann")]).
Proof.
  intros Hlen.
  destruct (build_jwt_segments mac "u1" (Some "Ann") None "s"
              "eyJhbGciOiJIUzI1NiIsInR5cCI6IkpXVCJ9"
              "eyJzdWIiOiJ1MSIsIm5hbWUiOiJBbm4ifQ" Hlen)
    as (signature & Hbuild & Hdots); try reflexivity.
  eexists. split; [exact Hbuild|].
  rewrite parse_three_segments; auto.
Qed.

(** The helper that builds an authenticated event decodes the token it has
    just built: for the user id [?] it raises instead of returning an
    event. *)
Example authenticated_payload_fails :
  @build_authenticated_payload RefJson.text_lib RefHost.hmac "?"
    "Authorization" "/hello" "GET" None None None None None None
  = Raise (UnicodeError "invalid start byte").
Proof. vm_compute. reflexivity. Qed.

(** A secret outside ASCII stops the construction of the token. *)
Example non_ascii_secret_raises (mac : Hmac) :
  build_jwt "u1" (Some "Ann") None Scenario.e_acute
  = Raise (UnicodeError "'ascii' codec can't encode character").
Proof. reflexivity. Qed.

End TokenClaims.

(* ================================================================== *)
(** * The router *)
(* ================================================================== *)

Module RouterFacts.
Import PyStr ApiRouter.

Section Facts.
Context `{Host} `{TextLib} `{WebFramework}.
Variables (self : router) (req : request).

(** A request whose event has a route key of the table is handed to the
    sandbox invoker, and the result of the invocation is translated. *)
Lemma route_request_hit (payload key : json) (config : endpoint) :
  event_of req = Ok payload ->
  Json.getitem payload "routeKey" = Ok key ->
  lookup self key = Ok (Some config) ->
  route_request self req
  = bind (LambdaUtils.run_function (ep_filepath config) (Some payload)
            (layer_dir self) (docker_network_name self) (environment self)
            (ep_handler config))
         (fun response => lift (translate response)).
Proof.
  intros He Hk Hl. unfold route_request. rewrite He. cbn [lift bind].
  rewrite Hk. cbn [lift bind]. rewrite Hl. cbn [lift bind].
  destruct (bind _ _) as [r t]. reflexivity.
Qed.

(** A request that is not handed to the invoker spawns nothing. *)
Lemma route_request_miss (payload key : json) :
  event_of req = Ok payload ->
  Json.getitem payload "routeKey" = Ok key ->
  lookup self key = Ok None ->
  route_request self req
  = (Ok (Pair (JStr "Endpoint configuration not found") 500), []).
Proof.
  intros He Hk Hl. unfold route_request. rewrite He. cbn [lift bind].
  rewrite Hk. cbn [lift bind]. rewrite Hl. reflexivity.
Qed.

(** The view after an invocation: the result of the invoker, if it
    returns one, is translated, and the sandbox is the only one spawned. *)
Lemma route_request_invocation (cmd : string) (rc : Z) (rv : json) :
  invocation self req cmd rc rv ->
  exists text last,
    route_request self req
    = ((errors <- LambdaUtils.error_fields rv ;;
        translate
          {| LambdaUtils.raw_output :=
               if last =? "null" then None else Some last;
             LambdaUtils.return_value := rv;
             LambdaUtils.exit_status := rc;
             LambdaUtils.stdout := text;
             LambdaUtils.error_info := errors |})%result,
       [cmd]).
Proof.
  intros (payload & key & config & rt & text & last & He & Hk & Hl & Hc
          & Hrt & Hlayer & Hcmd & Hrc & Hdec & Hlast & Hrv).
  exists text, last.
  rewrite (route_request_hit payload key config He Hk Hl).
  rewrite (InvokerFacts.checked_run (ep_filepath config) (Some payload)
             (layer_dir self) (docker_network_name self) (environment self)
             (ep_handler config) rt Hc Hrt Hlayer).
  rewrite <- Hcmd, Hrc.
  rewrite (InvokerFacts.parse_output_value rc _ text last rv Hdec Hlast Hrv).
  unfold bind, lift.
  destruct (LambdaUtils.error_fields rv) as [errors | e]; cbn [rbind];
    [|reflexivity].
  destruct (translate _); reflexivity.
Qed.
End Facts.

(** Translation of a zero exit status. *)
Lemma translate_zero_exit (response : LambdaUtils.response) :
  LambdaUtils.exit_status response = 0%Z ->
  translate response
  = (let return_value := LambdaUtils.return_value response in
     if Json.has_field return_value "statusCode" then
       Ok (Triple (Json.field_or return_value "body" (JStr ""))
                  (Json.field_or return_value "statusCode" JNull)
                  (Json.field_or return_value "headers" (JObj [])))
     else Raise (match Json.getitem return_value "statusCode" with
                 | Raise e => e
                 | Ok _ => KeyError "statusCode"
                 end)).
Proof.
  intros Hz. unfold translate. rewrite Hz. cbn [Z.eqb negb].
  destruct (LambdaUtils.return_value response) as [| b | n | s | l | d];
    try reflexivity.
  cbn [Json.has_field Json.getitem Json.contains Json.field_or].
  unfold Dict.mem.
  destruct (Dict.get d "statusCode") as [sc|]; [|reflexivity].
  cbn [of_option rbind].
  destruct (Dict.get d "headers") as [h|], (Dict.get d "body") as [b|];
    reflexivity.
Qed.

(** Translation of another exit status: the terminal value with 500. *)
Lemma translate_nonzero_exit (response : LambdaUtils.response) :
  LambdaUtils.exit_status response <> 0%Z ->
  translate response = Ok (Pair (LambdaUtils.return_value response) 500).
Proof.
  intros Hz. unfold translate. apply Z.eqb_neq in Hz. now rewrite Hz.
Qed.

(** What the subscript [['statusCode']] raises on a value without the
    field. *)
Lemma getitem_without_field (v : json) (k : string) :
  Json.has_field v k = false ->
  exists e, Json.getitem v k = Raise e
            /\ (e = KeyError k \/ exists msg, e = TypeError msg).
Proof.
  destruct v as [| b | n | s | l | d]; cbn [Json.getitem Json.has_field];
    try (intros _; eexists; split; [reflexivity | right; now eexists]).
  unfold Dict.mem. destruct (Dict.get d k); [discriminate|].
  intros _. exists (KeyError k). split; [reflexivity | now left].
Qed.

End RouterFacts.

Module RouterClaims.
Import PyStr ApiRouter RouterFacts.

(** C6: when the sandbox of a request exits with status 0 and its terminal
    value is an object that carries [statusCode], the view
    [__route_request] returns the triple of the [body] field (the empty
    string when absent), the [statusCode] field and the [headers] field
    (the empty mapping when absent), after that one sandbox.  The statement
    is about what the view returns: what the framework makes of the triple
    is not part of it. *)
Theorem zero_exit_response (host : Host) (lib : TextLib)
        (self : router) (req : request) (cmd : string) (rv : json) :
  invocation self req cmd 0 rv ->
  Json.has_field rv "statusCode" = true ->
  route_request self req
  = (Ok (Triple (Json.field_or rv "body" (JStr ""))
                (Json.field_or rv "statusCode" JNull)
                (Json.field_or rv "headers" (JObj []))),
     [cmd]).
Proof.
  intros Hinv Hsc.
  destruct (route_request_invocation self req cmd 0 rv Hinv)
    as (text & last & ->).
  destruct rv as [| b | n | s | l | d]; try discriminate.
  destruct (InvokerFacts.error_fields_object d) as (errors & ->).
  cbn [rbind]. rewrite translate_zero_exit by reflexivity.
  cbn [LambdaUtils.return_value]. cbn zeta. rewrite Hsc. reflexivity.
Qed.

(** Scenario B of the specification: the sandbox of [GET /hello] exits with
    status 0 and the last line
    [{"statusCode":201,"headers":{"x-id":"7"},"body":"ok"}]; the view
    returns [("ok", 201, {"x-id": "7"})]. *)
Lemma zero_exit_response_witness :
  let host := Scenario.host_with
                (CompletedProcess 0 (Scenario.output_of Scenario.created)) in
  let lib := RefJson.text_lib in
  let self := Scenario.app host in
  let req := Scenario.get_hello in
  let rv := Scenario.created in
  @invocation host lib self req Scenario.hello_cmd 0 rv
  /\ Json.has_field rv "statusCode" = true
  /\ Triple (Json.field_or rv "body" (JStr ""))
            (Json.field_or rv "statusCode" JNull)
            (Json.field_or rv "headers" (JObj []))
     = Triple (JStr "ok") (JNum 201) (JObj [("x-id", JStr "7")])
  /\ @route_request host lib self req
     = (Ok (Triple (Json.field_or rv "body" (JStr ""))
                   (Json.field_or rv "statusCode" JNull)
                   (Json.field_or rv "headers" (JObj []))),
        [Scenario.hello_cmd]).
Proof.
  intros host lib self req rv.
  assert (Hinv : @invocation host lib self req Scenario.hello_cmd 0 rv).
  { exists Scenario.hello_event, (JStr "GET /hello"), Scenario.hello,
      LambdaUtils.python, (Scenario.output_of Scenario.created),
      (Json.dumps_compact Scenario.created).
    repeat split; vm_compute; reflexivity. }
  split; [exact Hinv|]. split; [reflexivity|]. split; [reflexivity|].
  exact (zero_exit_response host lib self req Scenario.hello_cmd rv
           Hinv eq_refl).
Defined.

(** The triple of the view when the terminal value has a status code only:
    the body is the empty string and the headers are the empty mapping. *)
Example zero_exit_defaults :
  let host := Scenario.host_with
                (CompletedProcess 0
                   (Scenario.output_of (JObj [("statusCode", JNum 204)]))) in
  @route_request host RefJson.text_lib (Scenario.app host) Scenario.get_hello
  = (Ok (Triple (JStr "") (JNum 204) (JObj [])), [Scenario.hello_cmd]).
Proof. vm_compute. reflexivity. Qed.

(** C2: when the sandbox of a request exits with status 0 and its terminal
    value is not an object that carries [statusCode], the view raises: the
    subscript [['statusCode']] raises [KeyError] on an object and
    [TypeError] on another value ([TypeError] may come earlier, from the
    error entries of the invoker).  The application answers with status
    500, and the sandbox was spawned. *)
Theorem missing_status_code_is_500
        (host : Host) (lib : TextLib) (fw : WebFramework)
        (self : router) (req : request) (cmd : string) (rv : json) :
  invocation self req cmd 0 rv ->
  Json.has_field rv "statusCode" = false ->
  exists e,
    route_request self req = (Raise e, [cmd])
    /\ (e = KeyError "statusCode" \/ exists msg, e = TypeError msg)
    /\ (match_request (rules self) req = ToView ->
        serve self req = (ServerError e, [cmd])
        /\ status_of (fst (serve self req)) = JNum 500).
Proof.
  intros Hinv Hsc.
  assert (Hview : exists e,
             route_request self req = (Raise e, [cmd])
             /\ (e = KeyError "statusCode" \/ exists msg, e = TypeError msg)).
  { destruct (route_request_invocation self req cmd 0 rv Hinv)
      as (text & last & ->).
    destruct (LambdaUtils.error_fields rv) as [errors | e] eqn:E; cbn [rbind].
    - rewrite translate_zero_exit by reflexivity.
      cbn [LambdaUtils.return_value]. cbn zeta. rewrite Hsc.
      destruct (getitem_without_field rv "statusCode" Hsc) as (e & -> & Hk).
      now exists e.
    - exists e. split; [reflexivity | right].
      exact (InvokerFacts.error_fields_raises rv e E). }
  destruct Hview as (e & Hview & Hkind).
  exists e. split; [exact Hview|]. split; [exact Hkind|].
  intros Hm. unfold serve. rewrite Hm, Hview. split; reflexivity.
Qed.

(** The sandbox of [GET /hello] exits with status 0 and the last line
    [{"body":"ok"}]. *)
Lemma missing_status_code_is_500_witness :
  let host := Scenario.host_with
                (CompletedProcess 0 (Scenario.output_of Scenario.no_status)) in
  let lib := RefJson.text_lib in
  let fw := RefFramework.framework in
  let self := Scenario.app host in
  let req := Scenario.get_hello in
  let rv := Scenario.no_status in
  @invocation host lib self req Scenario.hello_cmd 0 rv
  /\ Json.has_field rv "statusCode" = false
  /\ exists e,
      @route_request host lib self req = (Raise e, [Scenario.hello_cmd])
      /\ (e = KeyError "statusCode" \/ exists msg, e = TypeError msg)
      /\ (@match_request fw (rules self) req = ToView ->
          @serve host lib fw self req = (ServerError e, [Scenario.hello_cmd])
          /\ status_of (fst (@serve host lib fw self req)) = JNum 500).
Proof.
  intros host lib fw self req rv.
  assert (Hinv : @invocation host lib self req Scenario.hello_cmd 0 rv).
  { exists Scenario.hello_event, (JStr "GET /hello"), Scenario.hello,
      LambdaUtils.python, (Scenario.output_of Scenario.no_status),
      (Json.dumps_compact Scenario.no_status).
    repeat split; vm_compute; reflexivity. }
  split; [exact Hinv|]. split; [reflexivity|].
  exact (missing_status_code_is_500 host lib fw self req Scenario.hello_cmd rv
           Hinv eq_refl).
Defined.

(** Scenario C of the specification: a sandbox that exits with status 1 and
    a runtime error object is answered with that object and 500. *)
Example nonzero_exit_scenario :
  let error := JObj [("errorType", JStr "ValueError");
                     ("errorMessage", JStr "bad input")] in
  let host := Scenario.host_with
                (CalledProcessError 1 (Scenario.output_of error)) in
  @serve host RefJson.text_lib RefFramework.framework
    (Scenario.app host) Scenario.get_hello
  = (Pair error 500, [Scenario.hello_cmd]).
Proof. vm_compute. reflexivity. Qed.


(** Nor is the answer 404 when the path is known and the method is not:
    [POST /hello] is answered 405 by the registered handler. *)
Example wrong_method_is_405 :
  let host := Scenario.host_with (CompletedProcess 0 "") in
  Dict.get Scenario.table "POST /hello" = None
  /\ @serve host RefJson.text_lib RefFramework.framework
       (Scenario.app host) Scenario.post_hello
     = (Pair (JStr "Method not allowed") 405, []).
Proof. split; vm_compute; reflexivity. Qed.

(** Scenario D of the specification: a path of no rule is answered 404. *)
Example unknown_path_is_404 :
  let host := Scenario.host_with (CompletedProcess 0 "") in
  @serve host RefJson.text_lib RefFramework.framework
    (Scenario.app host) Scenario.get_missing
  = (Pair (JStr "Page not found") 404, []).
Proof. vm_compute; reflexivity. Qed.



(** The converse for the view: a sandbox is spawned only for a request
    whose event has a route key of the table. *)
Lemma spawn_implies_route (host : Host) (lib : TextLib)
      (self : router) (req : request) :
  snd (route_request self req) <> [] ->
  exists payload k config,
    event_of req = Ok payload
    /\ Json.getitem payload "routeKey" = Ok (JStr k)
    /\ Dict.get (endpoint_config self) k = Some config.
Proof.
  unfold route_request.
  destruct (event_of req) as [payload | e] eqn:He; cbn [lift bind snd];
    [|contradiction].
  destruct (Json.getitem payload "routeKey") as [key | e] eqn:Hk;
    cbn [lift bind snd]; [|contradiction].
  destruct key as [| b | n | k | l | d]; cbn [lookup lift bind snd];
    try contradiction.
  destruct (Dict.get (endpoint_config self) k) as [config|] eqn:Hl;
    cbn [ret snd]; [|contradiction].
  intros _. now exists payload, k, config.
Qed.

End RouterClaims.

(* ================================================================== *)
(** * The event synthesizer *)
(* ================================================================== *)

Module EventFacts.
Import PyStr Payload.

Lemma rbind_ok {A B} (r : result A) (f : A -> result B) (b : B) :
  rbind r f = Ok b -> exists a, r = Ok a /\ f a = Ok b.
Proof. destruct r as [a|e]; simpl; [now exists a | discriminate]. Qed.

Lemma setitem_ok (v x w : json) (k : string) :
  Json.setitem v k x = Ok w ->
  exists d, v = JObj d /\ w = JObj (Dict.set d k x).
Proof.
  destruct v; simpl; try discriminate.
  intros Heq. injection Heq as <-. now eexists.
Qed.

Lemma get_app_fresh {V} (d : dict V) (k k' : string) (v : V) :
  k <> k' -> Dict.get d k' = None ->
  Dict.get (d ++ [(k, v)])%list k' = None.
Proof.
  intros Hne Hd. induction d as [|[k0 v0] d IH]; simpl in *.
  - apply String.eqb_neq in Hne. now rewrite Hne.
  - destruct (k0 =? k'); [discriminate | now apply IH].
Qed.

(** ** Headers *)

Section Headers.
Variables (headers : option (dict string)) (body : option string).

Local Abbreviation body_length := (Payload.body_length body).
Local Abbreviation supplied := (Payload.supplied headers).

Lemma default_headers_both :
  Dict.mem (default_headers headers body) CONTENT_LENGTH = true
  /\ Dict.mem (default_headers headers body) CONTENT_TYPE = true.
Proof.
  unfold default_headers. fold supplied. fold body_length.
  destruct (Dict.mem supplied CONTENT_LENGTH) eqn:E1.
  - destruct (Dict.mem supplied CONTENT_TYPE) eqn:E2; split; auto.
    + rewrite DictFacts.mem_set_neq by discriminate. exact E1.
    + apply DictFacts.mem_set_eq.
  - destruct (Dict.mem (Dict.set supplied CONTENT_LENGTH (JNum body_length))
                CONTENT_TYPE) eqn:E2; split; auto.
    + apply DictFacts.mem_set_eq.
    + rewrite DictFacts.mem_set_neq by discriminate.
      apply DictFacts.mem_set_eq.
    + apply DictFacts.mem_set_eq.
Qed.

(** A header the caller supplied is kept. *)
Lemma default_headers_keep (k : string) (v : json) :
  Dict.get supplied k = Some v ->
  Dict.get (default_headers headers body) k = Some v.
Proof.
  intros Hk. unfold default_headers. fold supplied. fold body_length.
  assert (Hlen : Dict.get (if Dict.mem supplied CONTENT_LENGTH then supplied
                           else Dict.set supplied CONTENT_LENGTH
                                  (JNum body_length)) k = Some v).
  { destruct (Dict.mem supplied CONTENT_LENGTH) eqn:E; [exact Hk|].
    rewrite DictFacts.get_set_neq; [exact Hk|].
    intros <-. unfold Dict.mem in E. now rewrite Hk in E. }
  set (h1 := if Dict.mem supplied CONTENT_LENGTH then supplied
             else Dict.set supplied CONTENT_LENGTH (JNum body_length)) in *.
  destruct (Dict.mem h1 CONTENT_TYPE) eqn:E; [exact Hlen|].
  rewrite DictFacts.get_set_neq; [exact Hlen|].
  intros <-. unfold Dict.mem in E. now rewrite Hlen in E.
Qed.

(** The two defaults: a number for the length, counted in characters, and
    [application/json] for the type. *)
Lemma default_content_length :
  Dict.mem supplied CONTENT_LENGTH = false ->
  Dict.get (default_headers headers body) CONTENT_LENGTH
  = Some (JNum body_length).
Proof.
  intros E. unfold default_headers. fold supplied. fold body_length.
  rewrite E.
  destruct (Dict.mem _ CONTENT_TYPE).
  - apply DictFacts.get_set_eq.
  - rewrite DictFacts.get_set_neq by discriminate.
    apply DictFacts.get_set_eq.
Qed.

Lemma default_content_type :
  Dict.mem supplied CONTENT_TYPE = false ->
  Dict.get (default_headers headers body) CONTENT_TYPE
  = Some (JStr "application/json").
Proof.
  intros E. unfold default_headers. fold supplied. fold body_length.
  destruct (Dict.mem supplied CONTENT_LENGTH) eqn:E1.
  - rewrite E. apply DictFacts.get_set_eq.
  - rewrite DictFacts.mem_set_neq by discriminate. rewrite E.
    apply DictFacts.get_set_eq.
Qed.
End Headers.

(** ** Query parameters *)

Lemma raw_of_cons (kv : string * string) (l : dict string) :
  raw_of (kv :: l) = (render kv ++ "&") ++ raw_of l.
Proof.
  unfold raw_of. destruct l as [|kv' l]; simpl.
  - now rewrite StrFacts.app_nil_r.
  - reflexivity.
Qed.

Lemma raw_of_nonempty (l : dict string) : l <> [] -> raw_of l <> "".
Proof.
  destruct l as [|kv l]; [contradiction|]. intros _.
  rewrite raw_of_cons. unfold render.
  destruct (strip (fst kv)); discriminate.
Qed.

(** Dropping the last [&] of the accumulated string leaves the pairs joined
    by [&]. *)
Lemma drop_last_raw_of (l : dict string) :
  l <> [] -> drop_last (raw_of l) = String.concat "&" (map render l).
Proof.
  induction l as [|kv l IH]; [contradiction|]. intros _.
  rewrite raw_of_cons. destruct l as [|kv' l].
  - unfold raw_of. simpl. rewrite StrFacts.app_nil_r.
    apply StrFacts.drop_last_snoc.
  - rewrite StrFacts.drop_last_app by (apply raw_of_nonempty; discriminate).
    rewrite IH by discriminate.
    cbn [map String.concat]. now rewrite StrFacts.app_assoc.
Qed.

Section Params.
Context `{TextLib}.
Variable params : dict string.

(** The loop over the keys [l] of [params], started with the block [acc]
    and the string [raw]. *)
Lemma add_params_loop (l : dict string) :
  forall (d : dict json) (acc : dict json) (raw : string),
    (forall k v, In (k, v) l -> Dict.get params k = Some v) ->
    NoDup (Dict.keys l) ->
    (forall k, In k (Dict.keys l) -> Dict.get acc k = None) ->
    Dict.get d "queryStringParameters" = Some (JObj acc) ->
    fold_left (add_param params) (Dict.keys l) (Ok (JObj d, raw))
    = Ok (JObj (Dict.set d "queryStringParameters"
                  (JObj (acc ++ map as_json l)%list)),
          raw ++ raw_of l).
Proof.
  induction l as [|[k v] l IH]; intros d acc raw Hget Hnd Hfresh Hd.
  - simpl. rewrite List.app_nil_r, StrFacts.app_nil_r.
    now rewrite (DictFacts.set_same d _ _ Hd).
  - inversion Hnd as [|? ? Hnotin Hnd']; subst.
    assert (Hstep : add_param params (Ok (JObj d, raw)) k
                    = Ok (JObj (Dict.set d "queryStringParameters"
                                  (JObj (acc ++ [(k, JStr v)])%list)),
                          raw ++ strip k ++ "=" ++ strip v ++ "&")).
    { unfold add_param. cbn [rbind fst snd].
      rewrite (Hget k v (or_introl eq_refl)). cbn [of_option rbind].
      unfold Json.setitem2. cbn [Json.getitem]. rewrite Hd.
      cbn [of_option rbind Json.setitem].
      rewrite (DictFacts.set_fresh acc k (JStr v))
        by (apply Hfresh; now left).
      reflexivity. }
    change (Dict.keys ((k, v) :: l)) with (k :: Dict.keys l).
    cbn [fold_left]. rewrite Hstep.
    rewrite (IH (Dict.set d "queryStringParameters"
                   (JObj (acc ++ [(k, JStr v)])%list))
                (acc ++ [(k, JStr v)])%list
                (raw ++ strip k ++ "=" ++ strip v ++ "&")).
    + rewrite DictFacts.set_set, <- List.app_assoc.
      rewrite raw_of_cons. unfold render. cbn [fst snd].
      rewrite !StrFacts.app_assoc. reflexivity.
    + intros k' v' Hin. apply Hget. now right.
    + exact Hnd'.
    + intros k' Hin. apply get_app_fresh.
      * intros <-. contradiction.
      * apply Hfresh. now right.
    + apply DictFacts.get_set_eq.
Qed.

Lemma add_params_spec (d : dict json) :
  Dict.wf params ->
  Dict.get d "queryStringParameters" = Some (JObj []) ->
  add_params params (JObj d)
  = Ok (JObj (Dict.set d "queryStringParameters" (JObj (map as_json params))),
        raw_of params).
Proof.
  intros Hwf Hd. unfold add_params.
  rewrite (add_params_loop params d [] ""); auto.
  intros k v Hin. now apply DictFacts.get_in_wf.
Qed.
End Params.

End EventFacts.

Module EventClaims.
Import PyStr Payload EventFacts.

(** C3, at the failing input: no header is supplied and the body is the
    one character [U+00E9], two bytes in UTF-8.  The event has both
    headers, and its [content-length] is the number 1: a number, not a
    string, and the count of characters, not of bytes. *)
Theorem default_content_length_counts_characters :
  let body := Scenario.e_acute in
  String.length body = 1
  /\ utf8_len body = 2
  /\ exists payload headers,
      @build_payload RefJson.text_lib "/hello" "POST" None None None
        None None (Some body) = Ok payload
      /\ Json.getitem payload "headers" = Ok (JObj headers)
      /\ headers = [("content-length", JNum 1);
                    ("content-type", JStr "application/json")].
Proof.
  split; [reflexivity|]. split; [reflexivity|].
  eexists. eexists. split; [vm_compute; reflexivity|].
  split; reflexivity.
Qed.

(** Without a body the default is the number 0, not the string ["0"] of
    scenario A. *)
Example default_content_length_without_body :
  exists payload,
    @build_payload RefJson.text_lib "/hello" "GET" None None None
      None None None = Ok payload
    /\ Json.getitem payload "headers"
       = Ok (JObj [("content-length", JNum 0);
                   ("content-type", JStr "application/json")]).
Proof. eexists. split; [vm_compute; reflexivity | reflexivity]. Qed.

(** C8 as stated fails: for the parameters [{a: "1", b: " 2 "}] the raw
    query string is [a=1&b=2], not the pairs as they are, [a=1&b= 2 ]. *)
Lemma raw_query_string_is_stripped :
  @build_payload RefJson.text_lib "/hello" "GET" None None None None
    (Some Scenario.query) None = Ok Scenario.query_event
  /\ Json.getitem Scenario.query_event "rawQueryString" = Ok (JStr "a=1&b=2")
  /\ String.concat "&"
       (map (fun kv => fst kv ++ "=" ++ snd kv) Scenario.query)
     = "a=1&b= 2 ".
Proof. repeat split; vm_compute; reflexivity. Qed.

(** C8, amended: for a non-empty mapping of query parameters, the raw
    query string of the event is the pairs in insertion order, each
    rendered as key, [=], value with the surrounding blanks of key and value
    removed and nothing encoded, joined by [&]; the structured block holds
    every pair as it is. *)
Theorem query_string_of_params (lib : TextLib) (route method : string)
        (user_agent source_ip server_hostname : option string)
        (headers : option (dict string)) (params : dict string)
        (body : option string) (payload : json) :
  params <> [] ->
  Dict.wf params ->
  build_payload route method user_agent source_ip server_hostname
    headers (Some params) body = Ok payload ->
  Json.getitem payload "rawQueryString"
  = Ok (JStr (String.concat "&"
                (map (fun kv => strip (fst kv) ++ "=" ++ strip (snd kv))
                     params)))
  /\ Json.getitem payload "queryStringParameters"
     = Ok (JObj (map (fun kv => (fst kv, JStr (snd kv))) params)).
Proof.
  intros Hne Hwf Hbuild. unfold build_payload in Hbuild.
  apply rbind_ok in Hbuild as (p0 & _ & Hbuild).
  apply rbind_ok in Hbuild as (p1 & _ & Hbuild).
  apply rbind_ok in Hbuild as (p2 & _ & Hbuild).
  apply rbind_ok in Hbuild as (p3 & _ & Hbuild).
  destruct params as [|kv ps] eqn:Eparams; [contradiction|].
  rewrite <- Eparams in *. clear Hne.
  apply rbind_ok in Hbuild as (p4 & Hset & Hbuild).
  apply rbind_ok in Hbuild as (st & Hadd & Hbuild).
  apply setitem_ok in Hset as (d3 & -> & ->).
  rewrite (add_params_spec params _ Hwf (DictFacts.get_set_eq _ _ _)) in Hadd.
  injection Hadd as <-. cbn [fst snd] in Hbuild.
  assert (Hraw : (raw_of params =? "") = false).
  { apply String.eqb_neq, raw_of_nonempty. rewrite Eparams. discriminate. }
  rewrite Hraw in Hbuild. cbn [negb Json.setitem] in Hbuild.
  injection Hbuild as <-. cbn [Json.getitem]. split.
  - rewrite DictFacts.get_set_eq. cbn [of_option].
    rewrite drop_last_raw_of by (rewrite Eparams; discriminate).
    reflexivity.
  - rewrite DictFacts.get_set_neq by discriminate.
    rewrite DictFacts.get_set_eq. reflexivity.
Qed.

Lemma query_string_of_params_witness :
  Scenario.query <> []
  /\ Dict.wf Scenario.query
  /\ @build_payload RefJson.text_lib "/hello" "GET" None None None None
       (Some Scenario.query) None = Ok Scenario.query_event
  /\ Json.getitem Scenario.query_event "rawQueryString"
     = Ok (JStr (String.concat "&"
                   (map (fun kv => strip (fst kv) ++ "=" ++ strip (snd kv))
                        Scenario.query)))
  /\ Json.getitem Scenario.query_event "queryStringParameters"
     = Ok (JObj (map (fun kv => (fst kv, JStr (snd kv))) Scenario.query)).
Proof.
  assert (Hne : Scenario.query <> []) by discriminate.
  assert (Hwf : Dict.wf Scenario.query).
  { unfold Dict.wf. simpl. repeat constructor; simpl; intuition discriminate. }
  assert (Hb : @build_payload RefJson.text_lib "/hello" "GET" None None None
                 None (Some Scenario.query) None = Ok Scenario.query_event)
    by (vm_compute; reflexivity).
  split; [exact Hne|]. split; [exact Hwf|]. split; [exact Hb|].
  exact (query_string_of_params RefJson.text_lib "/hello" "GET" None None None
           None Scenario.query None Scenario.query_event Hne Hwf Hb).
Defined.

(** Scenario E of the specification. *)
Example query_string_scenario :
  exists payload,
    @build_payload RefJson.text_lib "/hello" "GET" None None None None
      (Some [("a", "1"); ("b", "2")]) None = Ok payload
    /\ Json.getitem payload "rawQueryString" = Ok (JStr "a=1&b=2").
Proof. eexists. split; [vm_compute; reflexivity | reflexivity]. Qed.

End EventClaims.

(* ================================================================== *)
(** * The headers of every event *)
(* ================================================================== *)

Module EventHeaders.
Import PyStr Payload EventFacts.

(** ** Loops that thread a result *)

Section Folds.
Context {A X : Type}.
Variable f : A -> X -> result A.

Local Abbreviation step := (fun acc x => rbind acc (fun a => f a x)).

Lemma fold_raise (l : list X) (e : exn) :
  fold_left step l (Raise e) = Raise e.
Proof. induction l as [|x l IH]; simpl; [reflexivity | exact IH]. Qed.

(** What every round preserves holds at the end. *)
Lemma fold_preserves (P : A -> Prop) (l : list X) :
  (forall a x a', P a -> f a x = Ok a' -> P a') ->
  forall a a', fold_left step l (Ok a) = Ok a' -> P a -> P a'.
Proof.
  intros Hstep. induction l as [|x l IH]; intros a a' Hfold Ha.
  - simpl in Hfold. now injection Hfold as <-.
  - simpl in Hfold. destruct (f a x) as [a1 | e] eqn:E.
    + exact (IH a1 a' Hfold (Hstep a x a1 Ha E)).
    + rewrite fold_raise in Hfold. discriminate.
Qed.

(** What the round of [x0] establishes and every round preserves holds
    at the end of a loop that goes through [x0]. *)
Lemma fold_establishes (Q : A -> Prop) (x0 : X) (l : list X) :
  In x0 l ->
  (forall a a', f a x0 = Ok a' -> Q a') ->
  (forall a x a', Q a -> f a x = Ok a' -> Q a') ->
  forall a a', fold_left step l (Ok a) = Ok a' -> Q a'.
Proof.
  intros Hin Hest Hpres. induction l as [|x l IH]; [contradiction|].
  intros a a' Hfold. simpl in Hfold.
  destruct (f a x) as [a1 | e] eqn:E.
  - destruct Hin as [-> | Hin].
    + exact (fold_preserves Q l Hpres a1 a' Hfold (Hest a a1 E)).
    + exact (IH Hin a1 a' Hfold).
  - rewrite fold_raise in Hfold. discriminate.
Qed.
End Folds.

(** ** Assignments and the headers *)

Lemma setitem2_ok (v x w : json) (k1 k2 : string) :
  Json.setitem2 v k1 k2 x = Ok w ->
  exists d h, v = JObj d /\ Dict.get d k1 = Some (JObj h)
              /\ w = JObj (Dict.set d k1 (JObj (Dict.set h k2 x))).
Proof.
  unfold Json.setitem2. intros Hw.
  apply rbind_ok in Hw as (inner & Hget & Hw).
  apply rbind_ok in Hw as (inner' & Hset & Hw).
  apply setitem_ok in Hw as (d & -> & ->).
  apply setitem_ok in Hset as (h & -> & ->).
  cbn [Json.getitem] in Hget.
  destruct (Dict.get d k1) as [y|] eqn:E; [|discriminate].
  cbn [of_option] in Hget. injection Hget as ->. now exists d, h.
Qed.

Lemma header_of_setitem (v x w : json) (k0 k : string) :
  Json.setitem v k0 x = Ok w -> k0 <> "headers" ->
  header_of w k = header_of v k.
Proof.
  intros Hw Hne. apply setitem_ok in Hw as (d & -> & ->).
  unfold header_of. now rewrite DictFacts.get_set_neq.
Qed.

Lemma header_of_setitem2_other (v x w : json) (k1 k2 k : string) :
  Json.setitem2 v k1 k2 x = Ok w -> k1 <> "headers" ->
  header_of w k = header_of v k.
Proof.
  intros Hw Hne. apply setitem2_ok in Hw as (d & h & -> & _ & ->).
  unfold header_of. now rewrite DictFacts.get_set_neq.
Qed.

Lemma header_of_setitem2_same (v x w : json) (k0 : string) :
  Json.setitem2 v "headers" k0 x = Ok w -> header_of w k0 = Some x.
Proof.
  intros Hw. apply setitem2_ok in Hw as (d & h & -> & _ & ->).
  unfold header_of. now rewrite !DictFacts.get_set_eq.
Qed.

Lemma header_of_setitem2_frame (v x w : json) (k0 k : string) :
  Json.setitem2 v "headers" k0 x = Ok w -> k0 <> k ->
  header_of w k = header_of v k.
Proof.
  intros Hw Hne. apply setitem2_ok in Hw as (d & h & -> & Hh & ->).
  unfold header_of. rewrite DictFacts.get_set_eq, Hh.
  now apply DictFacts.get_set_neq.
Qed.

Lemma get_some_in {V} (d : dict V) (k : string) (v : V) :
  Dict.get d k = Some v -> In k (Dict.keys d).
Proof.
  intros Hget. destruct (in_dec string_dec k (Dict.keys d)) as [Hin | Hnot];
    [exact Hin|].
  apply DictFacts.get_none_notin in Hnot. rewrite Hnot in Hget. discriminate.
Qed.

Section Event.
Context `{TextLib}.

(** The loop that fills the headers of the event puts every entry of the
    header map there. *)
Lemma populate_headers_spec (_headers : dict json) (payload payload' : json)
      (k : string) (v : json) :
  populate_headers _headers payload = Ok payload' ->
  Dict.get _headers k = Some v ->
  header_of payload' k = Some v.
Proof.
  intros Hpop Hk. unfold populate_headers in Hpop.
  set (f := fun (payload : json) (header : string) =>
              (v <- of_option (Dict.get _headers header) (KeyError header) ;;
               Json.setitem2 payload "headers" header v)%result) in *.
  assert (Hest : forall a a', f a k = Ok a' -> header_of a' k = Some v).
  { intros a a' Hf. unfold f in Hf. rewrite Hk in Hf.
    cbn [of_option rbind] in Hf. exact (header_of_setitem2_same _ _ _ _ Hf). }
  refine (fold_establishes f (fun p => header_of p k = Some v) k
            (Dict.keys _headers) (get_some_in _ _ _ Hk) Hest _
            payload payload' Hpop).
  intros a x a' Ha Hf. destruct (string_dec x k) as [-> | Hne].
  - exact (Hest a a' Hf).
  - unfold f in Hf. apply rbind_ok in Hf as (y & _ & Hf).
    rewrite (header_of_setitem2_frame _ _ _ _ k Hf Hne). exact Ha.
Qed.

(** The loop over the query parameters leaves the headers alone. *)
Lemma add_params_headers (params : dict string) (payload : json)
      (st : json * string) (k : string) :
  add_params params payload = Ok st ->
  header_of (fst st) k = header_of payload k.
Proof.
  intros Hadd. unfold add_params in Hadd.
  set (f := fun (st : json * string) (param : string) =>
              (v <- of_option (Dict.get params param) (KeyError param) ;;
               payload <- Json.setitem2 (fst st) "queryStringParameters"
                            param (JStr v) ;;
               Ok (payload, snd st ++ strip param ++ "=" ++ strip v ++ "&"))%result).
  change (fold_left (fun acc x => rbind acc (fun a => f a x))
            (Dict.keys params) (Ok (payload, "")) = Ok st) in Hadd.
  refine (fold_preserves f
            (fun st => header_of (fst st) k = header_of payload k)
            (Dict.keys params) _ (payload, "") st Hadd eq_refl).
  intros a x a' Ha Hf. unfold f in Hf.
  apply rbind_ok in Hf as (v & _ & Hf).
  apply rbind_ok in Hf as (p & Hset & Hf).
  injection Hf as <-. cbn [fst].
  rewrite (header_of_setitem2_other _ _ _ _ _ k Hset) by discriminate.
  exact Ha.
Qed.

(** Every event carries the header map computed from the headers of the
    caller and the two defaults. *)
Theorem event_headers (route method : string)
        (user_agent source_ip server_hostname : option string)
        (headers : option (dict string)) (params : option (dict string))
        (body : option string) (payload : json) (k : string) (v : json) :
  build_payload route method user_agent source_ip server_hostname
    headers params body = Ok payload ->
  Dict.get (default_headers headers body) k = Some v ->
  header_of payload k = Some v.
Proof.
  intros Hbuild Hk. unfold build_payload in Hbuild.
  apply rbind_ok in Hbuild as (p0 & _ & Hbuild).
  apply rbind_ok in Hbuild as (p1 & Hpop & Hbuild).
  apply rbind_ok in Hbuild as (p2 & Hbody & Hbuild).
  apply rbind_ok in Hbuild as (p3 & Hauth & Hbuild).
  assert (H1 : header_of p1 k = Some v)
    by exact (populate_headers_spec _ _ _ _ _ Hpop Hk).
  assert (H2 : header_of p2 k = Some v).
  { destruct body as [b|]; [|now injection Hbody as <-].
    destruct (given (Some b)); [|now injection Hbody as <-].
    rewrite (header_of_setitem _ _ _ _ k Hbody) by discriminate.
    exact H1. }
  assert (H3 : header_of p3 k = Some v).
  { destruct (Dict.get (default_headers headers body) AUTH_HEADER)
      as [jwt|] eqn:Ejwt; [|now injection Hauth as <-].
    apply rbind_ok in Hauth as (q & Hq & Hauth).
    apply rbind_ok in Hauth as (claims & _ & Hauth).
    rewrite (header_of_setitem2_other _ _ _ _ _ k Hauth) by discriminate.
    destruct (string_dec AUTH_HEADER k) as [<- | Hne].
    - rewrite (header_of_setitem2_same _ _ _ _ Hq).
      rewrite Ejwt in Hk. exact Hk.
    - rewrite (header_of_setitem2_frame _ _ _ _ k Hq Hne). exact H2. }
  destruct params as [[|kv ps]|]; try (now injection Hbuild as <-).
  apply rbind_ok in Hbuild as (p4 & Hset & Hbuild).
  apply rbind_ok in Hbuild as (st & Hadd & Hbuild).
  rewrite (header_of_setitem _ _ _ _ k Hbuild) by discriminate.
  rewrite (add_params_headers _ _ _ k Hadd).
  rewrite (header_of_setitem _ _ _ _ k Hset) by discriminate.
  exact H3.
Qed.

(** X26: in every event [build_payload] returns both headers,
    [content-length] and [content-type], are there; a header of the
    caller keeps its value; the default type is [application/json]; and
    the default length is a number, the number of characters of the
    body. *)
Corollary event_default_headers (route method : string)
        (user_agent source_ip server_hostname : option string)
        (headers : option (dict string)) (params : option (dict string))
        (body : option string) (payload : json) :
  build_payload route method user_agent source_ip server_hostname
    headers params body = Ok payload ->
  header_of payload CONTENT_LENGTH <> None
  /\ header_of payload CONTENT_TYPE <> None
  /\ (forall k v, Dict.get (supplied headers) k = Some v ->
                  header_of payload k = Some v)
  /\ (Dict.mem (supplied headers) CONTENT_TYPE = false ->
      header_of payload CONTENT_TYPE = Some (JStr "application/json"))
  /\ (Dict.mem (supplied headers) CONTENT_LENGTH = false ->
      header_of payload CONTENT_LENGTH = Some (JNum (body_length body))).
Proof.
  intros Hbuild.
  pose proof (fun k v => event_headers _ _ _ _ _ _ _ _ _ k v Hbuild) as Hev.
  destruct (default_headers_both headers body) as [Hlen Htype].
  unfold Dict.mem in Hlen, Htype.
  repeat split.
  - destruct (Dict.get (default_headers headers body) CONTENT_LENGTH)
      as [v|] eqn:E; [|discriminate].
    rewrite (Hev _ _ E). discriminate.
  - destruct (Dict.get (default_headers headers body) CONTENT_TYPE)
      as [v|] eqn:E; [|discriminate].
    rewrite (Hev _ _ E). discriminate.
  - intros k v Hk. apply Hev. now apply default_headers_keep.
  - intros Hno. apply Hev. now apply default_content_type.
  - intros Hno. apply Hev. now apply default_content_length.
Qed.
End Event.

End EventHeaders.

(* ================================================================== *)
(** * More on the sandbox invoker *)
(* ================================================================== *)

Module LineFacts.
Import PyStr Words.

Lemma last_item_app {A} (l1 l2 : list A) :
  l2 <> [] -> last_item (l1 ++ l2)%list = last_item l2.
Proof.
  intros Hne. induction l1 as [|x l1 IH]; [reflexivity|].
  cbn [Datatypes.app]. destruct (l1 ++ l2)%list eqn:E.
  - destruct l1, l2; try discriminate. contradiction.
  - rewrite <- IH. reflexivity.
Qed.

Lemma splitlines_nonempty (s : string) : s <> "" -> splitlines s <> [].
Proof. intros Hs E. apply StrFacts.splitlines_nil in E. contradiction. Qed.

(** A line feed starts a new line whatever follows. *)
Lemma splitlines_lf (s : string) : splitlines (String LF s) = "" :: splitlines s.
Proof. destruct s; reflexivity. Qed.

Lemma splitlines_break (c c' : ascii) (r : string) :
  is_linebreak c = true ->
  splitlines (String c (String c' r))
  = if Ascii.eqb c CR && Ascii.eqb c' LF then "" :: splitlines r
    else "" :: splitlines (String c' r).
Proof. intros H. simpl. rewrite H. reflexivity. Qed.

Lemma splitlines_char (c : ascii) (r : string) :
  is_linebreak c = false ->
  splitlines (String c r)
  = match splitlines r with
    | h :: t => String c h :: t
    | [] => [str1 c]
    end.
Proof. intros H. simpl. rewrite H. reflexivity. Qed.

(** The lines before a line feed and the lines after it. *)
Lemma splitlines_app_lf (pre rest : string) :
  splitlines (pre ++ String LF rest)
  = (splitlines (pre ++ str1 LF) ++ splitlines rest)%list.
Proof.
  assert (H : forall n pre, String.length pre <= n ->
                splitlines (pre ++ String LF rest)
                = (splitlines (pre ++ str1 LF) ++ splitlines rest)%list).
  { clear pre. induction n as [|n IH]; intros pre Hlen.
    - destruct pre; [|simpl in Hlen; lia].
      cbn [append]. rewrite splitlines_lf. reflexivity.
    - destruct pre as [|c r].
      { cbn [append]. rewrite splitlines_lf. reflexivity. }
      simpl in Hlen.
      destruct (is_linebreak c) eqn:Ec.
      + destruct r as [|c' r'].
        * cbn [append]. unfold str1.
          rewrite !(splitlines_break c LF _ Ec), !splitlines_lf.
          destruct (Ascii.eqb c CR && Ascii.eqb LF LF); reflexivity.
        * cbn [append].
          rewrite !(splitlines_break c c' _ Ec).
          destruct (Ascii.eqb c CR && Ascii.eqb c' LF).
          -- rewrite (IH r') by (simpl in Hlen; lia). reflexivity.
          -- change (String c' (r' ++ String LF rest))
               with (String c' r' ++ String LF rest).
             change (String c' (r' ++ str1 LF)) with (String c' r' ++ str1 LF).
             rewrite (IH (String c' r')) by lia. reflexivity.
      + cbn [append]. rewrite !(splitlines_char c _ Ec).
        rewrite (IH r) by lia.
        destruct (splitlines (r ++ str1 LF)) as [|h t] eqn:E.
        * exfalso. apply StrFacts.splitlines_nil in E. destruct r; discriminate.
        * reflexivity. }
  apply (H (String.length pre)). lia.
Qed.

(** A string without line boundary is its own single line. *)
Lemma splitlines_one_line (s : string) :
  one_line s = true -> s <> "" -> splitlines s = [s].
Proof.
  unfold one_line, in_line.
  induction s as [|c r IH]; [contradiction|]. intros Hall _.
  cbn [all_chars] in Hall. apply andb_prop in Hall as [Hc Hr].
  apply negb_true_iff in Hc. cbn [splitlines]. rewrite Hc.
  destruct r as [|c' r']; [reflexivity|].
  rewrite (IH Hr) by discriminate. reflexivity.
Qed.

Lemma splitlines_one_line_lf (s : string) :
  one_line s = true -> splitlines (s ++ str1 LF) = [s].
Proof.
  unfold one_line, in_line.
  induction s as [|c r IH]; [reflexivity|]. intros Hall.
  cbn [all_chars] in Hall. apply andb_prop in Hall as [Hc Hr].
  apply negb_true_iff in Hc. cbn [append splitlines]. rewrite Hc.
  rewrite (IH Hr). reflexivity.
Qed.

(** The last line of an output that ends with the line [last], with or
    without a final line feed. *)
Lemma last_line_after_lf (pre last : string) :
  one_line last = true -> last <> "" ->
  last_item (splitlines (pre ++ str1 LF ++ last)) = Some last.
Proof.
  intros Hone Hne. change (pre ++ str1 LF ++ last) with (pre ++ String LF last).
  rewrite splitlines_app_lf, (splitlines_one_line last Hone Hne).
  now rewrite last_item_app.
Qed.

Lemma last_line_before_final_lf (pre last : string) :
  one_line last = true ->
  last_item (splitlines (pre ++ str1 LF ++ last ++ str1 LF)) = Some last.
Proof.
  intros Hone.
  change (pre ++ str1 LF ++ last ++ str1 LF)
    with (pre ++ String LF (last ++ str1 LF)).
  rewrite splitlines_app_lf, (splitlines_one_line_lf last Hone).
  now rewrite last_item_app.
Qed.

End LineFacts.

Module InvokerExtras.
Import PyStr LambdaUtils Words.

(** X1: a call of [run_function] spawns exactly one sandbox when the
    existence check, the runtime selection and the layer check pass, and
    none when one of them fails; what the sandbox prints changes nothing
    to that. *)
Theorem sandboxes_of_a_run (host : Host) (lib : TextLib)
        (p : string) (payload : option json)
        (layer net : option string) (env : option (dict string))
        (handler : string) :
  spawned (run_function p payload layer net env handler)
  = if function_missing p then []
    else match runtime_of_extension (snd (PosixPath.splitext p)) with
         | Raise _ => []
         | Ok rt =>
             match check_layer layer with
             | Raise _ => []
             | Ok _ => [docker_cmd rt p payload layer net env handler]
             end
         end.
Proof.
  destruct (function_missing p) eqn:E1.
  - now rewrite (InvokerFacts.missing_file_raises p payload layer net env
                   handler E1).
  - destruct (runtime_of_extension (snd (PosixPath.splitext p)))
      as [rt | e] eqn:E2.
    + destruct (check_layer layer) as [[] | e] eqn:E3.
      * exact (InvokerFacts.checked_run_spawns p payload layer net env handler
                 rt E1 E2 E3).
      * now rewrite (InvokerFacts.missing_layer_raises p payload layer net env
                       handler rt e E1 E2 E3).
    + unfold run_function. rewrite E1, E2. reflexivity.
Qed.

(** X2: a configured layer directory whose absolute path neither exists
    nor is a directory makes [run_function] raise [FileNotFoundError]
    before any sandbox is spawned. *)
Theorem missing_layer_stops_run (host : Host) (lib : TextLib)
        (p : string) (payload : option json) (l : string)
        (net : option string) (env : option (dict string))
        (handler : string) (rt : runtime) :
  function_missing p = false ->
  runtime_of_extension (snd (PosixPath.splitext p)) = Ok rt ->
  l <> "" ->
  path_exists (path_abspath l) = false ->
  path_isdir (path_abspath l) = false ->
  run_function p payload (Some l) net env handler
  = (Raise (FileNotFoundError
              ("Layer directory " ++ sq (path_abspath l)
               ++ " not found or is not a directory")), []).
Proof.
  intros Hc Hrt Hl Hex Hdir.
  apply (InvokerFacts.missing_layer_raises p payload (Some l) net env handler
           rt _ Hc Hrt).
  unfold check_layer, Payload.given. apply String.eqb_neq in Hl.
  rewrite Hl, Hex, Hdir. reflexivity.
Qed.

Lemma missing_layer_stops_run_witness :
  let host := Scenario.host_with (CompletedProcess 0 "") in
  let p := "/srv/functions/hello/handler.py" in
  let l := "/srv/layer" in
  @function_missing host p = false
  /\ runtime_of_extension (snd (PosixPath.splitext p)) = Ok python
  /\ l <> ""
  /\ @path_exists host (@path_abspath host l) = false
  /\ @path_isdir host (@path_abspath host l) = false
  /\ @run_function host RefJson.text_lib p None (Some l) None None "main"
     = (Raise (FileNotFoundError
                 ("Layer directory " ++ sq (@path_abspath host l)
                  ++ " not found or is not a directory")), []).
Proof.
  intros host p l.
  assert (Hl : l <> "") by discriminate.
  repeat (split; [reflexivity || exact Hl|]).
  exact (missing_layer_stops_run host RefJson.text_lib p None l None None
           "main" python eq_refl eq_refl Hl eq_refl eq_refl).
Defined.

(** X3: when the last line of the output is not JSON, [run_function]
    raises the parser's [JSONDecodeError] after the sandbox ran and
    returns no result, whatever the exit status. *)
Theorem unparsable_last_line_raises (host : Host) (lib : TextLib)
        (p : string) (payload : option json)
        (layer net : option string) (env : option (dict string))
        (handler : string) (rt : runtime) (text last : string) :
  function_missing p = false ->
  runtime_of_extension (snd (PosixPath.splitext p)) = Ok rt ->
  check_layer layer = Ok tt ->
  decode_utf8
    (stdout_of (run_cmd (docker_cmd rt p payload layer net env handler)))
  = Some text ->
  last_item (splitlines text) = Some last ->
  loads_str last = None ->
  run_function p payload layer net env handler
  = (Raise (JSONDecodeError last),
     [docker_cmd rt p payload layer net env handler]).
Proof.
  intros Hc Hrt Hl Hdec Hlast Hparse.
  rewrite (InvokerFacts.checked_run p payload layer net env handler rt
             Hc Hrt Hl).
  unfold parse_output, JsonLoads.decode, JsonLoads.loads.
  rewrite Hdec. cbn [of_option rbind]. rewrite Hlast. cbn [of_option rbind].
  rewrite Hparse. reflexivity.
Qed.

Lemma unparsable_last_line_raises_witness :
  let host := Scenario.host_with
                (CalledProcessError 1
                   ("Unable to find image" ++ str1 LF)) in
  let p := "/srv/functions/hello/handler.py" in
  let cmd := @docker_cmd host python p None None None None "main" in
  @function_missing host p = false
  /\ runtime_of_extension (snd (PosixPath.splitext p)) = Ok python
  /\ @check_layer host None = Ok tt
  /\ @decode_utf8 RefJson.text_lib (stdout_of (@run_cmd host cmd))
     = Some ("Unable to find image" ++ str1 LF)
  /\ last_item (splitlines ("Unable to find image" ++ str1 LF))
     = Some "Unable to find image"
  /\ @loads_str RefJson.text_lib "Unable to find image" = None
  /\ @run_function host RefJson.text_lib p None None None None "main"
     = (Raise (JSONDecodeError "Unable to find image"), [cmd]).
Proof.
  intros host p cmd.
  repeat (split; [reflexivity|]).
  exact (unparsable_last_line_raises host RefJson.text_lib p None None None
           None "main" python ("Unable to find image" ++ str1 LF)
           "Unable to find image" eq_refl eq_refl eq_refl eq_refl eq_refl
           eq_refl).
Defined.

(** X4: only the last line of the output is parsed.  When the output is
    any text, a line feed, a line that parses as an object and a final line
    feed, [run_function] returns that object as [return_value], the whole
    text as [stdout], the exit status, and as error entries the fields
    [errorType], [errorMessage] and [stackTrace] of the object ([None] for
    a missing one; no entries for the empty object). *)
Theorem terminal_value_is_last_line (host : Host) (lib : TextLib)
        (p : string) (payload : option json)
        (layer net : option string) (env : option (dict string))
        (handler : string) (rt : runtime) (pre last : string)
        (d : dict json) :
  function_missing p = false ->
  runtime_of_extension (snd (PosixPath.splitext p)) = Ok rt ->
  check_layer layer = Ok tt ->
  decode_utf8
    (stdout_of (run_cmd (docker_cmd rt p payload layer net env handler)))
  = Some (pre ++ str1 LF ++ last ++ str1 LF) ->
  one_line last = true ->
  loads_str last = Some (JObj d) ->
  run_function p payload layer net env handler
  = (Ok {| raw_output := if last =? "null" then None else Some last;
           return_value := JObj d;
           exit_status :=
             returncode_of
               (run_cmd (docker_cmd rt p payload layer net env handler));
           stdout := pre ++ str1 LF ++ last ++ str1 LF;
           error_info := error_entries d |},
     [docker_cmd rt p payload layer net env handler]).
Proof.
  intros Hc Hrt Hl Hdec Hone Hparse.
  rewrite (InvokerFacts.checked_run p payload layer net env handler rt
             Hc Hrt Hl).
  rewrite (InvokerFacts.parse_output_value _ _ _ last (JObj d) Hdec
             (LineFacts.last_line_before_final_lf pre last Hone) Hparse).
  unfold error_fields, error_entries.
  destruct d as [|kv d']; [reflexivity|].
  cbn [Json.truthy]. rewrite !InvokerFacts.field_or_none_object.
  reflexivity.
Qed.

Lemma terminal_value_is_last_line_witness :
  let error := [("errorType", JStr "ValueError");
                ("errorMessage", JStr "bad input")] in
  let last := Json.dumps_compact (JObj error) in
  let host := Scenario.host_with
                (CalledProcessError 1
                   ("START" ++ str1 LF ++ last ++ str1 LF)) in
  let p := "/srv/functions/hello/handler.py" in
  let cmd := @docker_cmd host python p None None None None "main" in
  @function_missing host p = false
  /\ runtime_of_extension (snd (PosixPath.splitext p)) = Ok python
  /\ @check_layer host None = Ok tt
  /\ @decode_utf8 RefJson.text_lib (stdout_of (@run_cmd host cmd))
     = Some ("START" ++ str1 LF ++ last ++ str1 LF)
  /\ one_line last = true
  /\ @loads_str RefJson.text_lib last = Some (JObj error)
  /\ @run_function host RefJson.text_lib p None None None None "main"
     = (Ok {| raw_output := if last =? "null" then None else Some last;
              return_value := JObj error;
              exit_status := returncode_of (@run_cmd host cmd);
              stdout := "START" ++ str1 LF ++ last ++ str1 LF;
              error_info := error_entries error |},
        [cmd]).
Proof.
  intros error last host p cmd.
  repeat (split; [reflexivity|]).
  exact (terminal_value_is_last_line host RefJson.text_lib p None None None
           None "main" python "START" last error eq_refl eq_refl eq_refl
           eq_refl eq_refl eq_refl).
Defined.

(** X5: a last line that parses as a number other than zero makes
    [run_function] raise [TypeError], after the sandbox ran: the test
    ['errorType' in ret_value] is applied to the number. *)
Theorem number_terminal_value_raises (host : Host) (lib : TextLib)
        (p : string) (payload : option json)
        (layer net : option string) (env : option (dict string))
        (handler : string) (rt : runtime) (text last : string) (n : Z) :
  function_missing p = false ->
  runtime_of_extension (snd (PosixPath.splitext p)) = Ok rt ->
  check_layer layer = Ok tt ->
  decode_utf8
    (stdout_of (run_cmd (docker_cmd rt p payload layer net env handler)))
  = Some text ->
  last_item (splitlines text) = Some last ->
  loads_str last = Some (JNum n) ->
  n <> 0%Z ->
  run_function p payload layer net env handler
  = (Raise (TypeError "argument of type 'int' is not iterable"),
     [docker_cmd rt p payload layer net env handler]).
Proof.
  intros Hc Hrt Hl Hdec Hlast Hparse Hn.
  rewrite (InvokerFacts.checked_run p payload layer net env handler rt
             Hc Hrt Hl).
  rewrite (InvokerFacts.parse_output_value _ _ text last (JNum n) Hdec
             Hlast Hparse).
  unfold error_fields. cbn [Json.truthy].
  apply Z.eqb_neq in Hn. rewrite Hn. reflexivity.
Qed.

Lemma number_terminal_value_raises_witness :
  let host := Scenario.host_with (CompletedProcess 0 ("42" ++ str1 LF)) in
  let p := "/srv/functions/hello/handler.py" in
  let cmd := @docker_cmd host python p None None None None "main" in
  @function_missing host p = false
  /\ runtime_of_extension (snd (PosixPath.splitext p)) = Ok python
  /\ @check_layer host None = Ok tt
  /\ @decode_utf8 RefJson.text_lib (stdout_of (@run_cmd host cmd))
     = Some ("42" ++ str1 LF)
  /\ last_item (splitlines ("42" ++ str1 LF)) = Some "42"
  /\ @loads_str RefJson.text_lib "42" = Some (JNum 42)
  /\ (42 <> 0)%Z
  /\ @run_function host RefJson.text_lib p None None None None "main"
     = (Raise (TypeError "argument of type 'int' is not iterable"), [cmd]).
Proof.
  intros host p cmd.
  assert (Hn : (42 <> 0)%Z) by discriminate.
  repeat (split; [reflexivity || exact Hn|]).
  exact (number_terminal_value_raises host RefJson.text_lib p None None None
           None "main" python ("42" ++ str1 LF) "42" 42 eq_refl eq_refl
           eq_refl eq_refl eq_refl eq_refl Hn).
Defined.

End InvokerExtras.

(* ================================================================== *)
(** * More on the router *)
(* ================================================================== *)

Module RouterMore.
Import PyStr ApiRouter.

(** A command the invoker ran is the one of the selected runtime, and the
    only one. *)
Lemma run_spawned_in (host : Host) (lib : TextLib)
      (p : string) (payload : option json)
      (layer net : option string) (env : option (dict string))
      (handler cmd : string) :
  In cmd (spawned (LambdaUtils.run_function p payload layer net env handler)) ->
  exists rt,
    LambdaUtils.runtime_of_extension (snd (PosixPath.splitext p)) = Ok rt
    /\ cmd = LambdaUtils.docker_cmd rt p payload layer net env handler
    /\ spawned (LambdaUtils.run_function p payload layer net env handler)
       = [cmd].
Proof.
  destruct (LambdaUtils.function_missing p) eqn:E1.
  - rewrite (InvokerFacts.missing_file_raises p payload layer net env handler
               E1). contradiction.
  - destruct (LambdaUtils.runtime_of_extension (snd (PosixPath.splitext p)))
      as [rt | e] eqn:E2.
    + destruct (LambdaUtils.check_layer layer) as [[] | e] eqn:E3.
      * rewrite (InvokerFacts.checked_run_spawns p payload layer net env
                   handler rt E1 E2 E3).
        intros [<- | []]. now exists rt.
      * rewrite (InvokerFacts.missing_layer_raises p payload layer net env
                   handler rt e E1 E2 E3). contradiction.
    + unfold LambdaUtils.run_function. rewrite E1, E2. contradiction.
Qed.

Lemma set_keys {V} (d : dict V) (k : string) (v : V) (k' : string) :
  In k' (Dict.keys (Dict.set d k v)) <-> k' = k \/ In k' (Dict.keys d).
Proof.
  unfold Dict.keys. induction d as [|[k0 v0] d IH]; simpl.
  - intuition auto.
  - destruct (k0 =? k) eqn:E; simpl.
    + apply String.eqb_eq in E. subst k0. intuition auto.
    + rewrite IH. intuition auto.
Qed.

(** An assignment keeps the keys of a dictionary distinct. *)
Lemma set_wf {V} (d : dict V) (k : string) (v : V) :
  Dict.wf d -> Dict.wf (Dict.set d k v).
Proof.
  unfold Dict.wf. induction d as [|[k0 v0] d IH]; simpl; intros Hnd.
  - repeat constructor. intros [].
  - inversion Hnd as [|? ? Hnotin Hnd']; subst.
    destruct (k0 =? k) eqn:E; simpl.
    + apply String.eqb_eq in E. subst k0. now constructor.
    + constructor; [|now apply IH].
      intros Hin. apply (set_keys d k v k0) in Hin as [-> | Hin].
      * now rewrite String.eqb_refl in E.
      * contradiction.
Qed.

(** The loop over the query arguments, started from [acc]. *)
Lemma collect_params_loop (a : list (string * string)) (l : list string) :
  forall acc : dict string,
    Dict.wf acc ->
    (forall k, In k l -> In k (Dict.keys a)) ->
    let params :=
      fold_left
        (fun params p =>
           match Dict.get a p with
           | Some v => Dict.set params p v
           | None => params
           end) l acc in
    Dict.wf params
    /\ forall k, Dict.get params k
                 = if in_dec string_dec k l then Dict.get a k
                   else Dict.get acc k.
Proof.
  induction l as [|p l IH]; intros acc Hwf Hsub.
  - split; [exact Hwf | reflexivity].
  - cbn [fold_left].
    destruct (Dict.get a p) as [v|] eqn:Ep.
    + destruct (IH (Dict.set acc p v) (set_wf acc p v Hwf))
        as [Hwf' Hget]; [intros k Hk; apply Hsub; now right|].
      split; [exact Hwf'|].
      intros k. rewrite Hget.
      destruct (in_dec string_dec k l) as [Hin | Hnin];
        destruct (in_dec string_dec k (p :: l)) as [Hin' | Hnin'];
        try reflexivity.
      * exfalso. apply Hnin'. now right.
      * destruct Hin' as [<- | Hin']; [|contradiction].
        now rewrite DictFacts.get_set_eq.
      * rewrite DictFacts.get_set_neq; [reflexivity|].
        intros <-. apply Hnin'. now left.
    + exfalso. apply DictFacts.get_none_notin in Ep. apply Ep, Hsub. now left.
Qed.

End RouterMore.

Module RouterExtras.
Import PyStr ApiRouter RouterFacts RouterMore.

(** X6: when the sandbox of a request exits with a status other than 0 and
    its terminal value is an object, the view returns that object with
    status 500: the error object of the runtime is passed through as it
    is. *)
Theorem nonzero_exit_is_500 (host : Host) (lib : TextLib) (fw : WebFramework)
        (self : router) (req : request) (cmd : string) (rc : Z)
        (d : dict json) :
  invocation self req cmd rc (JObj d) ->
  rc <> 0%Z ->
  route_request self req = (Ok (Pair (JObj d) 500), [cmd])
  /\ (match_request (rules self) req = ToView ->
      serve self req = (Pair (JObj d) 500, [cmd])).
Proof.
  intros Hinv Hrc.
  assert (Hview : route_request self req = (Ok (Pair (JObj d) 500), [cmd])).
  { destruct (route_request_invocation self req cmd rc (JObj d) Hinv)
      as (text & last & ->).
    destruct (InvokerFacts.error_fields_object d) as (errors & ->).
    cbn [rbind]. rewrite translate_nonzero_exit by exact Hrc. reflexivity. }
  split; [exact Hview|].
  intros Hm. unfold serve. now rewrite Hm, Hview.
Qed.

(** Scenario C of the specification. *)
Lemma nonzero_exit_is_500_witness :
  let error := [("errorType", JStr "ValueError");
                ("errorMessage", JStr "bad input")] in
  let host := Scenario.host_with
                (CalledProcessError 1 (Scenario.output_of (JObj error))) in
  let lib := RefJson.text_lib in
  let fw := RefFramework.framework in
  let self := Scenario.app host in
  let req := Scenario.get_hello in
  @invocation host lib self req Scenario.hello_cmd 1 (JObj error)
  /\ (1 <> 0)%Z
  /\ @route_request host lib self req
     = (Ok (Pair (JObj error) 500), [Scenario.hello_cmd])
  /\ (@match_request fw (rules self) req = ToView ->
      @serve host lib fw self req
      = (Pair (JObj error) 500, [Scenario.hello_cmd])).
Proof.
  intros error host lib fw self req.
  assert (Hinv : @invocation host lib self req Scenario.hello_cmd 1
                   (JObj error)).
  { exists Scenario.hello_event, (JStr "GET /hello"), Scenario.hello,
      LambdaUtils.python, (Scenario.output_of (JObj error)),
      (Json.dumps_compact (JObj error)).
    repeat split; vm_compute; reflexivity. }
  assert (Hrc : (1 <> 0)%Z) by discriminate.
  split; [exact Hinv|]. split; [exact Hrc|].
  exact (nonzero_exit_is_500 host lib fw self req Scenario.hello_cmd 1 error
           Hinv Hrc).
Defined.

(** X7: whatever sandbox the view spawns is the one of the table entry
    found under the route key of the event, run on that entry's file and
    handler with the event as payload; and it is the only one spawned for
    the request. *)
Theorem sandbox_is_of_matched_route (host : Host) (lib : TextLib)
        (self : router) (req : request) (cmd : string) :
  In cmd (snd (route_request self req)) ->
  exists payload k config rt,
    event_of req = Ok payload
    /\ Json.getitem payload "routeKey" = Ok (JStr k)
    /\ Dict.get (endpoint_config self) k = Some config
    /\ cmd = LambdaUtils.docker_cmd rt (ep_filepath config) (Some payload)
               (layer_dir self) (docker_network_name self)
               (environment self) (ep_handler config)
    /\ snd (route_request self req) = [cmd].
Proof.
  intros Hin.
  destruct (event_of req) as [payload | e] eqn:He;
    [|unfold route_request in Hin; rewrite He in Hin; contradiction].
  destruct (Json.getitem payload "routeKey") as [key | e] eqn:Hk;
    [|unfold route_request in Hin; rewrite He in Hin; cbn [lift bind] in Hin;
      rewrite Hk in Hin; contradiction].
  destruct (lookup self key) as [[config|] | e] eqn:Hl.
  - rewrite (route_request_hit self req payload key config He Hk Hl) in Hin |- *.
    assert (Hsnd : forall m : M LambdaUtils.response,
               snd (bind m (fun response => lift (translate response)))
               = spawned m).
    { intros [[r | e] t]; unfold bind, lift, spawned; cbn [snd fst];
        [destruct (translate r); cbn [snd]; apply List.app_nil_r
        | reflexivity]. }
    rewrite Hsnd in Hin |- *.
    destruct (run_spawned_in host lib _ _ _ _ _ _ cmd Hin)
      as (rt & Hrt & Hcmd & Hall).
    destruct key as [| b | n | k | l | d]; try discriminate.
    exists payload, k, config, rt. cbn [lookup] in Hl.
    injection Hl as Hl. repeat split; assumption.
  - rewrite (route_request_miss self req payload key He Hk Hl) in Hin.
    contradiction.
  - unfold route_request in Hin. rewrite He in Hin. cbn [lift bind] in Hin.
    rewrite Hk in Hin. cbn [lift bind] in Hin. rewrite Hl in Hin.
    contradiction.
Qed.

Lemma sandbox_is_of_matched_route_witness :
  let host := Scenario.host_with
                (CompletedProcess 0 (Scenario.output_of Scenario.created)) in
  let lib := RefJson.text_lib in
  let self := Scenario.app host in
  let req := Scenario.get_hello in
  let cmd := Scenario.hello_cmd in
  In cmd (snd (@route_request host lib self req))
  /\ exists payload k config rt,
      @event_of lib req = Ok payload
      /\ Json.getitem payload "routeKey" = Ok (JStr k)
      /\ Dict.get (endpoint_config self) k = Some config
      /\ cmd = @LambdaUtils.docker_cmd host rt (ep_filepath config)
                 (Some payload) (layer_dir self) (docker_network_name self)
                 (environment self) (ep_handler config)
      /\ snd (@route_request host lib self req) = [cmd].
Proof.
  intros host lib self req cmd.
  assert (Hin : In cmd (snd (@route_request host lib self req)))
    by (vm_compute; left; reflexivity).
  split; [exact Hin|].
  exact (sandbox_is_of_matched_route host lib self req cmd Hin).
Defined.

(** X8: the query parameters handed to the event hold every key of the
    request's arguments once, with the first of its values, and no other
    key. *)
Theorem collected_params (a : list (string * string)) :
  Dict.wf (collect_params a)
  /\ forall k, Dict.get (collect_params a) k = Dict.get a k.
Proof.
  destruct (collect_params_loop a (map fst a) [] (NoDup_nil _)
              (fun k Hk => Hk)) as [Hwf Hget].
  split; [exact Hwf|].
  intros k. unfold collect_params, args_get. rewrite Hget.
  destruct (in_dec string_dec k (map fst a)) as [Hin | Hnin]; [reflexivity|].
  symmetry. now apply DictFacts.get_none_notin.
Qed.

End RouterExtras.

(* ================================================================== *)
(** * More on the event synthesizer: headers and authorization *)
(* ================================================================== *)

Module HeaderFacts.
Import PyStr Payload Words RouterMore.

Lemma lower_char_idem (c : ascii) : lower_char (lower_char c) = lower_char c.
Proof. destruct c as [[] [] [] [] [] [] [] []]; reflexivity. Qed.

Lemma lower_idem (s : string) : lower (lower s) = lower s.
Proof.
  induction s as [|c s IH]; [reflexivity|].
  cbn [lower]. now rewrite lower_char_idem, IH.
Qed.

(** The loop of [lower_headers] over the keys [l], for any dictionary [h]
    the values are read from. *)
Local Abbreviation lower_step h :=
  (fun (acc : dict json) (header : string) =>
     match Dict.get h header with
     | Some v => Dict.set acc (lower header) (JStr v)
     | None => acc
     end).

Lemma lower_loop_keys (h : dict string) (l : list string) :
  forall acc,
    Forall (fun k => lower k = k) (Dict.keys acc) ->
    Forall (fun k => lower k = k)
           (Dict.keys (fold_left (lower_step h) l acc)).
Proof.
  induction l as [|x l IH]; intros acc Hacc; [exact Hacc|].
  cbn [fold_left]. apply IH.
  destruct (Dict.get h x) as [v|]; [|exact Hacc].
  apply Forall_forall. intros k Hk.
  apply set_keys in Hk as [-> | Hk].
  - apply lower_idem.
  - rewrite Forall_forall in Hacc. now apply Hacc.
Qed.

Lemma lower_loop_wf (h : dict string) (l : list string) :
  forall acc, Dict.wf acc -> Dict.wf (fold_left (lower_step h) l acc).
Proof.
  induction l as [|x l IH]; intros acc Hacc; [exact Hacc|].
  cbn [fold_left]. apply IH.
  destruct (Dict.get h x); [now apply set_wf | exact Hacc].
Qed.

(** Rounds for names that lower to something else leave an entry alone. *)
Lemma lower_loop_frame (h : dict string) (l : list string) (x : string) :
  (forall k, In k l -> lower k <> x) ->
  forall acc, Dict.get (fold_left (lower_step h) l acc) x = Dict.get acc x.
Proof.
  induction l as [|k l IH]; intros Hl acc; [reflexivity|].
  cbn [fold_left]. rewrite IH by (intros k' Hk'; apply Hl; now right).
  destruct (Dict.get h k); [|reflexivity].
  apply DictFacts.get_set_neq. apply Hl. now left.
Qed.

(** The loop over headers whose names are lowercase already and distinct
    stores them as they are. *)
Lemma lower_loop_lowercase (h : dict string) (l : dict string) :
  forall acc,
    (forall k v, In (k, v) l -> Dict.get h k = Some v) ->
    NoDup (Dict.keys l) ->
    Forall (fun k => lower k = k) (Dict.keys l) ->
    (forall k, In k (Dict.keys l) -> Dict.get acc k = None) ->
    fold_left (lower_step h) (Dict.keys l) acc
    = (acc ++ json_values l)%list.
Proof.
  induction l as [|[k v] l IH]; intros acc Hget Hnd Hlow Hfresh.
  - cbn. now rewrite List.app_nil_r.
  - change (Dict.keys ((k, v) :: l)) with (k :: Dict.keys l) in *.
    cbn [fold_left]. rewrite (Hget k v (or_introl eq_refl)).
    inversion Hnd as [|? ? Hnotin Hnd']; subst.
    inversion Hlow as [|? ? Hk Hlow']; subst.
    rewrite Hk, (DictFacts.set_fresh acc k (JStr v))
      by (apply Hfresh; now left).
    rewrite IH; auto.
    + now rewrite <- List.app_assoc.
    + intros k' v' Hin. apply Hget. now right.
    + intros k' Hin. apply EventFacts.get_app_fresh.
      * intros <-. contradiction.
      * apply Hfresh. now right.
Qed.

Lemma keys_in {V} (d : dict V) (k : string) (v : V) :
  In (k, v) d -> In k (Dict.keys d).
Proof. intros Hin. change k with (fst (k, v)). now apply in_map. Qed.

(** The header map the view builds has distinct lowercase names. *)
Lemma collect_headers_shape (hs : list (string * string)) :
  Dict.wf (ApiRouter.collect_headers hs)
  /\ Forall (fun k => lower k = k) (Dict.keys (ApiRouter.collect_headers hs)).
Proof.
  unfold ApiRouter.collect_headers.
  assert (H : forall (acc : dict string),
             Dict.wf acc ->
             Forall (fun k => lower k = k) (Dict.keys acc) ->
             Dict.wf (fold_left
                        (fun headers header =>
                           Dict.set headers (lower (fst header)) (snd header))
                        hs acc)
             /\ Forall (fun k => lower k = k)
                       (Dict.keys
                          (fold_left
                             (fun headers header =>
                                Dict.set headers (lower (fst header))
                                         (snd header)) hs acc))).
  { induction hs as [|[k v] hs IH]; intros acc Hwf Hlow; [now split|].
    cbn [fold_left fst snd]. apply IH; [now apply set_wf|].
    apply Forall_forall. intros k' Hk'.
    apply set_keys in Hk' as [-> | Hk'].
    - apply lower_idem.
    - rewrite Forall_forall in Hlow. now apply Hlow. }
  apply H; constructor.
Qed.

(** Headers with distinct lowercase names pass through the loop of
    [build_payload] unchanged. *)
Lemma lower_headers_lowercase (h : dict string) :
  Dict.wf h ->
  Forall (fun k => lower k = k) (Dict.keys h) ->
  lower_headers h = json_values h.
Proof.
  intros Hwf Hlow. unfold lower_headers.
  rewrite (lower_loop_lowercase h h []); auto.
  intros k v Hin. now apply DictFacts.get_in_wf.
Qed.

Lemma json_values_get (d : dict string) (k : string) :
  Dict.get (json_values d) k = option_map JStr (Dict.get d k).
Proof.
  induction d as [|[k0 v0] d IH]; [reflexivity|].
  cbn. destruct (k0 =? k); [reflexivity | exact IH].
Qed.

(** ** Assignments and nested fields *)

Lemma field2_setitem (v x w : json) (k0 k1 k2 : string) :
  Json.setitem v k0 x = Ok w -> k0 <> k1 ->
  field2 w k1 k2 = field2 v k1 k2.
Proof.
  intros Hw Hne. apply EventFacts.setitem_ok in Hw as (d & -> & ->).
  unfold field2. now rewrite DictFacts.get_set_neq.
Qed.

Lemma field2_setitem2_other (v x w : json) (k0 k0' k1 k2 : string) :
  Json.setitem2 v k0 k0' x = Ok w -> k0 <> k1 ->
  field2 w k1 k2 = field2 v k1 k2.
Proof.
  intros Hw Hne. apply EventHeaders.setitem2_ok in Hw as (d & h & -> & _ & ->).
  unfold field2. now rewrite DictFacts.get_set_neq.
Qed.

Lemma field2_setitem2_same (v x w : json) (k1 k2 : string) :
  Json.setitem2 v k1 k2 x = Ok w -> field2 w k1 k2 = Some x.
Proof.
  intros Hw. apply EventHeaders.setitem2_ok in Hw as (d & h & -> & _ & ->).
  unfold field2. now rewrite !DictFacts.get_set_eq.
Qed.

Section Event.
Context `{TextLib}.

Lemma add_params_field2 (params : dict string) (payload : json)
      (st : json * string) (k1 k2 : string) :
  add_params params payload = Ok st ->
  k1 <> "queryStringParameters" ->
  field2 (fst st) k1 k2 = field2 payload k1 k2.
Proof.
  intros Hadd Hne. unfold add_params in Hadd.
  set (f := fun (st : json * string) (param : string) =>
              (v <- of_option (Dict.get params param) (KeyError param) ;;
               payload <- Json.setitem2 (fst st) "queryStringParameters"
                            param (JStr v) ;;
               Ok (payload, snd st ++ strip param ++ "=" ++ strip v ++ "&"))%result).
  change (fold_left (fun acc x => rbind acc (fun a => f a x))
            (Dict.keys params) (Ok (payload, "")) = Ok st) in Hadd.
  refine (EventHeaders.fold_preserves f
            (fun st => field2 (fst st) k1 k2 = field2 payload k1 k2)
            (Dict.keys params) _ (payload, "") st Hadd eq_refl).
  intros a x a' Ha Hf. unfold f in Hf.
  apply EventFacts.rbind_ok in Hf as (v & _ & Hf).
  apply EventFacts.rbind_ok in Hf as (p & Hset & Hf).
  injection Hf as <-. cbn [fst].
  rewrite (field2_setitem2_other _ _ _ _ _ k1 k2 Hset)
    by (intros E; apply Hne; now symmetry).
  exact Ha.
Qed.

(** What reaching the authorization step with a token means for the
    result of [build_payload]. *)
Lemma build_payload_with_token (route method : string)
      (user_agent source_ip server_hostname : option string)
      (headers : option (dict string)) (params : option (dict string))
      (body : option string) (jwt : string) :
  Dict.get (default_headers headers body) AUTH_HEADER = Some (JStr jwt) ->
  match build_payload route method user_agent source_ip server_hostname
          headers params body with
  | Ok payload =>
      exists claims,
        parse_jwt_payload jwt = Ok claims
        /\ field2 payload "requestContext" "authorizer"
           = Some (authorizer claims)
  | Raise _ => True
  end.
Proof.
  intros Hjwt.
  destruct (build_payload route method user_agent source_ip server_hostname
              headers params body) as [payload | e] eqn:Hbuild; [|exact I].
  unfold build_payload in Hbuild.
  apply EventFacts.rbind_ok in Hbuild as (p0 & _ & Hbuild).
  apply EventFacts.rbind_ok in Hbuild as (p1 & _ & Hbuild).
  apply EventFacts.rbind_ok in Hbuild as (p2 & _ & Hbuild).
  apply EventFacts.rbind_ok in Hbuild as (p3 & Hauth & Hbuild).
  rewrite Hjwt in Hauth.
  apply EventFacts.rbind_ok in Hauth as (q & _ & Hauth).
  apply EventFacts.rbind_ok in Hauth as (claims & Hclaims & Hauth).
  exists claims. split; [exact Hclaims|].
  assert (H3 : field2 p3 "requestContext" "authorizer"
               = Some (authorizer claims))
    by exact (field2_setitem2_same _ _ _ _ _ Hauth).
  destruct params as [[|kv ps]|]; try (now injection Hbuild as <-).
  apply EventFacts.rbind_ok in Hbuild as (p4 & Hset & Hbuild).
  apply EventFacts.rbind_ok in Hbuild as (st & Hadd & Hbuild).
  rewrite (field2_setitem _ _ _ _ "requestContext" "authorizer" Hbuild)
    by discriminate.
  rewrite (add_params_field2 _ _ _ "requestContext" "authorizer" Hadd)
    by discriminate.
  rewrite (field2_setitem _ _ _ _ "requestContext" "authorizer" Hset)
    by discriminate.
  exact H3.
Qed.
End Event.

End HeaderFacts.

Module EventExtras.
Import PyStr Payload Words RouterMore HeaderFacts.

(** X9: every name in the header map the event is filled from is
    lowercase, the names of the caller's headers as well as the two
    defaults, and no name occurs twice. *)
Theorem header_names_are_lowercase (headers : option (dict string))
        (body : option string) :
  Forall (fun k => lower k = k) (Dict.keys (default_headers headers body))
  /\ Dict.wf (default_headers headers body).
Proof.
  assert (Hs : Forall (fun k => lower k = k) (Dict.keys (supplied headers))
               /\ Dict.wf (supplied headers)).
  { unfold supplied. destruct headers as [h|]; [|split; constructor].
    split; [apply lower_loop_keys | apply lower_loop_wf]; constructor. }
  destruct Hs as [Hlow Hwf]. unfold default_headers.
  set (h1 := if Dict.mem (supplied headers) CONTENT_LENGTH
             then supplied headers
             else Dict.set (supplied headers) CONTENT_LENGTH
                    (JNum (body_length body))).
  assert (H1 : Forall (fun k => lower k = k) (Dict.keys h1) /\ Dict.wf h1).
  { unfold h1. destruct (Dict.mem (supplied headers) CONTENT_LENGTH);
      [now split|].
    split; [|now apply set_wf].
    apply Forall_forall. intros k Hk. apply set_keys in Hk as [-> | Hk];
      [reflexivity|]. rewrite Forall_forall in Hlow. now apply Hlow. }
  destruct H1 as [Hlow1 Hwf1].
  destruct (Dict.mem h1 CONTENT_TYPE); [now split|].
  split; [|now apply set_wf].
  apply Forall_forall. intros k Hk. apply set_keys in Hk as [-> | Hk];
    [reflexivity|]. rewrite Forall_forall in Hlow1. now apply Hlow1.
Qed.

Lemma event_default_headers_witness :
  let lib := RefJson.text_lib in
  @build_payload lib "/hello" "GET" None None None None
    (Some Scenario.query) None = Ok Scenario.query_event
  /\ (header_of Scenario.query_event CONTENT_LENGTH <> None
      /\ header_of Scenario.query_event CONTENT_TYPE <> None
      /\ (forall k v, Dict.get (supplied None) k = Some v ->
                      header_of Scenario.query_event k = Some v)
      /\ (Dict.mem (supplied None) CONTENT_TYPE = false ->
          header_of Scenario.query_event CONTENT_TYPE
          = Some (JStr "application/json"))
      /\ (Dict.mem (supplied None) CONTENT_LENGTH = false ->
          header_of Scenario.query_event CONTENT_LENGTH
          = Some (JNum (body_length None)))).
Proof.
  intros lib.
  assert (Hbuild : @build_payload lib "/hello" "GET" None None None None
                     (Some Scenario.query) None = Ok Scenario.query_event)
    by (vm_compute; reflexivity).
  split; [exact Hbuild|].
  exact (@EventHeaders.event_default_headers lib "/hello" "GET" None None
           None None (Some Scenario.query) None Scenario.query_event Hbuild).
Defined.

(** X10: when several headers of the caller have the same name once
    lowered, the last one wins: the header map holds, under the lowered
    name, the value of the last header with that name. *)
Theorem last_header_wins (h1 h2 : dict string) (k v : string) :
  Dict.wf (h1 ++ (k, v) :: h2)%list ->
  (forall k', In k' (Dict.keys h2) -> lower k' <> lower k) ->
  Dict.get (lower_headers (h1 ++ (k, v) :: h2)%list) (lower k)
  = Some (JStr v).
Proof.
  intros Hwf Hlast. unfold lower_headers.
  set (h := (h1 ++ (k, v) :: h2)%list) in *.
  assert (Hk : Dict.get h k = Some v).
  { apply DictFacts.get_in_wf; [exact Hwf|].
    unfold h. apply in_or_app. right. now left. }
  replace (Dict.keys h) with (Dict.keys h1 ++ k :: Dict.keys h2)%list
    by (unfold h, Dict.keys; now rewrite map_app).
  rewrite fold_left_app. cbn [fold_left]. rewrite Hk.
  rewrite lower_loop_frame by exact Hlast.
  apply DictFacts.get_set_eq.
Qed.

Lemma last_header_wins_witness :
  let h1 := [("Accept", "text/html")] in
  let h2 := [("Host", "localhost")] in
  Dict.wf (h1 ++ ("ACCEPT", "*/*") :: h2)%list
  /\ (forall k', In k' (Dict.keys h2) -> lower k' <> lower "ACCEPT")
  /\ Dict.get (lower_headers (h1 ++ ("ACCEPT", "*/*") :: h2)%list)
              (lower "ACCEPT")
     = Some (JStr "*/*").
Proof.
  intros h1 h2.
  assert (Hwf : Dict.wf (h1 ++ ("ACCEPT", "*/*") :: h2)%list).
  { unfold Dict.wf. cbn. repeat constructor; cbn; intuition discriminate. }
  assert (Hlast : forall k', In k' (Dict.keys h2) -> lower k' <> lower "ACCEPT").
  { intros k' [<- | []]. discriminate. }
  split; [exact Hwf|]. split; [exact Hlast|].
  exact (last_header_wins h1 h2 "ACCEPT" "*/*" Hwf Hlast).
Defined.

(** X11: lowering the header names a second time changes nothing: the
    header map the view hands to [build_payload] comes out of its loop over
    the headers with the same names and values. *)
Theorem lowering_twice_is_stable (hs : list (string * string)) :
  supplied (Some (ApiRouter.collect_headers hs))
  = json_values (ApiRouter.collect_headers hs).
Proof.
  destruct (collect_headers_shape hs) as [Hwf Hlow].
  unfold supplied. now apply lower_headers_lowercase.
Qed.

(** X12: an event built from headers with an authorization token carries
    the claims decoded from that token: the middle segment was decoded, and
    [requestContext.authorizer] is [{jwt: {claims: ...}, scopes: None}]. *)
Theorem authorizer_holds_claims (lib : TextLib) (route method : string)
        (user_agent source_ip server_hostname : option string)
        (headers : option (dict string)) (params : option (dict string))
        (body : option string) (jwt : string) (payload : json) :
  Dict.get (default_headers headers body) AUTH_HEADER = Some (JStr jwt) ->
  build_payload route method user_agent source_ip server_hostname
    headers params body = Ok payload ->
  exists claims,
    parse_jwt_payload jwt = Ok claims
    /\ field2 payload "requestContext" "authorizer" = Some (authorizer claims)
    /\ header_of payload AUTH_HEADER = Some (JStr jwt).
Proof.
  intros Hjwt Hbuild.
  pose proof (build_payload_with_token route method user_agent source_ip
                server_hostname headers params body jwt Hjwt) as Hm.
  rewrite Hbuild in Hm. destruct Hm as (claims & Hc & Hf).
  exists claims. repeat split; [exact Hc | exact Hf|].
  exact (EventHeaders.event_headers _ _ _ _ _ _ _ _ _ _ _ Hbuild Hjwt).
Qed.

Lemma authorizer_holds_claims_witness :
  let lib := RefJson.text_lib in
  Dict.get (default_headers (Some AuthScenario.headers) None) AUTH_HEADER
  = Some (JStr AuthScenario.token)
  /\ @build_payload lib "/hello" "GET" None None None
       (Some AuthScenario.headers) None None = Ok AuthScenario.event
  /\ exists claims,
      @parse_jwt_payload lib AuthScenario.token = Ok claims
      /\ field2 AuthScenario.event "requestContext" "authorizer"
         = Some (authorizer claims)
      /\ header_of AuthScenario.event AUTH_HEADER
         = Some (JStr AuthScenario.token).
Proof.
  intros lib.
  assert (Hjwt : Dict.get (default_headers (Some AuthScenario.headers) None)
                   AUTH_HEADER = Some (JStr AuthScenario.token))
    by (vm_compute; reflexivity).
  assert (Hbuild : @build_payload lib "/hello" "GET" None None None
                     (Some AuthScenario.headers) None None
                   = Ok AuthScenario.event)
    by (vm_compute; reflexivity).
  split; [exact Hjwt|]. split; [exact Hbuild|].
  exact (authorizer_holds_claims lib "/hello" "GET" None None None
           (Some AuthScenario.headers) None None AuthScenario.token
           AuthScenario.event Hjwt Hbuild).
Defined.

(** X13: an authorization token that does not split into three segments
    stops the synthesis: [build_payload] returns no event. *)
Theorem malformed_token_stops_event (lib : TextLib) (route method : string)
        (user_agent source_ip server_hostname : option string)
        (headers : option (dict string)) (params : option (dict string))
        (body : option string) (jwt : string) :
  Dict.get (default_headers headers body) AUTH_HEADER = Some (JStr jwt) ->
  List.length (split "." jwt) <> 3 ->
  exists e,
    build_payload route method user_agent source_ip server_hostname
      headers params body = Raise e.
Proof.
  intros Hjwt Hlen.
  pose proof (build_payload_with_token route method user_agent source_ip
                server_hostname headers params body jwt Hjwt) as Hm.
  destruct (build_payload route method user_agent source_ip server_hostname
              headers params body) as [payload | e]; [|now exists e].
  destruct Hm as (claims & Hc & _). exfalso.
  unfold parse_jwt_payload in Hc.
  apply Nat.eqb_neq in Hlen. rewrite Hlen in Hc. discriminate.
Qed.

Lemma malformed_token_stops_event_witness :
  let lib := RefJson.text_lib in
  let headers := Some [("Authorization", "a.b")] in
  Dict.get (default_headers headers None) AUTH_HEADER = Some (JStr "a.b")
  /\ List.length (split "." "a.b") <> 3
  /\ exists e,
      @build_payload lib "/hello" "GET" None None None headers None None
      = Raise e.
Proof.
  intros lib headers.
  assert (Hjwt : Dict.get (default_headers headers None) AUTH_HEADER
                 = Some (JStr "a.b")) by (vm_compute; reflexivity).
  assert (Hlen : List.length (split "." "a.b") <> 3)
    by (intros E; vm_compute in E; discriminate E).
  split; [exact Hjwt|]. split; [exact Hlen|].
  exact (malformed_token_stops_event lib "/hello" "GET" None None None
           headers None None "a.b" Hjwt Hlen).
Defined.

(** X14: a request whose authorization header, under any spelling of its
    name, holds a token that does not split into three segments is answered
    with the error 500 of an uncaught exception, and no sandbox is
    spawned for it. *)
Theorem malformed_authorization_is_500 (host : Host) (lib : TextLib)
        (fw : WebFramework) (self : ApiRouter.router)
        (req : request) (jwt : string) :
  Dict.get (ApiRouter.collect_headers (req_headers req)) AUTH_HEADER
  = Some jwt ->
  List.length (split "." jwt) <> 3 ->
  exists e,
    ApiRouter.route_request self req = (Raise e, [])
    /\ (match_request (ApiRouter.rules self) req = ToView ->
        ApiRouter.serve self req = (ApiRouter.ServerError e, [])).
Proof.
  intros Hget Hlen.
  assert (He : exists e, ApiRouter.event_of req = Raise e).
  { unfold ApiRouter.event_of.
    destruct (JsonLoads.decode (req_data req)) as [body | e];
      [|now exists e]. cbn [rbind].
    set (headers := Some (ApiRouter.collect_headers (req_headers req))).
    assert (Hjwt : Dict.get (default_headers headers (Some body)) AUTH_HEADER
                   = Some (JStr jwt)).
    { apply EventFacts.default_headers_keep. unfold headers, supplied.
      destruct (collect_headers_shape (req_headers req)) as [Hwf Hlow].
      rewrite lower_headers_lowercase by assumption.
      now rewrite json_values_get, Hget. }
    pose proof (build_payload_with_token (req_path req) (req_method req)
                  (ApiRouter.header_get (req_headers req) ApiRouter.USER_AGENT)
                  (req_remote_addr req) None headers
                  (match ApiRouter.collect_params (req_args req) with
                   | [] => None
                   | _ => Some (ApiRouter.collect_params (req_args req))
                   end) (Some body) jwt Hjwt) as Hm.
    destruct (build_payload _ _ _ _ _ _ _ _) as [payload | e];
      [|now exists e].
    destruct Hm as (claims & Hc & _). exfalso.
    unfold parse_jwt_payload in Hc.
    apply Nat.eqb_neq in Hlen. rewrite Hlen in Hc. discriminate. }
  destruct He as (e & He). exists e.
  assert (Hview : ApiRouter.route_request self req = (Raise e, [])).
  { unfold ApiRouter.route_request. now rewrite He. }
  split; [exact Hview|].
  intros Hm. unfold ApiRouter.serve. now rewrite Hm, Hview.
Qed.

Lemma malformed_authorization_is_500_witness :
  let host := Scenario.host_with (CompletedProcess 0 "") in
  let lib := RefJson.text_lib in
  let fw := RefFramework.framework in
  let self := Scenario.app host in
  let req := AuthScenario.bad_request in
  Dict.get (ApiRouter.collect_headers (req_headers req)) AUTH_HEADER
  = Some "abc"
  /\ List.length (split "." "abc") <> 3
  /\ exists e,
      @ApiRouter.route_request host lib self req = (Raise e, [])
      /\ (@match_request fw (ApiRouter.rules self) req = ToView ->
          @ApiRouter.serve host lib fw self req
          = (ApiRouter.ServerError e, [])).
Proof.
  intros host lib fw self req.
  assert (Hget : Dict.get (ApiRouter.collect_headers (req_headers req))
                   AUTH_HEADER = Some "abc") by (vm_compute; reflexivity).
  assert (Hlen : List.length (split "." "abc") <> 3)
    by (intros E; vm_compute in E; discriminate E).
  split; [exact Hget|]. split; [exact Hlen|].
  exact (malformed_authorization_is_500 host lib fw self req "abc" Hget Hlen).
Defined.

End EventExtras.

(* ================================================================== *)
(** * More on the token codec: what is encoded comes back *)
(* ================================================================== *)

Module CodecFacts.
Import PyStr Base64 Payload Words TokenFacts.

Lemma every_byte_spec (P : ascii -> bool) :
  every_byte P = true -> forall c, P c = true.
Proof.
  intros H c. unfold every_byte in H. rewrite forallb_forall in H.
  rewrite <- (ascii_N_embedding c), <- (N2Nat.id (N_of_ascii c)).
  apply (H (N.to_nat (N_of_ascii c))). apply in_seq.
  pose proof (N_ascii_bounded c). lia.
Qed.

Lemma every_pair_spec (P : ascii -> ascii -> bool) :
  every_byte (fun a => every_byte (P a)) = true ->
  forall a b, P a b = true.
Proof.
  intros H a b.
  exact (every_byte_spec (P a) (every_byte_spec _ H a) b).
Qed.

(** ** The six-bit values of a group and the bytes they give back *)

Lemma bits_first (a : ascii) :
  (N.shiftr (code a) 2 < 64)%N
  /\ (N.shiftl (N.land (code a) 3) 4 < 64)%N
  /\ chr (N.lor (N.shiftl (N.shiftr (code a) 2) 2)
                (N.shiftr (N.shiftl (N.land (code a) 3) 4) 4)) = a.
Proof.
  pose proof (every_byte_spec
    (fun a =>
       (N.shiftr (code a) 2 <? 64)%N
       && (N.shiftl (N.land (code a) 3) 4 <? 64)%N
       && Ascii.eqb
            (chr (N.lor (N.shiftl (N.shiftr (code a) 2) 2)
                        (N.shiftr (N.shiftl (N.land (code a) 3) 4) 4))) a)
    ltac:(vm_compute; reflexivity) a) as H.
  cbv beta in H.
  apply andb_prop in H as [H H3]. apply andb_prop in H as [H1 H2].
  apply N.ltb_lt in H1, H2. apply Ascii.eqb_eq in H3. auto.
Qed.

Lemma bits_first_pair (a b : ascii) :
  (N.lor (N.shiftl (N.land (code a) 3) 4) (N.shiftr (code b) 4) < 64)%N
  /\ chr (N.lor (N.shiftl (N.shiftr (code a) 2) 2)
                (N.shiftr (N.lor (N.shiftl (N.land (code a) 3) 4)
                                 (N.shiftr (code b) 4)) 4)) = a
  /\ N.land (N.lor (N.shiftl (N.land (code a) 3) 4) (N.shiftr (code b) 4)) 15
     = N.shiftr (code b) 4.
Proof.
  pose proof (every_pair_spec
    (fun a b =>
       (N.lor (N.shiftl (N.land (code a) 3) 4) (N.shiftr (code b) 4) <? 64)%N
       && Ascii.eqb
            (chr (N.lor (N.shiftl (N.shiftr (code a) 2) 2)
                        (N.shiftr (N.lor (N.shiftl (N.land (code a) 3) 4)
                                         (N.shiftr (code b) 4)) 4))) a
       && (N.land (N.lor (N.shiftl (N.land (code a) 3) 4)
                         (N.shiftr (code b) 4)) 15
           =? N.shiftr (code b) 4)%N)
    ltac:(vm_compute; reflexivity) a b) as H.
  cbv beta in H.
  apply andb_prop in H as [H H3]. apply andb_prop in H as [H1 H2].
  apply N.ltb_lt in H1. apply Ascii.eqb_eq in H2. apply N.eqb_eq in H3. auto.
Qed.

Lemma bits_second (b : ascii) :
  (N.shiftl (N.land (code b) 15) 2 < 64)%N
  /\ chr (N.lor (N.shiftl (N.shiftr (code b) 4) 4)
                (N.shiftr (N.shiftl (N.land (code b) 15) 2) 2)) = b.
Proof.
  pose proof (every_byte_spec
    (fun b =>
       (N.shiftl (N.land (code b) 15) 2 <? 64)%N
       && Ascii.eqb
            (chr (N.lor (N.shiftl (N.shiftr (code b) 4) 4)
                        (N.shiftr (N.shiftl (N.land (code b) 15) 2) 2))) b)
    ltac:(vm_compute; reflexivity) b) as H.
  cbv beta in H.
  apply andb_prop in H as [H1 H2].
  apply N.ltb_lt in H1. apply Ascii.eqb_eq in H2. auto.
Qed.

Lemma bits_second_pair (b c : ascii) :
  (N.lor (N.shiftl (N.land (code b) 15) 2) (N.shiftr (code c) 6) < 64)%N
  /\ chr (N.lor (N.shiftl (N.shiftr (code b) 4) 4)
                (N.shiftr (N.lor (N.shiftl (N.land (code b) 15) 2)
                                 (N.shiftr (code c) 6)) 2)) = b
  /\ (N.land (code c) 63 < 64)%N
  /\ chr (N.lor (N.shiftl
                   (N.land (N.lor (N.shiftl (N.land (code b) 15) 2)
                                  (N.shiftr (code c) 6)) 3) 6)
                (N.land (code c) 63)) = c.
Proof.
  pose proof (every_pair_spec
    (fun b c =>
       (N.lor (N.shiftl (N.land (code b) 15) 2) (N.shiftr (code c) 6) <? 64)%N
       && Ascii.eqb
            (chr (N.lor (N.shiftl (N.shiftr (code b) 4) 4)
                        (N.shiftr (N.lor (N.shiftl (N.land (code b) 15) 2)
                                         (N.shiftr (code c) 6)) 2))) b
       && (N.land (code c) 63 <? 64)%N
       && Ascii.eqb
            (chr (N.lor (N.shiftl
                           (N.land (N.lor (N.shiftl (N.land (code b) 15) 2)
                                          (N.shiftr (code c) 6)) 3) 6)
                        (N.land (code c) 63))) c)
    ltac:(vm_compute; reflexivity) b c) as H.
  cbv beta in H.
  apply andb_prop in H as [H H4]. apply andb_prop in H as [H H3].
  apply andb_prop in H as [H1 H2].
  apply N.ltb_lt in H1, H3. apply Ascii.eqb_eq in H2, H4. auto.
Qed.

(** ** The alphabet read back *)

Lemma value_of_char (v : N) :
  (v < 64)%N -> b64_value (b64_char false v) = Some v.
Proof.
  intros Hv.
  pose proof (below_64
    (fun v => match b64_value (b64_char false v) with
              | Some w => (w =? v)%N
              | None => false
              end) ltac:(vm_compute; reflexivity) v Hv) as H.
  cbv beta in H. destruct (b64_value (b64_char false v)); [|discriminate].
  apply N.eqb_eq in H. now subst.
Qed.

Lemma b64_char_is_ascii (u : bool) (v : N) :
  (code (b64_char u v) <? 128)%N = true.
Proof.
  destruct (N.lt_ge_cases v 64) as [Hv | Hv].
  - apply (below_64 (fun v => (code (b64_char u v) <? 128)%N)); [|exact Hv].
    destruct u; vm_compute; reflexivity.
  - rewrite (b64_char_high u v Hv). destruct u; reflexivity.
Qed.

(** A character of the URL-safe alphabet other than [-] and [_] is the one
    of the standard alphabet. *)
Lemma b64_char_standard (v : N) :
  urlsafe_only (b64_char true v) = false ->
  b64_char true v = b64_char false v.
Proof.
  destruct (N.lt_ge_cases v 64) as [Hv | Hv].
  - intros H.
    pose proof (below_64
      (fun v => urlsafe_only (b64_char true v)
                || Ascii.eqb (b64_char true v) (b64_char false v))
      ltac:(vm_compute; reflexivity) v Hv) as Hc.
    cbv beta in Hc. rewrite H in Hc. now apply Ascii.eqb_eq in Hc.
  - rewrite (b64_char_high true v Hv). discriminate.
Qed.

(** ** The decoder on data and padding characters *)

Lemma a2b_data0 (v : N) (r : string) (lc pads : N) (out : list ascii) (n : N) :
  (v < 64)%N ->
  a2b_base64 (String (b64_char false v) r) 0 lc pads out n
  = a2b_base64 r 1 v 0 out n.
Proof.
  intros Hv. cbn [a2b_base64]. unfold PAD.
  now rewrite b64_char_not_pad, value_of_char.
Qed.

Lemma a2b_data1 (v : N) (r : string) (lc pads : N) (out : list ascii) (n : N) :
  (v < 64)%N ->
  a2b_base64 (String (b64_char false v) r) 1 lc pads out n
  = a2b_base64 r 2 (N.land v 15) 0
      (chr (N.lor (N.shiftl lc 2) (N.shiftr v 4)) :: out) (n + 1).
Proof.
  intros Hv. cbn [a2b_base64]. unfold PAD.
  now rewrite b64_char_not_pad, value_of_char.
Qed.

Lemma a2b_data2 (v : N) (r : string) (lc pads : N) (out : list ascii) (n : N) :
  (v < 64)%N ->
  a2b_base64 (String (b64_char false v) r) 2 lc pads out n
  = a2b_base64 r 3 (N.land v 3) 0
      (chr (N.lor (N.shiftl lc 4) (N.shiftr v 2)) :: out) (n + 1).
Proof.
  intros Hv. cbn [a2b_base64]. unfold PAD.
  now rewrite b64_char_not_pad, value_of_char.
Qed.

Lemma a2b_data3 (v : N) (r : string) (lc pads : N) (out : list ascii) (n : N) :
  (v < 64)%N ->
  a2b_base64 (String (b64_char false v) r) 3 lc pads out n
  = a2b_base64 r 0 0 0 (chr (N.lor (N.shiftl lc 6) v) :: out) (n + 1).
Proof.
  intros Hv. cbn [a2b_base64]. unfold PAD.
  now rewrite b64_char_not_pad, value_of_char.
Qed.

Lemma a2b_pads2 (lc : N) (out : list ascii) (n : N) :
  a2b_base64 "==" 2 lc 0 out n = Ok (string_of_list_ascii (rev out)).
Proof. reflexivity. Qed.

Lemma a2b_pads3 (lc : N) (out : list ascii) (n : N) :
  a2b_base64 "===" 3 lc 0 out n = Ok (string_of_list_ascii (rev out)).
Proof. reflexivity. Qed.

(** ** Strings *)

Lemma rstrip_keep (x c : ascii) (b : string) :
  Ascii.eqb c x = false ->
  rstrip_char x (String c b) = String c (rstrip_char x b).
Proof.
  intros H. cbn [rstrip_char].
  destruct (rstrip_char x b); [rewrite H|]; reflexivity.
Qed.

Lemma rstrip_char_all_back (p : ascii -> bool) (x : ascii) (b : string) :
  p x = true ->
  all_chars p (rstrip_char x b) = true -> all_chars p b = true.
Proof.
  intros Hx. induction b as [|c b IH]; [reflexivity|].
  cbn [rstrip_char all_chars].
  destruct (rstrip_char x b) as [|c' r'] eqn:E.
  - destruct (Ascii.eqb_spec c x) as [-> | Hne].
    + intros _. rewrite Hx. now apply IH.
    + cbn [str1 all_chars]. intros H. apply andb_prop in H as [Hc _].
      rewrite Hc. now apply IH.
  - cbn [all_chars]. intros H. apply andb_prop in H as [Hc Hr].
    rewrite Hc. now apply IH.
Qed.

Lemma of_list_app (l1 l2 : list ascii) :
  string_of_list_ascii (l1 ++ l2)
  = string_of_list_ascii l1 ++ string_of_list_ascii l2.
Proof.
  induction l1 as [|c l1 IH]; cbn; [reflexivity | now rewrite IH].
Qed.

Lemma repeat_pad_ascii (k : nat) : isascii (repeat_string "=" k) = true.
Proof. induction k as [|k IH]; [reflexivity | exact IH]. Qed.

Lemma all_chars_encode (p : ascii -> bool) (u : bool) (s : string) :
  (forall v, p (b64_char u v) = true) -> p "="%char = true ->
  all_chars p (encode u s) = true.
Proof.
  intros Hp Hpad.
  assert (H : forall n s, String.length s <= n ->
                          all_chars p (encode u s) = true).
  { clear s. induction n as [|n IH]; intros s Hlen.
    - destruct s; [reflexivity | simpl in Hlen; lia].
    - destruct s as [|a [|b [|c r]]]; [reflexivity | | |];
        cbn [encode all_chars]; rewrite ?Hp, ?Hpad; cbn [andb];
        [reflexivity | reflexivity|].
      apply IH. simpl in Hlen. lia. }
  apply (H (String.length s)). lia.
Qed.

(** ** Encoding, then decoding *)

(** The standard encoding of [s] without its padding. *)
Local Abbreviation unpadded s := (rstrip_char "=" (encode false s)).

(** The padding [parse_jwt_payload] puts back. *)
Local Abbreviation restored e :=
  (e ++ repeat_string "=" (String.length e mod 4)).

Lemma a2b_restored (k : nat) :
  forall (s : string) (out : list ascii) (n : N),
    String.length s <= k ->
    a2b_base64 (restored (unpadded s)) 0 0 0 out n
    = Ok (string_of_list_ascii (rev out) ++ s).
Proof.
  induction k as [|k IH]; intros s out n Hlen.
  - destruct s; [|simpl in Hlen; lia].
    cbn. now rewrite StrFacts.app_nil_r.
  - destruct s as [|a [|b [|c r]]].
    + cbn. now rewrite StrFacts.app_nil_r.
    + destruct (bits_first a) as (H1 & H2 & Ha).
      cbn [encode]. rewrite !rstrip_keep by apply b64_char_not_pad.
      change (rstrip_char "=" "==") with "".
      cbn [String.length].
      change (2 mod 4) with 2. cbn [repeat_string append].
      rewrite a2b_data0, a2b_data1 by assumption.
      rewrite Ha, a2b_pads2. cbn [rev]. now rewrite of_list_app.
    + destruct (bits_first a) as (H1 & _ & _).
      destruct (bits_first_pair a b) as (H2 & Ha & Hlc).
      destruct (bits_second b) as (H3 & Hb).
      cbn [encode]. rewrite !rstrip_keep by apply b64_char_not_pad.
      change (rstrip_char "=" "=") with "".
      cbn [String.length].
      change (3 mod 4) with 3. cbn [repeat_string append].
      rewrite a2b_data0, a2b_data1 by assumption. rewrite Ha, Hlc.
      rewrite a2b_data2 by assumption. rewrite Hb, a2b_pads3.
      cbn [rev]. rewrite !of_list_app, StrFacts.app_assoc. reflexivity.
    + destruct (bits_first a) as (H1 & _ & _).
      destruct (bits_first_pair a b) as (H2 & Ha & Hlc).
      destruct (bits_second_pair b c) as (H3 & Hb & H4 & Hc).
      cbn [encode]. rewrite !rstrip_keep by apply b64_char_not_pad.
      cbn [String.length].
      replace (S (S (S (S (String.length (unpadded r))))))
        with (String.length (unpadded r) + 1 * 4) by lia.
      rewrite Nat.Div0.mod_add. cbn [append].
      rewrite a2b_data0, a2b_data1 by assumption. rewrite Ha, Hlc.
      rewrite a2b_data2 by assumption. rewrite Hb.
      rewrite a2b_data3 by assumption. rewrite Hc.
      rewrite IH by (simpl in Hlen; lia).
      cbn [rev]. rewrite !of_list_app, !StrFacts.app_assoc. reflexivity.
Qed.

Lemma b64decode_restored (s : string) :
  b64decode (restored (unpadded s)) = Ok s.
Proof.
  unfold b64decode.
  assert (Hascii : isascii (restored (unpadded s)) = true).
  { unfold isascii. rewrite StrFacts.all_chars_app.
    rewrite (rstrip_char_all _ "=" _
               (all_chars_encode _ false s (b64_char_is_ascii false)
                  eq_refl)).
    apply repeat_pad_ascii. }
  rewrite Hascii. exact (a2b_restored (String.length s) s [] 0 (le_n _)).
Qed.

(** Without [-] and [_] the URL-safe encoding is the standard one. *)
Lemma encode_standard (s : string) :
  standard_only (encode true s) = true -> encode true s = encode false s.
Proof.
  assert (H : forall n s, String.length s <= n ->
                          standard_only (encode true s) = true ->
                          encode true s = encode false s).
  { clear s. unfold standard_only.
    induction n as [|n IH]; intros s Hlen.
    - destruct s; [reflexivity | simpl in Hlen; lia].
    - destruct s as [|a [|b [|c r]]]; [reflexivity | | |];
        cbn [encode all_chars]; intros H;
        repeat (apply andb_prop in H as [?Hc H]);
        repeat match goal with
               | Hx : negb (urlsafe_only _) = true |- _ =>
                   apply negb_true_iff, b64_char_standard in Hx; rewrite Hx
               end; [reflexivity | reflexivity|].
      f_equal. f_equal. f_equal. f_equal. apply IH; [simpl in Hlen; lia|].
      exact H. }
  apply (H (String.length s)). lia.
Qed.

(** ** Serialized claims *)

Lemma escape_char_ascii (c : ascii) : isascii (Json.escape_char c) = true.
Proof.
  exact (every_byte_spec (fun c => isascii (Json.escape_char c))
           ltac:(vm_compute; reflexivity) c).
Qed.

Lemma isascii_app (a b : string) :
  isascii (a ++ b) = isascii a && isascii b.
Proof. apply StrFacts.all_chars_app. Qed.

Lemma escape_ascii (s : string) : isascii (Json.escape s) = true.
Proof.
  induction s as [|c s IH]; [reflexivity|].
  cbn [Json.escape]. now rewrite isascii_app, escape_char_ascii, IH.
Qed.

Lemma encode_string_ascii (s : string) : isascii (Json.encode_string s) = true.
Proof.
  unfold Json.encode_string, q.
  change (String dquote (Json.escape s ++ str1 dquote))
    with (str1 dquote ++ Json.escape s ++ str1 dquote).
  now rewrite !isascii_app, escape_ascii.
Qed.

Section Claims.
Context `{Hmac}.

(** [json.dumps] escapes what is not ASCII, so [encode('ascii')] accepts
    the serialized claims of every user. *)
Lemma claims_ascii (user_id : string) (name email : option string) :
  isascii (Json.dumps_compact (jwt_payload user_id name email)) = true.
Proof.
  unfold jwt_payload, Json.dumps_compact.
  destruct (given name), (given email); cbn [Dict.set String.eqb Ascii.eqb
    Bool.eqb Json.dumps_with];
    repeat match goal with
           | |- context [String ?c (?a ++ ?b)] =>
               change (String c (a ++ b)) with (str1 c ++ a ++ b)
           end;
    rewrite ?isascii_app, ?encode_string_ascii; reflexivity.
Qed.

Lemma claims_not_empty (user_id : string) (name email : option string) :
  Json.dumps_compact (jwt_payload user_id name email) <> "".
Proof.
  unfold jwt_payload, Json.dumps_compact.
  destruct (given name), (given email); discriminate.
Qed.

(** The token of an ASCII secret, for a digest of 32 bytes. *)
Lemma build_jwt_ok (user_id : string) (name email : option string)
      (secret : string) :
  (forall k m, String.length (hmac_sha256 k m) = 32) ->
  isascii secret = true ->
  exists claims signature,
    build_jwt user_id name email secret
    = Ok (token_of "eyJhbGciOiJIUzI1NiIsInR5cCI6IkpXVCJ9" claims signature)
    /\ remove_padding
         (urlsafe_b64encode
            (Json.dumps_compact (jwt_payload user_id name email)))
       = Ok claims
    /\ all_chars no_dot claims = true
    /\ all_chars no_dot signature = true.
Proof.
  intros Hlen Hsecret.
  destruct (remove_padding_encode true
              (Json.dumps_compact (jwt_payload user_id name email))
              (claims_not_empty user_id name email))
    as (claims & Hclaims & Hdots).
  destruct (TokenClaims.build_jwt_segments _ user_id name email secret
              "eyJhbGciOiJIUzI1NiIsInR5cCI6IkpXVCJ9" claims Hlen Hsecret
              eq_refl (claims_ascii user_id name email) Hclaims)
    as (signature & Hbuild & Hsig).
  exists claims, signature. unfold token_of. auto.
Qed.
End Claims.

End CodecFacts.

Module CodecExtras.
Import PyStr Base64 Payload Words TokenFacts CodecFacts.

(** X15: a segment made as [build_jwt] makes its segments, URL-safe
    encoding with the padding removed, is decoded back to the bytes it
    encodes by what [parse_jwt_payload] does with a segment, [=] appended
    once for each unit of the length modulo 4 and the standard decoder, as
    long as the segment has neither [-] nor [_]. *)
Theorem segment_round_trip (s segment : string) :
  remove_padding (urlsafe_b64encode s) = Ok segment ->
  standard_only segment = true ->
  b64decode (segment
             ++ repeat_string "=" (String.length segment mod 4)) = Ok s.
Proof.
  intros Hseg Hstd. rewrite remove_padding_spec in Hseg.
  assert (E : segment = rstrip_char "=" (urlsafe_b64encode s)).
  { destruct (rstrip_char "=" (urlsafe_b64encode s));
      [discriminate | now injection Hseg as <-]. }
  unfold urlsafe_b64encode in E.
  assert (Hall : standard_only (encode true s) = true).
  { apply (rstrip_char_all_back _ "="); [reflexivity|]. now rewrite <- E. }
  rewrite (encode_standard s Hall) in E. subst segment.
  apply b64decode_restored.
Qed.

Lemma segment_round_trip_witness :
  let s := "{" ++ q "sub" ++ ":" ++ q "u1" ++ "}" in
  remove_padding (urlsafe_b64encode s) = Ok "eyJzdWIiOiJ1MSJ9"
  /\ standard_only "eyJzdWIiOiJ1MSJ9" = true
  /\ b64decode ("eyJzdWIiOiJ1MSJ9"
                ++ repeat_string "=" (String.length "eyJzdWIiOiJ1MSJ9" mod 4))
     = Ok s.
Proof.
  intros s.
  assert (Hseg : remove_padding (urlsafe_b64encode s) = Ok "eyJzdWIiOiJ1MSJ9")
    by (vm_compute; reflexivity).
  assert (Hstd : standard_only "eyJzdWIiOiJ1MSJ9" = true) by reflexivity.
  split; [exact Hseg|]. split; [exact Hstd|].
  exact (segment_round_trip s "eyJzdWIiOiJ1MSJ9" Hseg Hstd).
Defined.

(** X16: the token [build_jwt] makes for an ASCII secret is read back by
    [parse_jwt_payload] as the claims it was made from, that is as what
    [json.loads] gives for the serialized claims, whenever the encoded
    claims have neither [-] nor [_]. *)
Theorem token_round_trip (mac : Hmac) (lib : TextLib)
        (user_id : string) (name email : option string) (secret : string) :
  (forall k m, String.length (hmac_sha256 k m) = 32) ->
  isascii secret = true ->
  standard_only
    (urlsafe_b64encode (Json.dumps_compact (jwt_payload user_id name email)))
  = true ->
  exists token,
    build_jwt user_id name email secret = Ok token
    /\ parse_jwt_payload token
       = JsonLoads.loads_bytes
           (Json.dumps_compact (jwt_payload user_id name email)).
Proof.
  intros Hlen Hsecret Hstd.
  destruct (build_jwt_ok user_id name email secret Hlen Hsecret)
    as (claims & signature & Hbuild & Hclaims & Hdc & Hds).
  eexists. split; [exact Hbuild|].
  unfold token_of. rewrite TokenClaims.parse_three_segments by auto.
  rewrite remove_padding_spec in Hclaims.
  unfold urlsafe_b64encode in Hclaims, Hstd.
  rewrite (encode_standard _ Hstd) in Hclaims.
  destruct (rstrip_char "=" _) eqn:E in Hclaims; [discriminate|].
  injection Hclaims as <-. rewrite <- E.
  now rewrite b64decode_restored.
Qed.

Lemma token_round_trip_witness :
  let mac := RefHost.hmac in
  let lib := RefJson.text_lib in
  (forall k m, String.length (@hmac_sha256 mac k m) = 32)
  /\ isascii "s3cret" = true
  /\ standard_only
       (urlsafe_b64encode
          (Json.dumps_compact (jwt_payload "u1" (Some "Ann") None))) = true
  /\ exists token,
      @build_jwt mac "u1" (Some "Ann") None "s3cret" = Ok token
      /\ @parse_jwt_payload lib token
         = @JsonLoads.loads_bytes lib
             (Json.dumps_compact (jwt_payload "u1" (Some "Ann") None)).
Proof.
  intros mac lib.
  assert (Hlen : forall k m, String.length (@hmac_sha256 mac k m) = 32)
    by (intros k m; reflexivity).
  assert (Hsecret : isascii "s3cret" = true) by reflexivity.
  assert (Hstd : standard_only
                   (urlsafe_b64encode
                      (Json.dumps_compact (jwt_payload "u1" (Some "Ann") None)))
                 = true) by (vm_compute; reflexivity).
  split; [exact Hlen|]. split; [exact Hsecret|]. split; [exact Hstd|].
  exact (token_round_trip mac lib "u1" (Some "Ann") None "s3cret"
           Hlen Hsecret Hstd).
Defined.

(** X17: for a digest of 32 bytes, [build_jwt] returns a token exactly
    when the secret is ASCII, whatever the user id, name and email are.
    The token then has three segments, the fixed header, the claims and the
    signature, none with a dot in it, so that [parse_jwt_payload] splits it
    into three; a secret outside ASCII raises the encoding error. *)
Theorem build_jwt_outcome (mac : Hmac) (user_id : string)
        (name email : option string) (secret : string) :
  (forall k m, String.length (hmac_sha256 k m) = 32) ->
  if isascii secret then
    exists claims signature,
      build_jwt user_id name email secret
      = Ok (token_of "eyJhbGciOiJIUzI1NiIsInR5cCI6IkpXVCJ9" claims signature)
      /\ split "." (token_of "eyJhbGciOiJIUzI1NiIsInR5cCI6IkpXVCJ9"
                      claims signature)
         = ["eyJhbGciOiJIUzI1NiIsInR5cCI6IkpXVCJ9"; claims; signature]
      /\ claims <> ""
  else
    build_jwt user_id name email secret
    = Raise (UnicodeError "'ascii' codec can't encode character").
Proof.
  intros Hlen. destruct (isascii secret) eqn:Hsecret.
  - destruct (build_jwt_ok user_id name email secret Hlen Hsecret)
      as (claims & signature & Hbuild & Hclaims & Hdc & Hds).
    exists claims, signature. split; [exact Hbuild|]. split.
    + unfold token_of.
      change ("eyJhbGciOiJIUzI1NiIsInR5cCI6IkpXVCJ9" ++ "." ++ claims ++ "."
              ++ signature)
        with ("eyJhbGciOiJIUzI1NiIsInR5cCI6IkpXVCJ9"
              ++ String "." (claims ++ String "." signature)).
      rewrite (StrFacts.split_app "." "eyJhbGciOiJIUzI1NiIsInR5cCI6IkpXVCJ9")
        by reflexivity.
      rewrite (StrFacts.split_app "." claims _ Hdc),
        (StrFacts.split_none "." signature Hds).
      reflexivity.
    + rewrite remove_padding_spec in Hclaims. intros ->.
      destruct (rstrip_char "=" _); discriminate.
  - unfold build_jwt, encode_ascii.
    change (isascii (Json.dumps_compact JWT_HEADER)) with true.
    cbn [rbind].
    destruct (remove_padding_encode true (Json.dumps_compact JWT_HEADER))
      as (h & Hh & _); [discriminate|].
    unfold urlsafe_b64encode. rewrite Hh. cbn [rbind].
    rewrite claims_ascii. cbn [rbind].
    destruct (remove_padding_encode true
                (Json.dumps_compact (jwt_payload user_id name email))
                (claims_not_empty user_id name email)) as (c & Hc & _).
    rewrite Hc. cbn [rbind]. now rewrite Hsecret.
Qed.

Lemma build_jwt_outcome_witness :
  let mac := RefHost.hmac in
  (forall k m, String.length (@hmac_sha256 mac k m) = 32)
  /\ if isascii Scenario.e_acute then
       exists claims signature,
         @build_jwt mac "u1" None None Scenario.e_acute
         = Ok (token_of "eyJhbGciOiJIUzI1NiIsInR5cCI6IkpXVCJ9" claims
                 signature)
         /\ split "." (token_of "eyJhbGciOiJIUzI1NiIsInR5cCI6IkpXVCJ9"
                         claims signature)
            = ["eyJhbGciOiJIUzI1NiIsInR5cCI6IkpXVCJ9"; claims; signature]
         /\ claims <> ""
     else
       @build_jwt mac "u1" None None Scenario.e_acute
       = Raise (UnicodeError "'ascii' codec can't encode character").
Proof.
  intros mac.
  assert (Hlen : forall k m, String.length (@hmac_sha256 mac k m) = 32)
    by (intros k m; reflexivity).
  split; [exact Hlen|].
  exact (build_jwt_outcome mac "u1" None None Scenario.e_acute Hlen).
Defined.

End CodecExtras.

(* ================================================================== *)
(** * The environment file *)
(* ================================================================== *)

Module EnvFacts.
Import PyStr Utils.

Lemma has_char_cons (sep c : ascii) (s : string) :
  has_char sep (String c s) = Ascii.eqb c sep || has_char sep s.
Proof.
  unfold has_char. cbn [all_chars].
  now rewrite negb_andb, negb_involutive.
Qed.

(** [split(sep, 1)] gives two items exactly when the separator occurs, and
    then splits at its first occurrence. *)
Lemma split_once_spec (sep : ascii) (s : string) :
  if has_char sep s then
    exists a b, split_once sep s = [a; b] /\ s = a ++ String sep b
                /\ has_char sep a = false
  else split_once sep s = [s].
Proof.
  induction s as [|c s IH]; [reflexivity|].
  rewrite has_char_cons. cbn [split_once].
  destruct (Ascii.eqb_spec c sep) as [-> | Hne]; cbn [orb].
  - now exists "", s.
  - destruct (has_char sep s).
    + destruct IH as (a & b & -> & -> & Ha).
      exists (String c a), b. repeat split.
      rewrite has_char_cons, Ha.
      apply Ascii.eqb_neq in Hne. now rewrite Hne.
    + now rewrite IH.
Qed.

Lemma split_once_at (sep : ascii) (a b : string) :
  has_char sep a = false -> split_once sep (a ++ String sep b) = [a; b].
Proof.
  induction a as [|c a IH]; intros Ha.
  - cbn. now rewrite Ascii.eqb_refl.
  - rewrite has_char_cons in Ha. apply orb_false_elim in Ha as [Hc Ha].
    cbn [append split_once]. now rewrite Hc, IH.
Qed.

Lemma read_line_skipped (env : dict string) (line : string) :
  skipped line = true -> read_line env line = Returns env.
Proof. unfold skipped, read_line. now intros ->. Qed.

Lemma read_line_malformed (env : dict string) (line : string) :
  malformed line = true ->
  read_line env line = Raises (format_error (strip line)).
Proof.
  unfold malformed, skipped, read_line. intros H.
  apply andb_prop in H as [Hs Hc]. apply negb_true_iff in Hs, Hc.
  rewrite Hs. pose proof (split_once_spec "=" (strip line)) as Hsp.
  rewrite Hc in Hsp. now rewrite Hsp.
Qed.

Lemma read_line_assigns (env : dict string) (line : string) :
  skipped line = false -> malformed line = false ->
  exists name value,
    strip line = name ++ String "=" value
    /\ has_char "=" name = false
    /\ assigned line = Some (strip name)
    /\ read_line env line
       = Returns (Dict.set env (strip name) (strip value)).
Proof.
  unfold malformed, assigned, read_line. intros Hs Hm.
  rewrite Hs in Hm |- *. cbn [negb andb] in Hm. apply negb_false_iff in Hm.
  pose proof (split_once_spec "=" (strip line)) as Hsp.
  rewrite Hm in Hsp. destruct Hsp as (a & b & Hsp & Hline & Ha).
  exists a, b. unfold skipped in Hs. rewrite Hs, Hsp. auto.
Qed.

(** The loop, started from any dictionary. *)
Local Abbreviation loop lines start := (fold_left read_next lines start).

Lemma loop_raises (lines : list string) (r : raised) :
  loop lines (Raises r) = Raises r.
Proof. induction lines as [|l lines IH]; [reflexivity | exact IH]. Qed.

Lemma loop_outcome (lines : list string) :
  forall env0 : dict string,
    Dict.wf env0 ->
    match find malformed lines with
    | Some bad => loop lines (Returns env0)
                  = Raises (format_error (strip bad))
    | None => exists env, loop lines (Returns env0) = Returns env
                          /\ Dict.wf env
    end.
Proof.
  induction lines as [|l lines IH]; intros env0 Hwf.
  - now exists env0.
  - cbn [find fold_left read_next]. destruct (malformed l) eqn:Hm.
    + rewrite (read_line_malformed env0 l Hm). apply loop_raises.
    + destruct (skipped l) eqn:Hs.
      * rewrite (read_line_skipped env0 l Hs). now apply IH.
      * destruct (read_line_assigns env0 l Hs Hm)
          as (name & value & _ & _ & _ & ->).
        apply IH. now apply RouterMore.set_wf.
Qed.

(** Lines that assign other variables leave a variable as it is. *)
Lemma loop_frame (k : string) (lines : list string) :
  (forall l, In l lines -> assigned l <> Some k) ->
  forall env0 env,
    loop lines (Returns env0) = Returns env ->
    Dict.get env k = Dict.get env0 k.
Proof.
  induction lines as [|l lines IH]; intros Hl env0 env Hloop.
  - now injection Hloop as <-.
  - cbn [fold_left read_next] in Hloop.
    assert (Hrest : forall l', In l' lines -> assigned l' <> Some k)
      by (intros l' Hin; apply Hl; now right).
    destruct (malformed l) eqn:Hm.
    + rewrite (read_line_malformed env0 l Hm), loop_raises in Hloop.
      discriminate.
    + destruct (skipped l) eqn:Hs.
      * rewrite (read_line_skipped env0 l Hs) in Hloop. now apply IH.
      * destruct (read_line_assigns env0 l Hs Hm)
          as (name & value & _ & _ & Ha & Hr).
        rewrite Hr in Hloop. rewrite (IH Hrest _ _ Hloop).
        apply DictFacts.get_set_neq. intros E. apply (Hl l); [now left|].
        now rewrite Ha, E.
Qed.

Lemma loop_app (l1 l2 : list string) (acc : try (dict string)) :
  loop (l1 ++ l2) acc = loop l2 (loop l1 acc).
Proof. apply fold_left_app. Qed.

(** The options of the variables [l], added in their order. *)
Lemma add_environment_loop (environment : dict string) (l : dict string) :
  forall cmd,
    (forall k v, In (k, v) l -> Dict.get environment k = Some v) ->
    fold_left
      (fun cmd key =>
         match Dict.get environment key with
         | Some v => cmd ++ " -e " ++ key ++ "=" ++ sq v
         | None => cmd
         end) (Dict.keys l) cmd
    = cmd ++ String.concat "" (map env_option l).
Proof.
  induction l as [|[k v] l IH]; intros cmd Hget.
  - cbn. now rewrite StrFacts.app_nil_r.
  - change (Dict.keys ((k, v) :: l)) with (k :: Dict.keys l).
    cbn [fold_left]. rewrite (Hget k v (or_introl eq_refl)).
    rewrite IH by (intros k' v' Hin; apply Hget; now right).
    rewrite StrFacts.app_assoc. f_equal.
    destruct l as [|kv l]; cbn [map String.concat].
    + unfold env_option. cbn [fst snd]. now rewrite StrFacts.app_nil_r.
    + reflexivity.
Qed.

(** The file of the scenario: Windows and Unix line ends, a comment, a
    blank line, a value with [=] in it and a variable assigned twice. *)
Example read_env_file_scenario :
  @read_env_file EnvScenario.files "/srv/.env"
  = Returns [("DB_URL", "postgres://db?sslmode=off"); ("STAGE", "test")].
Proof. vm_compute. reflexivity. Qed.

Example read_env_file_missing :
  @read_env_file EnvScenario.files "/srv/none"
  = Raises (Builtin (FileNotFoundError "/srv/none")).
Proof. reflexivity. Qed.

End EnvFacts.

Module EnvExtras.
Import PyStr Utils EnvFacts.

(** X18: what [read_env_file] returns or raises.  When the file cannot be
    opened, the error of [open]; otherwise, when some line that is neither
    blank nor a comment has no [=], the format error that quotes the first
    such line, stripped; otherwise a dictionary.  Nothing else is raised. *)
Theorem read_env_file_outcome (fs : TextFiles) (env_file_path : string) :
  match open_text env_file_path with
  | Raise e => read_env_file env_file_path = Raises (Builtin e)
  | Ok text =>
      match find malformed (readlines (universal_newlines text)) with
      | Some bad =>
          read_env_file env_file_path
          = Raises (Exception ("incorrect environment variable format: "
                               ++ q (strip bad)))
      | None =>
          exists env, read_env_file env_file_path = Returns env
                      /\ Dict.wf env
      end
  end.
Proof.
  unfold read_env_file.
  destruct (open_text env_file_path) as [text | e]; [|reflexivity].
  exact (loop_outcome (readlines (universal_newlines text)) []
           (NoDup_nil _)).
Qed.

(** X19: the value of a variable is the one of the last line that assigns
    it, and it is all that follows the first [=] of that line, stripped:
    further [=] belong to the value. *)
Theorem last_assignment_wins (l1 l2 : list string) (line name value : string)
        (env : dict string) :
  read_lines (l1 ++ line :: l2) = Returns env ->
  strip line = name ++ String "=" value ->
  has_char "=" name = false ->
  prefix "#" name = false ->
  (forall l, In l l2 -> assigned l <> Some (strip name)) ->
  Dict.get env (strip name) = Some (strip value).
Proof.
  intros Hread Hline Hname Hhash Hlast.
  unfold read_lines in Hread. rewrite loop_app in Hread.
  cbn [fold_left] in Hread.
  destruct (fold_left read_next l1 (Returns [])) as [env1 | r];
    cbn [read_next] in Hread;
    [|rewrite loop_raises in Hread; discriminate].
  assert (Hr : read_line env1 line
               = Returns (Dict.set env1 (strip name) (strip value))).
  { unfold read_line. rewrite Hline.
    replace (prefix "#" (name ++ String "=" value)) with false
      by (destruct name as [|c name]; [reflexivity|]; symmetry;
          etransitivity; [|exact Hhash];
          cbn [append prefix]; destruct (ascii_dec "#" c); [|reflexivity];
          destruct name; reflexivity).
    replace (name ++ String "=" value =? "") with false
      by (destruct name; reflexivity).
    cbn [orb]. now rewrite split_once_at. }
  rewrite Hr in Hread.
  rewrite (loop_frame (strip name) l2 Hlast _ _ Hread).
  apply DictFacts.get_set_eq.
Qed.

Lemma last_assignment_wins_witness :
  let l1 := ["# database" ++ str1 LF] in
  let line := "DB_URL = postgres://db?sslmode=off" ++ str1 LF in
  let l2 := [str1 LF; "STAGE=dev" ++ str1 LF; "STAGE=test"] in
  let name := "DB_URL " in
  let value := " postgres://db?sslmode=off" in
  let env := [("DB_URL", "postgres://db?sslmode=off"); ("STAGE", "test")] in
  read_lines (l1 ++ line :: l2) = Returns env
  /\ strip line = name ++ String "=" value
  /\ has_char "=" name = false
  /\ prefix "#" name = false
  /\ (forall l, In l l2 -> assigned l <> Some (strip name))
  /\ Dict.get env (strip name) = Some (strip value).
Proof.
  intros l1 line l2 name value env.
  assert (Hread : read_lines (l1 ++ line :: l2) = Returns env)
    by (vm_compute; reflexivity).
  assert (Hline : strip line = name ++ String "=" value)
    by (vm_compute; reflexivity).
  assert (Hname : has_char "=" name = false) by reflexivity.
  assert (Hhash : prefix "#" name = false) by reflexivity.
  assert (Hlast : forall l, In l l2 -> assigned l <> Some (strip name)).
  { intros l [<- | [<- | [<- | []]]]; intros E; vm_compute in E;
      discriminate E. }
  do 5 (split; [assumption|]).
  exact (last_assignment_wins l1 l2 line name value env Hread Hline Hname
           Hhash Hlast).
Defined.

(** X20: a blank line or a line whose first character other than white
    space is [#] changes nothing, wherever it stands in the file. *)
Theorem comment_lines_are_ignored (l1 l2 : list string) (line : string) :
  skipped line = true ->
  read_lines (l1 ++ line :: l2) = read_lines (l1 ++ l2).
Proof.
  intros Hs. unfold read_lines. rewrite !loop_app. cbn [fold_left].
  destruct (fold_left read_next l1 (Returns [])) as [env1 | r];
    cbn [read_next]; [|reflexivity].
  now rewrite (read_line_skipped env1 line Hs).
Qed.

Lemma comment_lines_are_ignored_witness :
  let line := "  # STAGE=prod" ++ str1 LF in
  skipped line = true
  /\ read_lines (["A=1" ++ str1 LF] ++ line :: ["B=2"])
     = read_lines (["A=1" ++ str1 LF] ++ ["B=2"]).
Proof.
  intros line.
  assert (Hs : skipped line = true) by (vm_compute; reflexivity).
  split; [exact Hs|].
  exact (comment_lines_are_ignored ["A=1" ++ str1 LF] ["B=2"] line Hs).
Defined.

(** X21: the sandbox command gets one option [-e name='value'] for each
    variable of the environment, in the order of the dictionary, appended
    to what the command was; the value stands between single quotes as it
    is. *)
Theorem environment_options (environment : dict string) (cmd : string) :
  Dict.wf environment ->
  LambdaUtils.add_environment environment cmd
  = cmd ++ String.concat "" (map env_option environment).
Proof.
  intros Hwf. unfold LambdaUtils.add_environment.
  apply add_environment_loop.
  intros k v Hin. now apply DictFacts.get_in_wf.
Qed.

Lemma environment_options_witness :
  let environment := [("STAGE", "dev"); ("DB_URL", "postgres://db")] in
  Dict.wf environment
  /\ LambdaUtils.add_environment environment "docker run"
     = "docker run" ++ String.concat "" (map env_option environment).
Proof.
  intros environment.
  assert (Hwf : Dict.wf environment).
  { unfold Dict.wf. cbn. repeat constructor; cbn; intuition discriminate. }
  split; [exact Hwf|].
  exact (environment_options environment "docker run" Hwf).
Defined.

End EnvExtras.

(* ================================================================== *)
(** * The endpoint table *)
(* ================================================================== *)

Module PathFacts.
Import PyStr.

Local Abbreviation without c := (all_chars (fun x => negb (Ascii.eqb x c))).

Lemma rfind_none (c : ascii) (s : string) :
  without c s = true -> rfind c s = (-1)%Z.
Proof.
  induction s as [|a s IH]; [reflexivity|].
  cbn [all_chars rfind]. intros H. apply andb_prop in H as [Ha Hs].
  rewrite (IH Hs). apply negb_true_iff in Ha. now rewrite Ha.
Qed.

Lemma rfind_last (c : ascii) (X t : string) :
  without c t = true ->
  rfind c (X ++ String c t) = Z.of_nat (String.length X).
Proof.
  intros Ht. induction X as [|a X IH].
  - cbn [append rfind String.length]. rewrite (rfind_none c t Ht).
    now rewrite Ascii.eqb_refl.
  - cbn [append rfind String.length]. rewrite IH.
    destruct (Z.leb_spec 0 (Z.of_nat (String.length X))); lia.
Qed.

Lemma substring_prefix (A B : string) :
  substring 0 (String.length A) (A ++ B) = A.
Proof.
  induction A as [|a A IH]; cbn [String.length append substring].
  - now destruct B.
  - now rewrite IH.
Qed.

Lemma substring_skip (A B : string) (n : nat) :
  substring (String.length A) n (A ++ B) = substring 0 n B.
Proof.
  induction A as [|a A IH]; [reflexivity|].
  cbn [String.length append substring]. exact IH.
Qed.

Lemma substring_all (B : string) : substring 0 (String.length B) B = B.
Proof.
  rewrite <- (StrFacts.app_nil_r B) at 2. apply substring_prefix.
Qed.

(** The extension of a path whose last component is a name without dot,
    followed by a dot and an extension. *)
Lemma splitext_of_name (X stem ext : string) :
  without "/" stem = true -> without "." stem = true -> stem <> "" ->
  without "/" ext = true -> without "." ext = true ->
  PosixPath.splitext (X ++ String "/" (stem ++ String "." ext))
  = (X ++ String "/" stem, String "." ext).
Proof.
  intros Hs1 Hs2 Hne He1 He2.
  set (p := X ++ String "/" (stem ++ String "." ext)).
  assert (Hp : p = (X ++ String "/" stem) ++ String "." ext).
  { unfold p. rewrite StrFacts.app_assoc. reflexivity. }
  assert (Hsep : rfind "/" p = Z.of_nat (String.length X)).
  { unfold p. apply rfind_last. rewrite StrFacts.all_chars_app, Hs1.
    cbn [all_chars]. now rewrite He1. }
  assert (Hdot : rfind "." p
                 = Z.of_nat (String.length X + S (String.length stem))).
  { rewrite Hp, (rfind_last "." _ ext He2), StrFacts.length_app.
    reflexivity. }
  unfold PosixPath.splitext. fold p. cbv zeta. rewrite Hsep, Hdot.
  destruct (Z.ltb_spec (Z.of_nat (String.length X))
              (Z.of_nat (String.length X + S (String.length stem))));
    [|lia].
  replace (Z.to_nat (Z.of_nat (String.length X) + 1))
    with (String.length (X ++ "/"))
    by (rewrite StrFacts.length_app; cbn [String.length]; lia).
  replace (Z.to_nat (Z.of_nat (String.length X + S (String.length stem))
                     - Z.of_nat (String.length X) - 1))
    with (String.length stem) by lia.
  assert (Hp2 : p = (X ++ "/") ++ stem ++ String "." ext).
  { unfold p. now rewrite StrFacts.app_assoc. }
  rewrite Hp2 at 1. rewrite substring_skip, substring_prefix.
  assert (Hdots : all_chars (Ascii.eqb ".") stem = false).
  { destruct stem as [|c stem]; [contradiction|].
    cbn [all_chars] in Hs2 |- *. apply andb_prop in Hs2 as [Hc _].
    apply negb_true_iff in Hc. now rewrite Ascii.eqb_sym, Hc. }
  rewrite Hdots. unfold upto, from. rewrite Nat2Z.id.
  replace (String.length X + S (String.length stem))
    with (String.length (X ++ String "/" stem))
    by (rewrite StrFacts.length_app; reflexivity).
  rewrite Hp at 1 2 3. rewrite substring_prefix, substring_skip.
  rewrite StrFacts.length_app.
  replace (String.length (X ++ String "/" stem)
           + String.length (String "." ext)
           - String.length (X ++ String "/" stem))
    with (String.length (String "." ext)) by lia.
  now rewrite substring_all.
Qed.

(** The last component of a file name that does not end in a slash. *)
Lemma last_component (s : string) :
  match last_char s with
  | Some c => negb (Ascii.eqb c "/")
  | None => false
  end = true ->
  exists pre stem,
    s = pre ++ stem /\ without "/" stem = true /\ stem <> ""
    /\ (pre = "" \/ exists pre', pre = pre' ++ "/").
Proof.
  induction s as [|c s IH]; [discriminate|].
  destruct s as [|c2 s].
  - cbn [last_char]. intros Hc.
    exists "", (String c ""). cbn [all_chars]. rewrite Hc.
    repeat split; [discriminate | now left].
  - intros Hlast.
    destruct (IH Hlast) as (pre & stem & Hs & Hstem & Hne & Hpre).
    rewrite Hs. destruct Hpre as [-> | (pre' & ->)].
    + destruct (Ascii.eqb c "/") eqn:Hc.
      * apply Ascii.eqb_eq in Hc. subst c.
        exists "/", stem. repeat split; auto. right. now exists "".
      * exists "", (String c stem). cbn [all_chars append].
        rewrite Hc, Hstem. repeat split; [discriminate | now left].
    + exists (String c pre' ++ "/"), stem. repeat split; auto.
      right. now exists (String c pre').
Qed.

End PathFacts.

Module GatewayFacts.
Import PyStr ApiRouter ApiGateway.

Lemma abind_done {A B} (m : attempt A) (f : A -> attempt B) (b : B) :
  abind m f = Done b -> exists a, m = Done a /\ f a = Done b.
Proof. destruct m as [a | s]; cbn; [now exists a | discriminate]. Qed.

Lemma lib_done {A} (r : result A) (a : A) : lib r = Done a -> r = Ok a.
Proof. destruct r; cbn; intros E; [now injection E as -> | discriminate]. Qed.

(** Every piece [split] gives is free of the separator. *)
Lemma split_pieces (sep : ascii) (s : string) :
  Forall (fun piece =>
            all_chars (fun c => negb (Ascii.eqb c sep)) piece = true)
         (split sep s).
Proof.
  induction s as [|c s IH]; cbn [split].
  - now repeat constructor.
  - destruct (Ascii.eqb c sep) eqn:Hc.
    + now constructor.
    + destruct (split sep s) as [|h t].
      * repeat constructor. cbn. now rewrite Hc.
      * inversion IH as [|? ? Hh Ht]; subst.
        constructor; [|exact Ht]. cbn [all_chars]. now rewrite Hc, Hh.
Qed.

(** The file of a function, seen as a path: some directory, a slash, the
    file name and the extension. *)
Lemma joined_path (A name file EXT : string) :
  exists P,
    path_join A (name ++ "/" ++ file ++ EXT)
    = P ++ String "/" (file ++ EXT).
Proof.
  unfold path_join.
  destruct (prefix "/" (name ++ "/" ++ file ++ EXT)).
  - now exists name.
  - destruct ((A =? "") || _).
    + exists (A ++ name). now rewrite StrFacts.app_assoc.
    + exists (A ++ "/" ++ name). now rewrite !StrFacts.app_assoc.
Qed.

Lemma EXT_of_cases (runtime EXT : string) :
  EXT_of runtime = Some EXT ->
  (EXT = ".py" \/ EXT = ".js")
  /\ LambdaUtils.runtime_of_extension EXT = Ok (family runtime).
Proof.
  unfold EXT_of, family.
  destruct (prefix "python" runtime).
  - intros E. injection E as <-. split; [now left | reflexivity].
  - destruct (prefix "nodejs" runtime); [|discriminate].
    intros E. injection E as <-. split; [now right | reflexivity].
Qed.

(** The extension check of the invoker on the file of a function. *)
Lemma joined_extension (A name file runtime EXT : string) :
  EXT_of runtime = Some EXT ->
  all_chars no_dot file = true ->
  named file = true ->
  LambdaUtils.runtime_of_extension
    (snd (PosixPath.splitext
            (path_join A (name ++ "/" ++ file ++ EXT))))
  = Ok (family runtime).
Proof.
  intros HEXT Hdots Hnamed.
  destruct (EXT_of_cases runtime EXT HEXT) as [Hcases Hrt].
  destruct (joined_path A name file EXT) as (P & ->).
  destruct (PathFacts.last_component file Hnamed)
    as (pre & stem & -> & Hstem & Hne & Hpre).
  unfold no_dot in Hdots. rewrite StrFacts.all_chars_app in Hdots.
  apply andb_prop in Hdots as [_ Hdots].
  assert (Hsplit : forall X ext,
             ext = "py" \/ ext = "js" ->
             snd (PosixPath.splitext
                    (X ++ String "/" (stem ++ String "." ext)))
             = String "." ext).
  { intros X ext Hext.
    rewrite PathFacts.splitext_of_name; auto;
      destruct Hext as [-> | ->]; reflexivity. }
  assert (Hext : exists ext, EXT = String "." ext
                             /\ (ext = "py" \/ ext = "js")).
  { destruct Hcases as [-> | ->]; eexists; split; eauto. }
  destruct Hext as (ext & -> & Hext).
  destruct Hpre as [-> | (pre' & ->)].
  - cbn [append]. now rewrite (Hsplit P ext Hext).
  - replace (P ++ String "/" (((pre' ++ "/") ++ stem) ++ String "." ext))
      with ((P ++ String "/" pre') ++ String "/" (stem ++ String "." ext))
      by (rewrite !StrFacts.app_assoc; reflexivity).
    now rewrite (Hsplit _ ext Hext).
Qed.

Section Table.
Context `{Host} `{TextLib}.
Variable functions_base_dir : string.

(** What the loops keep true of the table. *)
Local Abbreviation sound := (table_ok functions_base_dir).

Lemma events_stop (name runtime handler file : string) (s : stopped)
      (events : list json) :
  fold_left (add_event name runtime handler file) events (Stop s) = Stop s.
Proof. induction events as [|e events IH]; [reflexivity | exact IH]. Qed.

Lemma functions_stop (d : option json) (s : stopped) (l : list json) :
  fold_left (add_function d functions_base_dir) l (Stop s) = Stop s.
Proof. induction l as [|e l IH]; [reflexivity | exact IH]. Qed.

Lemma add_event_sound (name runtime handler path file : string)
      (apis apis' : dict endpoint) (http_event : json) :
  path_exists path = true ->
  all_chars no_dot handler = true ->
  (exists EXT,
      EXT_of runtime = Some EXT
      /\ all_chars no_dot file = true
      /\ path = path_join (path_abspath functions_base_dir)
                  (name ++ "/" ++ file ++ EXT)) ->
  sound apis ->
  add_event name runtime handler path (Done apis) http_event = Done apis' ->
  sound apis'.
Proof.
  intros Hexists Hhandler Hfile (Hwf & Hok & Hrun) Hadd.
  unfold add_event in Hadd. cbn [abind] in Hadd.
  apply abind_done in Hadd as (m0 & _ & Hadd).
  apply abind_done in Hadd as (method & _ & Hadd).
  apply abind_done in Hadd as (p0 & _ & Hadd).
  apply abind_done in Hadd as (route & _ & Hadd).
  destruct (Dict.mem apis (method ++ " " ++ route)) eqn:Hmem;
    [discriminate|].
  injection Hadd as <-.
  assert (Hnone : Dict.get apis (method ++ " " ++ route) = None).
  { unfold Dict.mem in Hmem.
    destruct (Dict.get apis (method ++ " " ++ route)); [discriminate|].
    reflexivity. }
  split; [now apply RouterMore.set_wf|].
  rewrite (DictFacts.set_fresh apis _ _ Hnone).
  split; apply Forall_app; (split; [assumption|]);
    (apply Forall_cons; [|apply Forall_nil]).
  - unfold entry_ok. cbn [fst snd ep_method ep_path ep_filepath ep_handler].
    repeat split; auto. exists file. exact Hfile.
  - unfold runnable. cbn [snd ep_filepath ep_runtime]. split.
    + unfold LambdaUtils.function_missing. now rewrite Hexists.
    + exists file. split; [exact Hfile|].
      intros Hnamed. destruct Hfile as (EXT & HEXT & Hdots & ->).
      now apply joined_extension.
Qed.

Lemma events_sound (name runtime handler path file : string)
      (events : list json) :
  path_exists path = true ->
  all_chars no_dot handler = true ->
  (exists EXT,
      EXT_of runtime = Some EXT
      /\ all_chars no_dot file = true
      /\ path = path_join (path_abspath functions_base_dir)
                  (name ++ "/" ++ file ++ EXT)) ->
  forall apis apis',
    sound apis ->
    fold_left (add_event name runtime handler path) events (Done apis)
    = Done apis' ->
    sound apis'.
Proof.
  intros Hexists Hhandler Hfile.
  induction events as [|e events IH]; intros apis apis' Hs Hfold.
  - now injection Hfold as <-.
  - cbn [fold_left] in Hfold.
    destruct (add_event name runtime handler path (Done apis) e)
      as [apis1 | s] eqn:E.
    + apply (IH apis1 apis'); [|exact Hfold].
      exact (add_event_sound _ _ _ _ _ _ _ _ Hexists Hhandler Hfile Hs E).
    + rewrite events_stop in Hfold. discriminate.
Qed.

Lemma add_function_sound (d : option json) (apis apis' : dict endpoint)
      (FUNCTION : json) :
  sound apis ->
  add_function d functions_base_dir (Done apis) FUNCTION = Done apis' ->
  sound apis'.
Proof.
  intros Hs Hadd. unfold add_function in Hadd. cbn [abind] in Hadd.
  apply abind_done in Hadd as (entry & _ & Hadd).
  apply abind_done in Hadd as (runtime & _ & Hadd).
  destruct (no_runtime runtime); [discriminate|].
  apply abind_done in Hadd as (rt & _ & Hadd).
  destruct (EXT_of rt) as [EXT|] eqn:HEXT;
    [|now injection Hadd as <-].
  apply abind_done in Hadd as (has_handler & _ & Hadd).
  destruct has_handler; [|discriminate]. cbn [negb] in Hadd.
  apply abind_done in Hadd as (h0 & _ & Hadd).
  apply abind_done in Hadd as (handler & _ & Hadd).
  pose proof (split_pieces "." handler) as Hpieces.
  destruct (split "." handler) as [|file [|hname [|x l]]];
    try discriminate.
  inversion Hpieces as [|? ? Hfile Hrest]; subst.
  inversion Hrest as [|? ? Hhname _]; subst.
  apply abind_done in Hadd as (name & _ & Hadd).
  destruct (path_exists _) eqn:Hexists; [|discriminate].
  cbn [negb] in Hadd.
  apply abind_done in Hadd as (has_events & _ & Hadd).
  destruct has_events; [|now injection Hadd as <-].
  apply abind_done in Hadd as (events & _ & Hadd).
  refine (events_sound name rt hname _ file events Hexists Hhname _
            apis apis' Hs Hadd).
  exists EXT. auto.
Qed.

Lemma functions_sound (d : option json) (l : list json) :
  forall apis apis',
    sound apis ->
    fold_left (add_function d functions_base_dir) l (Done apis)
    = Done apis' ->
    sound apis'.
Proof.
  induction l as [|F l IH]; intros apis apis' Hs Hfold.
  - now injection Hfold as <-.
  - cbn [fold_left] in Hfold.
    destruct (add_function d functions_base_dir (Done apis) F)
      as [apis1 | s] eqn:E.
    + exact (IH apis1 apis' (add_function_sound d apis apis1 F Hs E) Hfold).
    + rewrite functions_stop in Hfold. discriminate.
Qed.

Lemma table_sound (sls_config_file_path : string) :
  match extract_http_api_endpoints sls_config_file_path functions_base_dir
  with
  | Done apis => sound apis
  | Stop _ => True
  end.
Proof.
  destruct (extract_http_api_endpoints _ _) as [apis | s] eqn:E;
    [|exact I].
  unfold extract_http_api_endpoints in E.
  destruct (run_cmd _) as [rc out | rc out]; [|discriminate].
  apply abind_done in E as (CONFIG & _ & E).
  unfold endpoints_of in E.
  apply abind_done in E as (d & _ & E).
  apply abind_done in E as (f0 & _ & E).
  apply abind_done in E as (functions & _ & E).
  refine (functions_sound d functions [] apis _ E).
  repeat split; constructor.
Qed.

(** A function of an unsupported runtime leaves the table as it is. *)
Lemma add_function_skips (d : option json) (acc : attempt (dict endpoint))
      (name : string) (config : json) (rest : dict json)
      (runtime : string) :
  function_runtime d config = Ok (Some (JStr runtime)) ->
  runtime <> "" ->
  EXT_of runtime = None ->
  add_function d functions_base_dir acc (JObj ((name, config) :: rest))
  = acc.
Proof.
  intros Hrt Hne HEXT. destruct acc as [apis | s]; [|reflexivity].
  unfold add_function. cbn [abind name_and_config lib fst snd].
  rewrite Hrt. cbn [abind lib no_runtime Json.truthy].
  destruct runtime as [|c r]; [contradiction|].
  cbn [String.eqb negb str_method lib abind]. now rewrite HEXT.
Qed.
End Table.

(** The service of the scenario, in list form: the function of the
    unsupported runtime is skipped, the other one gives one entry. *)
Example extract_list_form :
  @extract_http_api_endpoints GatewayScenario.host RefJson.text_lib
    "/srv/serverless.yml" "/srv/functions"
  = Done [("GET /hello",
           {| ep_function := "hello"; ep_method := "GET";
              ep_path := "/hello"; ep_runtime := "python3.7";
              ep_handler := "main";
              ep_filepath := "/srv/functions/hello/handler.py" |})].
Proof. vm_compute. reflexivity. Qed.

End GatewayFacts.

Module GatewayExtras.
Import PyStr ApiRouter ApiGateway GatewayFacts.

(** X22: in the table [extract_http_api_endpoints] returns, every entry
    stands under the key made of its method, a blank and its path, so that
    no two entries share a method and a path; its file exists and is the
    one named by the handler in the directory of its function, with the
    extension of its runtime, [.py] or [.js]; its handler name has no
    dot. *)
Theorem table_entries (host : Host) (text : TextLib)
        (sls_config_file_path functions_base_dir : string) :
  match extract_http_api_endpoints sls_config_file_path functions_base_dir
  with
  | Done apis =>
      Dict.wf apis /\ Forall (entry_ok functions_base_dir) apis
  | Stop _ => True
  end.
Proof.
  pose proof (table_sound functions_base_dir sls_config_file_path) as Hs.
  destruct (extract_http_api_endpoints _ _); [|exact I].
  destruct Hs as (Hwf & Hok & _). now split.
Qed.

(** X23: every entry of the table passes the first check [run_function]
    makes on a function file, the one of its existence; and it passes the
    second, the one of its extension, with the runtime family of its
    configured runtime, as long as the file name of the handler has a last
    component that is not empty. *)
Theorem table_entries_are_runnable (host : Host) (text : TextLib)
        (sls_config_file_path functions_base_dir : string) :
  match extract_http_api_endpoints sls_config_file_path functions_base_dir
  with
  | Done apis => Forall (runnable functions_base_dir) apis
  | Stop _ => True
  end.
Proof.
  pose proof (table_sound functions_base_dir sls_config_file_path) as Hs.
  destruct (extract_http_api_endpoints _ _); [|exact I].
  now destruct Hs as (_ & _ & Hrun).
Qed.

(** X24: when the [functions] block of the configuration is an object, one
    entry per function, and not a list of objects of one entry each, the
    extraction raises: the loop then visits the names of the functions, and
    a name cannot be indexed by its first character. *)
Theorem functions_object_is_rejected (host : Host) (text : TextLib)
        (sls_config_file_path functions_base_dir : string)
        (returncode : Z) (output : string) (CONFIG : json)
        (d : option json) (name : string) (config : json)
        (rest : dict json) :
  run_cmd (DUMP_CONFIG_CMD sls_config_file_path)
  = CompletedProcess returncode output ->
  JsonLoads.loads_bytes output = Ok CONFIG ->
  default_runtime CONFIG = Ok d ->
  Json.getitem CONFIG FUNCTIONS_TAG = Ok (JObj ((name, config) :: rest)) ->
  extract_http_api_endpoints sls_config_file_path functions_base_dir
  = Stop (Library
            (if name =? "" then IndexError "list index out of range"
             else TypeError "string indices must be integers, not 'str'")).
Proof.
  intros Hrun Hloads Hd Hf.
  unfold extract_http_api_endpoints. rewrite Hrun, Hloads.
  cbn [lib abind]. unfold endpoints_of. rewrite Hd. cbn [lib abind].
  rewrite Hf. cbn [lib abind iterate Dict.keys map fst fold_left].
  replace (add_function d functions_base_dir (Done []) (JStr name))
    with (@Stop (dict endpoint)
            (Library
               (if name =? "" then IndexError "list index out of range"
                else TypeError "string indices must be integers, not 'str'")))
    by (destruct name; reflexivity).
  apply functions_stop.
Qed.

Lemma functions_object_is_rejected_witness :
  let host := RefHost.host ["/srv/functions/hello/handler.py"] []
                (CompletedProcess 0 (Json.dumps GatewayScenario.object_form)) in
  let text := RefJson.text_lib in
  @run_cmd host (DUMP_CONFIG_CMD "/srv/serverless.yml")
  = CompletedProcess 0 (Json.dumps GatewayScenario.object_form)
  /\ @JsonLoads.loads_bytes text (Json.dumps GatewayScenario.object_form)
     = Ok GatewayScenario.object_form
  /\ default_runtime GatewayScenario.object_form
     = Ok (Some (JStr "python3.7"))
  /\ Json.getitem GatewayScenario.object_form FUNCTIONS_TAG
     = Ok (JObj (("hello", GatewayScenario.hello_config) :: []))
  /\ @extract_http_api_endpoints host text "/srv/serverless.yml"
       "/srv/functions"
     = Stop (Library
               (if "hello" =? "" then IndexError "list index out of range"
                else TypeError "string indices must be integers, not 'str'")).
Proof.
  intros host text.
  assert (Hrun : @run_cmd host (DUMP_CONFIG_CMD "/srv/serverless.yml")
                 = CompletedProcess 0
                     (Json.dumps GatewayScenario.object_form))
    by reflexivity.
  assert (Hloads : @JsonLoads.loads_bytes text
                     (Json.dumps GatewayScenario.object_form)
                   = Ok GatewayScenario.object_form)
    by (vm_compute; reflexivity).
  assert (Hd : default_runtime GatewayScenario.object_form
               = Ok (Some (JStr "python3.7"))) by reflexivity.
  assert (Hf : Json.getitem GatewayScenario.object_form FUNCTIONS_TAG
               = Ok (JObj (("hello", GatewayScenario.hello_config) :: [])))
    by reflexivity.
  do 4 (split; [assumption|]).
  exact (functions_object_is_rejected host text "/srv/serverless.yml"
           "/srv/functions" 0 (Json.dumps GatewayScenario.object_form)
           GatewayScenario.object_form (Some (JStr "python3.7")) "hello"
           GatewayScenario.hello_config [] Hrun Hloads Hd Hf).
Defined.

(** X25: a function whose runtime is a name that starts neither with
    [python] nor with [nodejs] is skipped, whatever else its configuration
    holds or lacks: the table is the one of the configuration without that
    function. *)
Theorem unsupported_runtime_is_skipped (host : Host) (text : TextLib)
        (CONFIG CONFIG' : json) (functions_base_dir : string)
        (d : option json) (l1 l2 : list json)
        (name : string) (config : json) (rest : dict json)
        (runtime : string) :
  Json.getitem CONFIG FUNCTIONS_TAG
  = Ok (JArr (l1 ++ JObj ((name, config) :: rest) :: l2)) ->
  Json.setitem CONFIG FUNCTIONS_TAG (JArr (l1 ++ l2)) = Ok CONFIG' ->
  default_runtime CONFIG = Ok d ->
  function_runtime d config = Ok (Some (JStr runtime)) ->
  runtime <> "" ->
  EXT_of runtime = None ->
  endpoints_of CONFIG functions_base_dir
  = endpoints_of CONFIG' functions_base_dir.
Proof.
  intros Hf Hset Hd Hrt Hne HEXT.
  apply EventFacts.setitem_ok in Hset as (c & -> & ->).
  assert (Hd' : default_runtime (JObj (Dict.set c FUNCTIONS_TAG
                                         (JArr (l1 ++ l2)))) = Ok d).
  { rewrite <- Hd. unfold default_runtime. cbn [Json.getitem].
    now rewrite DictFacts.get_set_neq by discriminate. }
  unfold endpoints_of. rewrite Hd, Hd', Hf. cbn [lib abind Json.getitem].
  rewrite DictFacts.get_set_eq. cbn [of_option lib abind iterate].
  rewrite !fold_left_app. cbn [fold_left].
  now rewrite (add_function_skips functions_base_dir d _ name config rest
                 runtime Hrt Hne HEXT).
Qed.

Lemma unsupported_runtime_is_skipped_witness :
  let host := GatewayScenario.host in
  let text := RefJson.text_lib in
  let CONFIG := GatewayScenario.list_form in
  let CONFIG' :=
    JObj [("provider", GatewayScenario.provider);
          ("functions",
           JArr ([] ++ [JObj [("hello", GatewayScenario.hello_config)]]))] in
  Json.getitem CONFIG FUNCTIONS_TAG
  = Ok (JArr ([] ++ JObj (("legacy", GatewayScenario.legacy_config) :: [])
                 :: [JObj [("hello", GatewayScenario.hello_config)]]))
  /\ Json.setitem CONFIG FUNCTIONS_TAG
       (JArr ([] ++ [JObj [("hello", GatewayScenario.hello_config)]]))
     = Ok CONFIG'
  /\ default_runtime CONFIG = Ok (Some (JStr "python3.7"))
  /\ function_runtime (Some (JStr "python3.7")) GatewayScenario.legacy_config
     = Ok (Some (JStr "ruby2.7"))
  /\ "ruby2.7" <> ""
  /\ EXT_of "ruby2.7" = None
  /\ @endpoints_of host CONFIG "/srv/functions"
     = @endpoints_of host CONFIG' "/srv/functions".
Proof.
  intros host text CONFIG CONFIG'.
  assert (Hne : "ruby2.7" <> "") by discriminate.
  do 4 (split; [reflexivity|]). split; [exact Hne|].
  split; [reflexivity|].
  exact (unsupported_runtime_is_skipped host text CONFIG CONFIG'
           "/srv/functions" (Some (JStr "python3.7")) []
           [JObj [("hello", GatewayScenario.hello_config)]]
           "legacy" GatewayScenario.legacy_config [] "ruby2.7"
           eq_refl eq_refl eq_refl eq_refl Hne eq_refl).
Defined.

End GatewayExtras.
